(** * ftp-bridge: the storage backends and the download pipeline

    A shallow embedding of [storage_backend.py] and of
    [download_with_storage_backend] in [main.py], with the properties of the
    path sanitizer, the identity masker, the chunk-size advisor, the backend
    factory and the download pipeline.

    Conventions of the embedding.
    - A Python [str] is the Rocq [string] of its UTF-8 encoding.  Searching,
      splitting and joining act on the bytes, which is exact for UTF-8 text;
      [len], [s[0]] and [s[-1]] act on the characters ([PyStr.chars]).  The
      tables of the Unicode database that Python consults for the characters
      outside ASCII (the class [\w], the case mappings) are not part of the
      repository and are a parameter, [UnicodeData].
    - The download pipeline compares [protocol.lower()] with ASCII words and
      quotes [protocol.upper()] in a message: there the case mappings are
      those of ASCII ([PyStr.lower], [PyStr.upper]), which gives the same
      comparisons as Python, and the same message for an ASCII protocol.
    - The content of a file is a [bytes] object: the [string] of its bytes.
    - A Python [int] is a [Z].
    - A raised exception is a value of [Raised]; a function that may raise
      returns a [Result]. *)

From Stdlib Require Import ZArith Ascii DecimalString.
From Stdlib Require String.
From stdpp Require Import base option list strings gmap.

Local Open Scope Z_scope.

(** ** Exceptions *)

(** The exception classes the program raises or receives from its libraries.
    [LibraryError] stands for any other subclass of [Exception] raised by
    ftplib, paramiko or the operating system. *)
Inductive ExcClass :=
  | ValueError
  | ConnectionError
  | IndexError
  | TypeError
  | ImportError
  | OSError
  | AuthenticationException
  | SSHException
  | LibraryError.

(** [HTTPException] is kept apart: it carries a status code, and
    [except HTTPException] tells it from the other exceptions. *)
Inductive Raised :=
  | Exc (cls : ExcClass) (msg : string)
  | HTTPException (status_code : Z) (detail : string).

(** [str(e)] for the exceptions caught by [except Exception as e]. *)
Definition str_exc (e : Raised) : string :=
  match e with
  | Exc _ msg => msg
  | HTTPException code detail => detail
  end.

Inductive Result (A : Type) :=
  | Return (a : A)
  | Raise (e : Raised).
Arguments Return {A} a.
Arguments Raise {A} e.

Definition rbind {A B} (r : Result A) (k : A -> Result B) : Result B :=
  match r with
  | Return a => k a
  | Raise e => Raise e
  end.

Instance ExcClass_eq_dec : EqDecision ExcClass.
Proof. solve_decision. Defined.

Instance Raised_eq_dec : EqDecision Raised.
Proof. solve_decision. Defined.

(** ** Python string operations *)

Module PyStr.

Definition eqb (a b : string) : bool := String.eqb a b.

(** [s.startswith(p)] *)
Fixpoint startswith (p s : string) : bool :=
  match p, s with
  | EmptyString, _ => true
  | String a p', String b s' => Ascii.eqb a b && startswith p' s'
  | String _ _, EmptyString => false
  end.

(** [needle in hay] *)
Fixpoint contains (needle hay : string) : bool :=
  startswith needle hay ||
  match hay with
  | EmptyString => false
  | String _ hay' => contains needle hay'
  end.

(** [s.split(sep)] for a separator of one character. *)
Fixpoint split (sep : ascii) (s : string) : list string :=
  match s with
  | EmptyString => [EmptyString]
  | String c s' =>
      if Ascii.eqb c sep then EmptyString :: split sep s'
      else match split sep s' with
           | h :: t => String c h :: t
           | [] => [String c EmptyString]
           end
  end.

(** [sep.join(l)] *)
Fixpoint join (sep : string) (l : list string) : string :=
  match l with
  | [] => EmptyString
  | [x] => x
  | x :: l' => x +:+ sep +:+ join sep l'
  end.

(** [s.split(sep, 1)] where [sep in s] holds: the text before the first
    separator and the text after it. *)
Fixpoint split_once (sep : ascii) (s : string) : string * string :=
  match s with
  | EmptyString => (EmptyString, EmptyString)
  | String c s' =>
      if Ascii.eqb c sep then (EmptyString, s')
      else let (l, r) := split_once sep s' in (String c l, r)
  end.

(** [s.lstrip(c)] for a single character. *)
Fixpoint lstrip (c : ascii) (s : string) : string :=
  match s with
  | String a s' => if Ascii.eqb a c then lstrip c s' else s
  | EmptyString => EmptyString
  end.

(** [c * n] *)
Fixpoint repeat (c : string) (n : nat) : string :=
  match n with
  | O => EmptyString
  | S n' => c +:+ repeat c n'
  end.

(** The last byte of [s]: the test [s.endswith(c)] for an ASCII [c] asks
    whether it is [c]. *)
Fixpoint last_byte (s : string) : Result string :=
  match s with
  | EmptyString => Raise (Exc IndexError "string index out of range")
  | String c EmptyString => Return (String c EmptyString)
  | String _ s' => last_byte s'
  end.

Definition in_range (lo hi : N) (c : ascii) : bool :=
  let n := N_of_ascii c in (N.leb lo n && N.leb n hi)%N.

Definition lower_char (c : ascii) : ascii :=
  if in_range 65 90 c then ascii_of_N (N_of_ascii c + 32) else c.

Definition upper_char (c : ascii) : ascii :=
  if in_range 97 122 c then ascii_of_N (N_of_ascii c - 32) else c.

Fixpoint map_chars (f : ascii -> ascii) (s : string) : string :=
  match s with
  | EmptyString => EmptyString
  | String c s' => String (f c) (map_chars f s')
  end.

(** [s.lower()] and [s.upper()] of ASCII text.  Outside ASCII, no character
has one of the letters f, t, p, s as lower case, so that comparing
[s.lower()] with the names of the protocols gives the same answer here and in
Python.  The letter k is also the lower case of the Kelvin sign U+212A: the
search of [connect] for a needle with a k in the lower-cased message of an
[SSHException] may choose another text for its [ConnectionError] at a message
with that sign. *)
Definition lower : string -> string := map_chars lower_char.
Definition upper : string -> string := map_chars upper_char.

(** [str(n)] for an [int] *)
Definition of_int (n : Z) : string := NilZero.string_of_int (Z.to_int n).

(** [len(b)] for a [bytes] object, and the size of a file *)
Definition len (s : string) : Z := Z.of_nat (String.length s).

(** [all(f(c) for c in s)] *)
Fixpoint forallb (f : ascii -> bool) (s : string) : bool :=
  match s with
  | EmptyString => true
  | String c s' => f c && forallb f s'
  end.

(** *** Characters *)

(** A continuation byte of UTF-8: [10xxxxxx]. *)
Definition is_continuation (b : ascii) : bool := in_range 128 191 b.

Definition starts_with_continuation (s : string) : bool :=
  match s with
  | String b _ => is_continuation b
  | EmptyString => false
  end.

(** The characters of [s], each as the string of its bytes: a byte that is
    no continuation byte opens a character, and the continuation bytes after
    it belong to that character.  Bytes that are not the encoding of a [str]
    are cut in pieces all the same; no [str] of the program is such. *)
Fixpoint chars (s : string) : list string :=
  match s with
  | EmptyString => []
  | String b s' =>
      match chars s' with
      | c :: cs =>
          if starts_with_continuation s' then String b c :: cs
          else String b EmptyString :: c :: cs
      | [] => [String b EmptyString]
      end
  end.

(** [len(s)] for a [str] *)
Definition length (s : string) : nat := List.length (chars s).

(** [s[0]]: raises [IndexError] on the empty string. *)
Definition first (s : string) : Result string :=
  match chars s with
  | c :: _ => Return c
  | [] => Raise (Exc IndexError "string index out of range")
  end.

(** [s[-1]] *)
Definition last (s : string) : Result string :=
  match list.last (chars s) with
  | Some c => Return c
  | None => Raise (Exc IndexError "string index out of range")
  end.

(** [s[n:]] *)
Definition drop_chars (n : nat) (s : string) : string :=
  foldr String.append "" (drop n (chars s)).

(** The number of a continuation byte: its six low bits. *)
Definition low_bits (b : ascii) : N := (N_of_ascii b - 128)%N.

(** The code point of a character: [ord(c)].  [None] for bytes that are not
    the UTF-8 encoding of one code point, which no [str] holds. *)
Definition code_point (c : string) : option N :=
  match c with
  | String b0 EmptyString =>
      if in_range 0 127 b0 then Some (N_of_ascii b0) else None
  | String b0 (String b1 EmptyString) =>
      if in_range 194 223 b0 && is_continuation b1
      then Some ((N_of_ascii b0 - 192) * 64 + low_bits b1)%N
      else None
  | String b0 (String b1 (String b2 EmptyString)) =>
      let n := ((N_of_ascii b0 - 224) * 4096 + low_bits b1 * 64
                + low_bits b2)%N in
      if in_range 224 239 b0 && is_continuation b1 && is_continuation b2
         && (2048 <=? n)%N
      then Some n else None
  | String b0 (String b1 (String b2 (String b3 EmptyString))) =>
      let n := ((N_of_ascii b0 - 240) * 262144 + low_bits b1 * 4096
                + low_bits b2 * 64 + low_bits b3)%N in
      if in_range 240 244 b0 && is_continuation b1 && is_continuation b2
         && is_continuation b3 && (65536 <=? n)%N && (n <=? 1114111)%N
      then Some n else None
  | _ => None
  end.

(** [chr(n)]: the UTF-8 encoding of the code point [n]. *)
Definition encode (n : N) : string :=
  let byte (k : N) := ascii_of_N k in
  let cont (k : N) := ascii_of_N (128 + k mod 64) in
  (if n <? 128 then String (byte n) ""
   else if n <? 2048 then String (byte (192 + n / 64)) (String (cont n) "")
   else if n <? 65536 then
     String (byte (224 + n / 4096))
       (String (cont (n / 64)) (String (cont n) ""))
   else
     String (byte (240 + n / 262144))
       (String (cont (n / 4096))
          (String (cont (n / 64)) (String (cont n) ""))))%N.

End PyStr.

(** ** The Unicode database *)

(** The tables Python consults for a code point outside ASCII.  They belong
    to the interpreter, not to the repository, and change with the version
    of Unicode: the embedding takes them as a parameter. *)
Record UnicodeData := {
  (** [str.isalnum]: a letter or a number; with the underscore, the class
      [\w] of [re] on a [str] pattern *)
  is_alnum : N -> bool;
  (** the lowercase and the titlecase mapping of a code point, in UTF-8 *)
  lowercase : N -> string;
  titlecase : N -> string;
  (** the properties Cased and Case_Ignorable *)
  is_cased : N -> bool;
  is_case_ignorable : N -> bool;
}.

(** [c.isalnum()] *)
Definition alnum (u : UnicodeData) (c : string) : bool :=
  match PyStr.code_point c with
  | Some n =>
      if (n <? 128)%N then
        ((48 <=? n) && (n <=? 57) || (65 <=? n) && (n <=? 90)
         || (97 <=? n) && (n <=? 122))%N
      else is_alnum u n
  | None => false
  end.

(** The property Cased of a character. *)
Definition cased (u : UnicodeData) (c : string) : bool :=
  match PyStr.code_point c with
  | Some n =>
      if (n <? 128)%N then
        ((65 <=? n) && (n <=? 90) || (97 <=? n) && (n <=? 122))%N
      else is_cased u n
  | None => false
  end.

(** The property Case_Ignorable: in ASCII the apostrophe, the full stop, the
    colon, the circumflex and the grave accent. *)
Definition case_ignorable (u : UnicodeData) (c : string) : bool :=
  match PyStr.code_point c with
  | Some n =>
      if (n <? 128)%N then
        ((n =? 39) || (n =? 46) || (n =? 58) || (n =? 94) || (n =? 96))%N
      else is_case_ignorable u n
  | None => false
  end.

(** The lowercase and the titlecase mapping of a character. *)
Definition lower_char (u : UnicodeData) (c : string) : string :=
  match PyStr.code_point c with
  | Some n => if (n <? 128)%N then PyStr.lower c else lowercase u n
  | None => c
  end.

Definition title_char (u : UnicodeData) (c : string) : string :=
  match PyStr.code_point c with
  | Some n => if (n <? 128)%N then PyStr.upper c else titlecase u n
  | None => c
  end.

(** The characters after a capital sigma: whether a cased one comes first,
    the case-ignorable ones set aside. *)
Fixpoint followed_by_cased (u : UnicodeData) (rest : list string) : bool :=
  match rest with
  | [] => false
  | c :: rest' =>
      if case_ignorable u c then followed_by_cased u rest' else cased u c
  end.

(** The lower case of the character [c] inside a string (the function
    [lower_ucs4] of CPython): a capital sigma U+03A3 becomes a final sigma
    when a cased character stands before it and none after it, the
    case-ignorable characters set aside; [after_cased] tells the first. *)
Definition lower_one (u : UnicodeData) (after_cased : bool) (c : string)
    (rest : list string) : string :=
  if bool_decide (PyStr.code_point c = Some 931%N) then
    if after_cased && negb (followed_by_cased u rest) then "ς" else "σ"
  else lower_char u c.

Definition next_after_cased (u : UnicodeData) (after_cased : bool)
    (c : string) : bool :=
  if case_ignorable u c then after_cased else cased u c.

Fixpoint lower_chars (u : UnicodeData) (after_cased : bool)
    (cs : list string) : string :=
  match cs with
  | [] => EmptyString
  | c :: rest =>
      lower_one u after_cased c rest
      +:+ lower_chars u (next_after_cased u after_cased c) rest
  end.

(** [s.lower()] *)
Definition str_lower (u : UnicodeData) (s : string) : string :=
  lower_chars u false (PyStr.chars s).

Fixpoint title_chars (u : UnicodeData) (after_cased previous_is_cased : bool)
    (cs : list string) : string :=
  match cs with
  | [] => EmptyString
  | c :: rest =>
      (if previous_is_cased then lower_one u after_cased c rest
       else title_char u c)
      +:+ title_chars u (next_after_cased u after_cased c) (cased u c) rest
  end.

(** [s.title()]: a character is put in title case after one that is not
    cased, and in lower case after a cased one. *)
Definition str_title (u : UnicodeData) (s : string) : string :=
  title_chars u false false (PyStr.chars s).

(** ** [re] and [os.path] *)

(** The class [\w] of a [str] pattern: [c.isalnum()] or the underscore. *)
Definition word_char (u : UnicodeData) (c : string) : bool :=
  alnum u c || PyStr.eqb c "_".

(** The class [[\w\-\.\/]]: word characters, hyphen, dot and separator. *)
Definition path_char (u : UnicodeData) (c : string) : bool :=
  word_char u c || PyStr.eqb c "-" || PyStr.eqb c "." || PyStr.eqb c "/".

(** The tail [[\w\-\.\/]*$] of the pattern, over the characters left.
    Without [re.MULTILINE], [$] matches at the end of the string and also
    just before a newline that is the last character of the string.  A
    newline is not in the class, so the star has to consume every character
    up to that position. *)
Fixpoint match_class_star_dollar (u : UnicodeData) (cs : list string)
    : bool :=
  match cs with
  | [] => true
  | c :: cs' =>
      if path_char u c then match_class_star_dollar u cs'
      else PyStr.eqb c (String "010" "") && bool_decide (cs' = [])
  end.

(** [re.match(r"^\/[\w\-\.\/]*$", path)] is not [None]. *)
Definition re_match_valid_path_pattern (u : UnicodeData) (path : string)
    : bool :=
  match PyStr.chars path with
  | c :: rest => PyStr.eqb c "/" && match_class_star_dollar u rest
  | [] => false
  end.

(** One round of the loop of [posixpath.normpath] over the components. *)
Definition normpath_step (initial_slashes : nat) (new_comps : list string)
    (comp : string) : list string :=
  if PyStr.eqb comp "" || PyStr.eqb comp "." then new_comps
  else if negb (PyStr.eqb comp "..")
          || (Nat.eqb initial_slashes 0 && bool_decide (new_comps = []))
          || match last new_comps with
             | Some l => PyStr.eqb l ".."
             | None => false
             end
       then new_comps ++ [comp]
  else List.removelast new_comps.

(** [os.path.normpath] on POSIX (the function of the Python library
    [posixpath], which the program calls; it is not part of the repository). *)
Definition normpath (path : string) : string :=
  if PyStr.eqb path "" then "."
  else
    let initial_slashes :=
      if PyStr.startswith "/" path then
        if PyStr.startswith "//" path && negb (PyStr.startswith "///" path)
        then 2%nat else 1%nat
      else 0%nat in
    let comps := PyStr.split "/" path in
    let new_comps := fold_left (normpath_step initial_slashes) comps [] in
    let path' := PyStr.repeat "/" initial_slashes +:+ PyStr.join "/" new_comps in
    if PyStr.eqb path' "" then "." else path'.

(** ** [storage_backend.py]: the utilities *)

Definition sanitize_path (u : UnicodeData) (path : string) : Result string :=
  if PyStr.eqb path "" then
    Raise (Exc ValueError "Путь не может быть пустым")
  else if negb (re_match_valid_path_pattern u path) then
    Raise (Exc ValueError
      ("Недопустимый путь: " +:+ path +:+
       ". Разрешены только буквы, цифры, дефисы, точки и слеши."))
  else if PyStr.contains ".." path then
    Raise (Exc ValueError "Обнаружена попытка path traversal (..) в пути")
  else if PyStr.contains "//" path then
    Raise (Exc ValueError "Двойные слеши не допускаются в пути")
  else
    let normalized := normpath path in
    let normalized :=
      if negb (PyStr.startswith "/" normalized)
      then "/" +:+ PyStr.lstrip "/" normalized
      else normalized in
    Return normalized.

Definition mask_user_info (user_string : string) : Result string :=
  if PyStr.eqb user_string "" then Return user_string
  else if PyStr.contains "@" user_string then
    let (local, domain) := PyStr.split_once "@" user_string in
    rbind
      (if (PyStr.length local <=? 2)%nat then
         rbind (PyStr.first local) (fun c => Return (c +:+ "*"))
       else
         rbind (PyStr.first local) (fun c =>
           Return (c +:+ PyStr.repeat "*" (PyStr.length local - 1))))
      (fun masked_local => Return (masked_local +:+ "@" +:+ domain))
  else if (PyStr.length user_string <=? 2)%nat then
    rbind (PyStr.first user_string) (fun c => Return (c +:+ "*"))
  else
    rbind (PyStr.first user_string) (fun c =>
    rbind (PyStr.last user_string) (fun l =>
      Return (c +:+ PyStr.repeat "*" (PyStr.length user_string - 2) +:+ l))).

Definition auto_tune_chunk_size (file_size default_chunk_size : Z) : Z :=
  let large_file_threshold := 10 * 1024 * 1024 in
  if file_size >? large_file_threshold then 64 * 1024
  else default_chunk_size.

(** ** [storage_backend.py]: the backends and their factory *)

(** The three concrete classes of [StorageBackend]. *)
Inductive BackendClass := FTPBackend | FTPSBackend | SFTPBackend.

Instance BackendClass_eq_dec : EqDecision BackendClass.
Proof. solve_decision. Defined.

(** What [self.connection] may hold. *)
Inductive Handle := FTP_handle | FTP_TLS_handle | SFTPClientWrapper_handle.

(** A backend object: the attributes set by [__init__].  [connection] and
    [sftp_client] are the only ones assigned again later. *)
Record StorageBackend := {
  cls : BackendClass;
  host : string;
  port : Z;
  user : string;
  password : string;
  timeout : Z;
  known_hosts_path : option string;
  connection : option Handle;
  sftp_client : option Handle;
}.

Definition set_connection (c : option Handle) (b : StorageBackend) :=
  {| cls := cls b; host := host b; port := port b; user := user b;
     password := password b; timeout := timeout b;
     known_hosts_path := known_hosts_path b;
     connection := c; sftp_client := sftp_client b |}.

Definition set_sftp_client (c : option Handle) (b : StorageBackend) :=
  {| cls := cls b; host := host b; port := port b; user := user b;
     password := password b; timeout := timeout b;
     known_hosts_path := known_hosts_path b;
     connection := connection b; sftp_client := c |}.

Definition get_protocol_name (b : StorageBackend) : string :=
  match cls b with
  | FTPBackend => "ftp"
  | FTPSBackend => "ftps"
  | SFTPBackend => "sftp"
  end.

(** [port or d]: [None] and [0] are both false. *)
Definition port_or (port : option Z) (d : Z) : Z :=
  match port with
  | None => d
  | Some p => if p =? 0 then d else p
  end.

(** [StorageBackendFactory.create_backend]; the two classes built on ftplib
    take no [known_hosts_path]. *)
Definition create_backend (protocol host : string) (port : option Z)
    (user password : string) (timeout : Z) (known_hosts_path : option string)
    : Result StorageBackend :=
  if PyStr.eqb (PyStr.lower protocol) "ftp" then
    let actual_port := port_or port 21 in
    Return {| cls := FTPBackend; host := host; port := actual_port;
              user := user; password := password; timeout := timeout;
              known_hosts_path := None;
              connection := None; sftp_client := None |}
  else if PyStr.eqb (PyStr.lower protocol) "ftps" then
    let actual_port := port_or port 990 in
    Return {| cls := FTPSBackend; host := host; port := actual_port;
              user := user; password := password; timeout := timeout;
              known_hosts_path := None;
              connection := None; sftp_client := None |}
  else if PyStr.eqb (PyStr.lower protocol) "sftp" then
    let actual_port := port_or port 22 in
    Return {| cls := SFTPBackend; host := host; port := actual_port;
              user := user; password := password; timeout := timeout;
              known_hosts_path := known_hosts_path;
              connection := None; sftp_client := None |}
  else
    Raise (Exc ValueError ("Неподдерживаемый протокол: " +:+ protocol)).

(** ** Effects: state and exceptions *)

(** A computation over a state [S] that returns or raises.  The state is kept
    when an exception is raised: what Python has assigned or written before
    the [raise] stays assigned and written. *)
Definition M (S A : Type) : Type := S -> Result A * S.

Definition ret {S A} (a : A) : M S A := fun s => (Return a, s).

Definition raise {S A} (e : Raised) : M S A := fun s => (Raise e, s).

Definition bind {S A B} (m : M S A) (k : A -> M S B) : M S B :=
  fun s =>
    match m s with
    | (Return a, s') => k a s'
    | (Raise e, s') => (Raise e, s')
    end.

Declare Scope py_scope.
Delimit Scope py_scope with py.
Notation "x <- c1 ;; c2" := (bind c1 (fun x => c2))
  (at level 100, c1 at next level, right associativity) : py_scope.
Notation "c1 ;; c2" := (bind c1 (fun _ => c2))
  (at level 100, right associativity) : py_scope.
Local Open Scope py_scope.

Definition gets {S A} (f : S -> A) : M S A := fun s => (Return (f s), s).

Definition modify {S} (f : S -> S) : M S unit := fun s => (Return tt, f s).

(** A function that only returns or raises, called from a computation. *)
Definition lift {S A} (r : Result A) : M S A := fun s => (r, s).

(** [try: body finally: fin], for a [fin] that may itself raise. *)
Definition try_finally {S A} (body : M S A) (fin : M S unit) : M S A :=
  fun s =>
    match body s with
    | (r, s') =>
        match fin s' with
        | (Return _, s'') => (r, s'')
        | (Raise e, s'') => (Raise e, s'')
        end
    end.

(** [try: body except ... as e: handler e]; [handler] decides by the class. *)
Definition try_except {S A} (body : M S A) (handler : Raised -> M S A)
    : M S A :=
  fun s =>
    match body s with
    | (Return a, s') => (Return a, s')
    | (Raise e, s') => handler e s'
    end.

(** ** The world of a run *)

(** What the remote server and the protocol library (ftplib, paramiko) answer
    during one run.  An exception of the library is a [Raised] value. *)
Record Remote := {
  (** [import paramiko] succeeds *)
  paramiko_installed : bool;
  (** connecting and logging in: [None] when they succeed, or what the
      library raises, be it while connecting or, on a connection that is
      open by then, while logging in *)
  connect_result : option Raised;
  (** [connection.size(path)] or [sftp.stat(path).st_size]: an [int], or
      [None] as both libraries may answer, or an exception *)
  size_result : Result (option Z);
  (** the blocks of data the library delivers during the transfer *)
  retr_blocks : list string;
  (** how the transfer ends after these blocks: [None] when it completes *)
  retr_result : option Raised;
}.

(** What the local operating system answers. *)
Record LocalOS := {
  (** [tempfile.mkstemp]: the random part of the name it chose, or its error *)
  mkstemp_result : Result string;
  (** [open(temp_file, 'wb')]: [None] when it succeeds *)
  open_result : option Raised;
}.

(** The calls made on the backend of a run, as a stub would record them,
    each with its outcome: [Connect ok] tells whether [connect] returned,
    [GetFileSize] holds the value returned, and [DownloadToStream] the count
    returned, or [None] when the transfer raised. *)
Inductive Event :=
  | Connect (ok : bool)
  | GetFileSize (remote_path : string) (size : option Z)
  | DownloadToStream (remote_path : string) (returned : option Z)
  | Close.

Instance Event_eq_dec : EqDecision Event.
Proof. solve_decision. Defined.

(** The temporary directory (path to content) and the calls so far, oldest
    first. *)
Record World := {
  files : gmap string string;
  calls : list Event;
}.

Definition log_call (e : Event) (w : World) : World :=
  {| files := files w; calls := calls w ++ [e] |}.

Definition set_files (f : gmap string string) (w : World) : World :=
  {| files := f; calls := calls w |}.

(** ** [storage_backend.py]: the methods of the backends *)

(** The methods run over the object [self] and the world. *)
Definition Obj : Type := StorageBackend * World.

Definition self : M Obj StorageBackend := gets fst.

Definition assign_connection (c : option Handle) : M Obj unit :=
  modify (fun s => (set_connection c s.1, s.2)).

Definition assign_sftp_client (c : option Handle) : M Obj unit :=
  modify (fun s => (set_sftp_client c s.1, s.2)).

Definition record (e : Event) : M Obj unit :=
  modify (fun s => (s.1, log_call e s.2)).

(** [FTPBackend.connect] and [FTPSBackend.connect]: any exception of ftplib
    becomes a [ConnectionError]. *)
Definition ftp_connect (h : Handle) (name : string) (srv : Remote)
    : M Obj unit :=
  assign_connection (Some h) ;;
  match connect_result srv with
  | None => record (Connect true)
  | Some e =>
      record (Connect false) ;;
      raise (Exc ConnectionError
        ("Не удалось подключиться к " +:+ name +:+ " серверу: " +:+ str_exc e))
  end.

(** [SFTPClientWrapper.connect] *)
Definition sftp_wrapper_connect (srv : Remote) (host : string) : M Obj unit :=
  if negb (paramiko_installed srv) then
    raise (Exc ImportError
      "Для SFTP требуется библиотека paramiko: pip install paramiko")
  else
    match connect_result srv with
    | None => ret tt
    | Some (Exc AuthenticationException _) =>
        raise (Exc ConnectionError
          ("Ошибка аутентификации на SFTP сервере " +:+ host))
    | Some (Exc SSHException m) =>
        if PyStr.contains "not found in known_hosts" (PyStr.lower m) then
          raise (Exc ConnectionError
            ("Ключ хоста " +:+ host +:+
             " не найден в known_hosts. Добавьте ключ или настройте KNOWN_HOSTS_PATH"))
        else
          raise (Exc ConnectionError
            ("SSH ошибка при подключении к " +:+ host +:+ ": " +:+ m))
    | Some e =>
        raise (Exc ConnectionError
          ("Не удалось подключиться к SFTP серверу " +:+ host +:+ ": " +:+
           str_exc e))
    end.

(** [connect] of the three classes. *)
Definition connect (srv : Remote) : M Obj unit :=
  b <- self ;;
  match cls b with
  | FTPBackend => ftp_connect FTP_handle "FTP" srv
  | FTPSBackend => ftp_connect FTP_TLS_handle "FTPS" srv
  | SFTPBackend =>
      assign_sftp_client (Some SFTPClientWrapper_handle) ;;
      try_except
        (sftp_wrapper_connect srv (host b))
        (fun e => record (Connect false) ;; raise e) ;;
      assign_connection (Some SFTPClientWrapper_handle) ;;
      record (Connect true)
  end.

(** [get_file_size] of the three classes: the answer of the library, and [0]
    when the library raises. *)
Definition get_file_size (srv : Remote) (remote_path : string)
    : M Obj (option Z) :=
  let size :=
    match size_result srv with
    | Return v => v
    | Raise _ => Some 0
    end in
  record (GetFileSize remote_path size) ;;
  ret size.

(** [local_stream.write(data)] on the file opened at [local_stream]: the data
    is appended and its length returned. *)
Definition stream_write (local_stream : string) (data : string) : M Obj Z :=
  modify (fun s =>
    (s.1, set_files
            (<[local_stream := default "" (files s.2 !! local_stream) +:+ data]>
               (files s.2)) s.2)) ;;
  ret (PyStr.len data).

(** The callback [write_to_stream] (ftplib) and the reading loop (paramiko),
    over the blocks delivered: each block is written and counted. *)
Fixpoint write_blocks (local_stream : string) (blocks : list string)
    (total_bytes : Z) : M Obj Z :=
  match blocks with
  | [] => ret total_bytes
  | data :: blocks' =>
      bytes_written <- stream_write local_stream data ;;
      write_blocks local_stream blocks' (total_bytes + bytes_written)
  end.

(** [download_to_stream] of the three classes: an exception of the library is
    logged and raised again. *)
Definition download_to_stream (srv : Remote) (remote_path local_stream : string)
    : M Obj Z :=
  total_bytes <- write_blocks local_stream (retr_blocks srv) 0 ;;
  match retr_result srv with
  | None =>
      record (DownloadToStream remote_path (Some total_bytes)) ;;
      ret total_bytes
  | Some e =>
      record (DownloadToStream remote_path None) ;;
      raise e
  end.

(** [close] of the three classes.  The errors of [quit] and of the two
    [close] of paramiko are swallowed, and the attributes are reset. *)
Definition close : M Obj unit :=
  record Close ;;
  b <- self ;;
  match cls b with
  | FTPBackend | FTPSBackend =>
      match connection b with
      | Some _ => assign_connection None
      | None => ret tt
      end
  | SFTPBackend =>
      match sftp_client b with
      | Some _ => assign_sftp_client None ;; assign_connection None
      | None => ret tt
      end
  end.

(** [with backend: body]: [__enter__] connects, [__exit__] closes and returns
    [None], so that an exception of [body] goes on after the close.  When
    [connect] raises, [__exit__] is not called. *)
Definition with_backend {A} (srv : Remote) (body : M Obj A) : M Obj A :=
  connect srv ;;
  try_finally body close.

(** ** [main.py]: the download pipeline *)

(** The fields of [settings] the pipeline reads. *)
Record Settings := {
  temp_dir : string;
  max_file_size : Z;
  ftp_timeout : Z;
  settings_known_hosts_path : option string;
}.

(** The dictionary [params] built by [validate_required_params]. *)
Record Params := {
  p_host : string;
  p_user : string;
  p_password : string;
  p_path : string;
  p_file_name : string;
  p_protocol : string;
}.

(** The state of a run of [download_with_storage_backend]: the world, the
    backend object once [storage_operations] has built it, and the local
    variable [temp_file]. *)
Record Frame := {
  world : World;
  backend : option StorageBackend;
  temp_file : option string;
}.

Definition set_world (w : World) (fr : Frame) : Frame :=
  {| world := w; backend := backend fr; temp_file := temp_file fr |}.

Definition set_temp_file (t : option string) (fr : Frame) : Frame :=
  {| world := world fr; backend := backend fr; temp_file := t |}.

(** Runs the methods of the backend [b] in the frame of the pipeline. *)
Definition on_backend {A} (b : StorageBackend) (m : M Obj A) : M Frame A :=
  fun fr =>
    match m (b, world fr) with
    | (r, (b', w')) =>
        (r, {| world := w'; backend := Some b'; temp_file := temp_file fr |})
    end.

(** [os.path.join(dir, name)] *)
Definition path_join (dir name : string) : string :=
  if PyStr.eqb dir "" then name
  else match PyStr.last_byte dir with
       | Return "/" => dir +:+ name
       | _ => dir +:+ "/" +:+ name
       end.

(** [tempfile.mkstemp(dir=..., prefix=..., suffix=...)] followed by
    [os.close(temp_fd)]: an empty file is created under a name made of the
    prefix, a random part and the suffix.  The library returns the name in
    absolute form; here it stays relative to the working directory, and every
    later use is of this same name. *)
Definition mkstemp (os : LocalOS) (dir pre suf : string) : M Frame string :=
  name <- lift (mkstemp_result os) ;;
  let file := path_join dir (pre +:+ name +:+ suf) in
  modify (fun fr => set_world (set_files (<[file := ""]> (files (world fr)))
                                 (world fr)) fr) ;;
  ret file.

(** [file_size > settings.max_file_size]: comparing [None] with an [int]
    raises [TypeError]. *)
Definition py_gt (a : option Z) (b : Z) : Result bool :=
  match a with
  | Some x => Return (x >? b)
  | None =>
      Raise (Exc TypeError
        "'>' not supported between instances of 'NoneType' and 'int'")
  end.

(** [str(file_size)] inside an f-string. *)
Definition str_size (a : option Z) : string :=
  match a with
  | Some x => PyStr.of_int x
  | None => "None"
  end.

(** [with open(temp_file, 'wb') as local_stream: body]: the file is created
    or truncated. *)
Definition with_open_wb {A} (os : LocalOS) (file : string) (body : M Obj A)
    : M Obj A :=
  match open_result os with
  | Some e => raise e
  | None =>
      modify (fun s => (s.1, set_files (<[file := ""]> (files s.2)) s.2)) ;;
      body
  end.

(** The message of the [ValueError] raised by the size check. *)
Definition too_large_message (file_size : option Z) (settings : Settings)
    : string :=
  "Файл слишком большой: " +:+ str_size file_size +:+
  " байт (максимум: " +:+ PyStr.of_int (max_file_size settings) +:+ ")".

(** The block under [with backend:] in [storage_operations]. *)
Definition transfer (srv : Remote) (os : LocalOS) (settings : Settings)
    (params : Params) (temp_file : string) : M Obj Z :=
  file_size <- get_file_size srv (p_path params) ;;
  too_large <- lift (py_gt file_size (max_file_size settings)) ;;
  if too_large : bool then
    raise (Exc ValueError (too_large_message file_size settings))
  else
    downloaded_bytes <-
      with_open_wb os temp_file
        (download_to_stream srv (p_path params) temp_file) ;;
    ret downloaded_bytes.

(** The inner function [storage_operations], run in the executor. *)
Definition storage_operations (srv : Remote) (os : LocalOS)
    (settings : Settings) (params : Params) (temp_file : string)
    : M Frame Z :=
  backend <- lift (create_backend (p_protocol params) (p_host params) None
                     (p_user params) (p_password params)
                     (ftp_timeout settings)
                     (settings_known_hosts_path settings)) ;;
  on_backend backend
    (with_backend srv (transfer srv os settings params temp_file)).

(** [os.path.getsize(temp_file)] *)
Definition getsize (file : string) : M Frame Z :=
  fun fr =>
    match files (world fr) !! file with
    | Some content => (Return (PyStr.len content), fr)
    | None =>
        (Raise (Exc OSError ("No such file or directory: " +:+ file)), fr)
    end.

(** [if temp_file and os.path.exists(temp_file): os.unlink(temp_file)] *)
Definition cleanup_temp_file : M Frame unit :=
  fun fr =>
    match temp_file fr with
    | Some file =>
        if negb (PyStr.eqb file "")
           && bool_decide (is_Some (files (world fr) !! file))
        then (Return tt,
              set_world (set_files (delete file (files (world fr)))
                           (world fr)) fr)
        else (Return tt, fr)
    | None => (Return tt, fr)
    end.

(** The chain of tests on [str(e)] at the end of the second handler. *)
Definition map_error (params : Params) (e : string) : Raised :=
  if PyStr.contains "Name or service not known" e
     || PyStr.contains "Connection refused" e then
    HTTPException 500
      ("Не удалось подключиться к серверу: " +:+ p_host params)
  else if PyStr.contains "530" e || PyStr.contains "Login incorrect" e
          || PyStr.contains "Authentication" e then
    HTTPException 401
      ("Ошибка авторизации на сервере: " +:+ p_host params)
  else if PyStr.contains "550" e || PyStr.contains "No such file" e then
    HTTPException 404 ("Файл не найден: " +:+ p_path params)
  else if PyStr.contains "not found in known_hosts" e then
    HTTPException 400
      "Ключ хоста не найден в known_hosts. Настройте KNOWN_HOSTS_PATH или добавьте ключ хоста."
  else
    HTTPException 500
      ("Ошибка " +:+ PyStr.upper (p_protocol params) +:+ ": " +:+ e).

(** The body of the [try] statement of [download_with_storage_backend].  The
    calls of the logger are left out, but not the call of [mask_user_info]
    that builds their argument. *)
Definition pipeline_body (srv : Remote) (os : LocalOS) (settings : Settings)
    (params : Params) : M Frame (string * Z) :=
  file <- mkstemp os (temp_dir settings)
            ("ftp_bridge_" +:+ p_protocol params +:+ "_")
            ("_" +:+ p_file_name params) ;;
  modify (set_temp_file (Some file)) ;;
  masked_user <- lift (mask_user_info (p_user params)) ;;
  downloaded_bytes <- storage_operations srv os settings params file ;;
  actual_file_size <- getsize file ;;
  if actual_file_size =? 0 then
    raise (HTTPException 500 "Загруженный файл пуст")
  else
    ret (file, actual_file_size).

(** Its two [except] clauses: [except HTTPException] and
    [except Exception as e]. *)
Definition pipeline_handler (params : Params) (e : Raised)
    : M Frame (string * Z) :=
  match e with
  | HTTPException _ _ =>
      cleanup_temp_file ;;
      raise e
  | Exc _ _ =>
      cleanup_temp_file ;;
      masked_user <- lift (mask_user_info (p_user params)) ;;
      raise (map_error params (str_exc e))
  end.

(** [download_with_storage_backend] *)
Definition download_with_storage_backend (srv : Remote) (os : LocalOS)
    (settings : Settings) (params : Params) : M Frame (string * Z) :=
  try_except (pipeline_body srv os settings params) (pipeline_handler params).

(** A run of the pipeline from a temporary directory [fs]: the result and the
    final frame. *)
Definition run (srv : Remote) (os : LocalOS) (settings : Settings)
    (params : Params) (fs : gmap string string)
    : Result (string * Z) * Frame :=
  download_with_storage_backend srv os settings params
    {| world := {| files := fs; calls := [] |};
       backend := None; temp_file := None |}.

(** ** The vocabulary of the specification *)

(** [InvalidPath]: the [ValueError] of [sanitize_path]. *)
Definition InvalidPath (r : Result string) : Prop :=
  exists msg, r = Raise (Exc ValueError msg).

(** [UnsupportedProtocol]: the [ValueError] of the factory. *)
Definition UnsupportedProtocol (protocol : string) : Raised :=
  Exc ValueError ("Неподдерживаемый протокол: " +:+ protocol).

(** [EmptyTransfer]: what the pipeline raises on an empty local file. *)
Definition EmptyTransfer : Raised :=
  HTTPException 500 "Загруженный файл пуст".

(** [FileTooLarge]: the failure of the pipeline that carries the message of
    the size check. *)
Definition FileTooLarge (e : Raised) : bool :=
  PyStr.contains "Файл слишком большой" (str_exc e).

(** A message holds one of the substrings that [map_error] looks for. *)
Definition holds_known_needle (e : string) : bool :=
  PyStr.contains "Name or service not known" e
  || PyStr.contains "Connection refused" e
  || PyStr.contains "530" e || PyStr.contains "Login incorrect" e
  || PyStr.contains "Authentication" e
  || PyStr.contains "550" e || PyStr.contains "No such file" e
  || PyStr.contains "not found in known_hosts" e.

(** The string made of a newline. *)
Definition newline : string := String "010" "".

(** The shape of a path in the words of the specification: a leading
    separator followed only by word characters, hyphens, dots and separators. *)
Definition spec_path_shape (u : UnicodeData) (path : string) : bool :=
  match PyStr.chars path with
  | c :: rest => PyStr.eqb c "/" && forallb (path_char u) rest
  | [] => false
  end.

(** The default ports in the words of the specification. *)
Definition default_port (c : BackendClass) : Z :=
  match c with
  | FTPBackend => 21
  | FTPSBackend => 990
  | SFTPBackend => 22
  end.

(** The data streamed by a transfer, and its length. *)
Definition streamed_content (srv : Remote) : string :=
  foldr String.append "" (retr_blocks srv).

Definition streamed_bytes (srv : Remote) : Z :=
  PyStr.len (streamed_content srv).

(** The spooled file of a run, if one was allocated, is not in the temporary
    directory. *)
Definition spooled_file_deleted (fr : Frame) : Prop :=
  forall file, temp_file fr = Some file -> files (world fr) !! file = None.

(** The backend of a run was built and holds no connection. *)
Definition backend_closed (fr : Frame) : Prop :=
  exists b, backend fr = Some b /\ connection b = None.

(** The shapes of a run of the pipeline: its calls on the backend, what it
    returns or raises, and the state it leaves. *)
Inductive run_shape (srv : Remote) (os : LocalOS) (settings : Settings)
    (params : Params) : Result (string * Z) -> Frame -> Prop :=
  | failed_before_connect e fr :
      calls (world fr) = [] ->
      spooled_file_deleted fr ->
      run_shape srv os settings params (Raise e) fr
  | failed_to_connect e fr :
      calls (world fr) = [Connect false] ->
      spooled_file_deleted fr ->
      run_shape srv os settings params (Raise e) fr
  | size_not_an_int e fr :
      calls (world fr) =
        [Connect true; GetFileSize (p_path params) None; Close] ->
      backend_closed fr ->
      is_Some (temp_file fr) ->
      spooled_file_deleted fr ->
      run_shape srv os settings params (Raise e) fr
  | size_too_large z fr :
      calls (world fr) =
        [Connect true; GetFileSize (p_path params) (Some z); Close] ->
      max_file_size settings < z ->
      backend_closed fr ->
      is_Some (temp_file fr) ->
      spooled_file_deleted fr ->
      run_shape srv os settings params
        (Raise (map_error params (too_large_message (Some z) settings))) fr
  | open_failed z e fr :
      calls (world fr) =
        [Connect true; GetFileSize (p_path params) (Some z); Close] ->
      z <= max_file_size settings ->
      open_result os <> None ->
      backend_closed fr ->
      is_Some (temp_file fr) ->
      spooled_file_deleted fr ->
      run_shape srv os settings params (Raise e) fr
  | transfer_failed z e fr :
      calls (world fr) =
        [Connect true; GetFileSize (p_path params) (Some z);
         DownloadToStream (p_path params) None; Close] ->
      z <= max_file_size settings ->
      retr_result srv <> None ->
      backend_closed fr ->
      is_Some (temp_file fr) ->
      spooled_file_deleted fr ->
      run_shape srv os settings params (Raise e) fr
  | transfer_empty z fr :
      calls (world fr) =
        [Connect true; GetFileSize (p_path params) (Some z);
         DownloadToStream (p_path params) (Some 0); Close] ->
      z <= max_file_size settings ->
      streamed_bytes srv = 0 ->
      backend_closed fr ->
      is_Some (temp_file fr) ->
      spooled_file_deleted fr ->
      run_shape srv os settings params (Raise EmptyTransfer) fr
  | transfer_done z file fr :
      calls (world fr) =
        [Connect true; GetFileSize (p_path params) (Some z);
         DownloadToStream (p_path params) (Some (streamed_bytes srv)); Close] ->
      z <= max_file_size settings ->
      streamed_bytes srv <> 0 ->
      backend_closed fr ->
      temp_file fr = Some file ->
      files (world fr) !! file = Some (streamed_content srv) ->
      run_shape srv os settings params
        (Return (file, streamed_bytes srv)) fr.

(** ** Stubs *)

(** A server that accepts the connection and completes the transfer: it
    answers [size] to the size query and streams [blocks]. *)
Definition stub (size : Result (option Z)) (blocks : list string) : Remote :=
  {| paramiko_installed := true; connect_result := None;
     size_result := size; retr_blocks := blocks; retr_result := None |}.

(** A server whose transfer breaks after [blocks]. *)
Definition broken_stub (size : Result (option Z)) (blocks : list string)
    (e : Raised) : Remote :=
  {| paramiko_installed := true; connect_result := None;
     size_result := size; retr_blocks := blocks; retr_result := Some e |}.

Definition example_os : LocalOS :=
  {| mkstemp_result := Return "k3x9q2vb"; open_result := None |}.

(** The defaults of [config.py]. *)
Definition example_settings : Settings :=
  {| temp_dir := "./temp"; max_file_size := 1073741824; ftp_timeout := 30;
     settings_known_hosts_path := None |}.

Definition example_params : Params :=
  {| p_host := "ftp.example.com"; p_user := "jo@example.com";
     p_password := "secret"; p_path := "/reports/data.csv";
     p_file_name := "data.csv"; p_protocol := "ftp" |}.

(** A table for the examples: of the characters outside ASCII it knows the
    Russian letters, capital and small: U+0410 to U+044F, U+0401 and
    U+0451. *)
Definition russian_letter (n : N) : bool :=
  ((1040 <=? n) && (n <=? 1103) || (n =? 1025) || (n =? 1105))%N.

Definition example_unicode : UnicodeData :=
  {| is_alnum := russian_letter;
     lowercase := fun n =>
       PyStr.encode (if ((1040 <=? n) && (n <=? 1071))%N then n + 32
                     else if (n =? 1025)%N then 1105 else n)%N;
     titlecase := fun n =>
       PyStr.encode (if ((1072 <=? n) && (n <=? 1103))%N then n - 32
                     else if (n =? 1105)%N then 1025 else n)%N;
     is_cased := russian_letter;
     is_case_ignorable := fun _ => false |}.

(** ** Components of a path *)

(** A character that is not the separator. *)
Definition not_sep (a : ascii) : bool := negb (Ascii.eqb a "/").

(** The components [normpath] keeps: neither empty nor a single dot. *)
Definition keep (c : string) : bool :=
  negb (PyStr.eqb c "" || PyStr.eqb c ".").

(** Text made of characters of the class of the pattern. *)
Definition class_text (u : UnicodeData) (s : string) : bool :=
  forallb (path_char u) (PyStr.chars s).

(** A component of a normalised valid path. *)
Definition good_comp (u : UnicodeData) (c : string) : Prop :=
  keep c = true
  /\ PyStr.forallb not_sep c = true
  /\ class_text u c = true
  /\ PyStr.contains ".." c = false.

(** * The rest of the service *)

(** ** More of Python's strings, [pathlib] and files *)

(** [b[:n]] and [b[n:]] for [n >= 0], in bytes. *)
Fixpoint take (n : nat) (s : string) : string :=
  match n, s with
  | S n', String c s' => String c (take n' s')
  | _, _ => EmptyString
  end.

Fixpoint drop (n : nat) (s : string) : string :=
  match n, s with
  | S n', String _ s' => drop n' s'
  | _, _ => s
  end.

(** [s.rfind(c)] for an ASCII character: the index of its last occurrence,
    in bytes. *)
Fixpoint rfind (c : ascii) (s : string) : option nat :=
  match s with
  | EmptyString => None
  | String a s' =>
      match rfind c s' with
      | Some i => Some (S i)
      | None => if Ascii.eqb a c then Some 0%nat else None
      end
  end.

(** [PurePosixPath(s).name]: the last of the components that are neither
    empty nor a single dot, or the empty string when there is none (the
    function of the Python library [pathlib]). *)
Definition path_name (s : string) : string :=
  default "" (last (List.filter keep (PyStr.split "/" s))).

(** [PurePosixPath(s).suffix]: the name from its last dot on, unless that dot
    is the first or the last character of the name.  The index of the dot is
    counted in bytes here and in characters in Python: the two tests and the
    slice are the same, a dot being one byte. *)
Definition path_suffix (s : string) : string :=
  let name := path_name s in
  match rfind "." name with
  | Some i =>
      if (0 <? i)%nat && (i <? String.length name - 1)%nat then drop i name
      else ""
  | None => ""
  end.

(** [f.read(n)] on what is left of a file: the bytes read and the bytes left.
    A negative [n] reads everything. *)
Definition file_read (n : Z) (rest : string) : string * string :=
  if n <? 0 then (rest, "")
  else (take (Z.to_nat n) rest, drop (Z.to_nat n) rest).

(** The loop [while True: chunk = f.read(chunk_size); if not chunk: break;
    yield chunk], run until the generator is exhausted: the chunks yielded.
    [None] when [fuel] rounds were not enough to reach the [break]. *)
Fixpoint read_loop (fuel : nat) (chunk_size : Z) (rest : string)
    : option (list string) :=
  match fuel with
  | O => None
  | S fuel' =>
      let (chunk, rest') := file_read chunk_size rest in
      if PyStr.eqb chunk "" then Some []
      else cons chunk <$> read_loop fuel' chunk_size rest'
  end.

(** ** [config.py] *)

Inductive ProtocolType := FTP | FTPS | SFTP.

(** [ProtocolType.value] *)
Definition protocol_value (p : ProtocolType) : string :=
  match p with
  | FTP => "ftp"
  | FTPS => "ftps"
  | SFTP => "sftp"
  end.

(** The fields of [settings] read by the routes of [main.py], besides those
    of the pipeline. *)
Record AppSettings := {
  pipeline_settings : Settings;
  degraded_mode : bool;
  default_protocol : ProtocolType;
  chunk_size : Z;
  allowed_extensions : gset string;
  client_tokens : gmap string string;
}.

(** [Settings.validate_token] *)
Definition settings_validate_token (cfg : AppSettings) (token : string)
    : bool :=
  bool_decide (is_Some (client_tokens cfg !! token)).

(** [Settings.get_client_name] *)
Definition get_client_name (cfg : AppSettings) (token : string) : string :=
  default "Unknown Client" (client_tokens cfg !! token).

(** [Settings.is_file_allowed] *)
Definition is_file_allowed (u : UnicodeData) (cfg : AppSettings)
    (filename : string) : bool :=
  let file_ext := str_lower u (path_suffix filename) in
  bool_decide (file_ext ∈ allowed_extensions cfg).

(** [s.replace(a, b)] for single characters. *)
Definition replace_char (a b : ascii) : string -> string :=
  PyStr.map_chars (fun c => if Ascii.eqb c a then b else c).

(** The string made of a double quote. *)
Definition dquote : string := String "034" "".

(** The loop of [_load_client_tokens] over the items of [os.environ]. *)
Fixpoint load_tokens_loop (u : UnicodeData) (min_token_length : Z)
    (environ : list (string * string)) (tokens : gmap string string)
    : Result (gmap string string) :=
  match environ with
  | [] => Return tokens
  | (key, value) :: environ' =>
      if PyStr.startswith "FTP_BRIDGE_TOKEN_" key
         && (17 <? PyStr.length key)%nat then
        let client_name :=
          str_title u (replace_char "_" " " (PyStr.drop_chars 17 key)) in
        if Z.of_nat (PyStr.length value) >=? min_token_length then
          load_tokens_loop u min_token_length environ'
            (<[value := client_name]> tokens)
        else
          Raise (Exc ValueError
            ("Токен для " +:+ client_name +:+ " слишком короткий (минимум "
             +:+ PyStr.of_int min_token_length +:+ " символов)"))
      else load_tokens_loop u min_token_length environ' tokens
  end.

(** [_load_client_tokens]: the value assigned to [client_tokens]. *)
Definition load_client_tokens (u : UnicodeData) (min_token_length : Z)
    (environ : list (string * string)) : Result (gmap string string) :=
  rbind (load_tokens_loop u min_token_length environ ∅) (fun tokens =>
    if bool_decide (tokens = ∅) then
      Raise (Exc ValueError
        ("🚨 КРИТИЧЕСКАЯ ОШИБКА: Не найдено ни одного токена!" +:+ newline +:+
         "Установите токены через переменные окружения:" +:+ newline +:+
         "export FTP_BRIDGE_TOKEN_CLIENT1=your_secure_32_char_token_here"
         +:+ newline +:+
         "export FTP_BRIDGE_TOKEN_POWERBI=another_secure_token_here"
         +:+ newline +:+ newline +:+
         "Минимальная длина токена: " +:+ PyStr.of_int min_token_length +:+
         " символов" +:+ newline +:+
         "Генерация токена: python -c " +:+ dquote +:+
         "import secrets; print(secrets.token_hex(16))" +:+ dquote))
    else Return tokens).

(** The part of an identity that [mask_user_info] masks: the text before the
    first at sign, or the whole identity when it has none. *)
Definition name_part (user_string : string) : string :=
  if PyStr.contains "@" user_string
  then (PyStr.split_once "@" user_string).1
  else user_string.

(** ** [main.py]: the routes *)

(** [validate_token]: the dependency of the two routes. *)
Definition validate_token (cfg : AppSettings) (token : string)
    : Result string :=
  if negb (settings_validate_token cfg token) then
    Raise (HTTPException 403 "Access Denied: Invalid token")
  else Return token.

(** [validate_required_params].  [sftp_available] is the module variable
    [SFTP_AVAILABLE].  The text of the allowed extensions follows the order
    of iteration of the set, which Python leaves open. *)
Definition validate_required_params (u : UnicodeData) (cfg : AppSettings)
    (sftp_available : bool) (host user password path protocol : string)
    : Result Params :=
  if degraded_mode cfg then
    Raise (HTTPException 503
      "Сервис запущен в режиме деградации - FTP функции недоступны")
  else
    match sanitize_path u path with
    | Raise (Exc ValueError e) =>
        Raise (HTTPException 400 ("Недопустимый путь: " +:+ e))
    | Raise e => Raise e
    | Return sanitized_path =>
        let file_name := path_name sanitized_path in
        if PyStr.eqb file_name "" then
          Raise (HTTPException 400 "Имя файла не указано в пути")
        else if negb (is_file_allowed u cfg file_name) then
          Raise (HTTPException 400
            ("Недопустимое расширение файла. Разрешены: " +:+
             PyStr.join ", " (elements (allowed_extensions cfg))))
        else
          rbind
            (if PyStr.eqb protocol "auto" then
               Return (protocol_value (default_protocol cfg))
             else if negb (PyStr.eqb protocol "ftp" || PyStr.eqb protocol "ftps"
                           || PyStr.eqb protocol "sftp") then
               Raise (HTTPException 400
                 "Недопустимый протокол. Используйте: ftp, ftps, sftp")
             else Return protocol)
            (fun protocol =>
               if PyStr.eqb protocol "sftp" && negb sftp_available then
                 Raise (HTTPException 400
                   "SFTP поддержка недоступна. Установите paramiko.")
               else
                 Return {| p_host := host; p_user := user;
                           p_password := password; p_path := sanitized_path;
                           p_file_name := file_name; p_protocol := protocol |})
    end.

(** The generator [file_streamer], iterated to its end over the temporary
    directory [fs]: the chunks it yields, or the exception of [open], and the
    directory it leaves.  The [finally] clause unlinks the file when it
    exists.  [None] when [fuel] rounds of the loop were not enough. *)
Definition file_streamer (cfg : AppSettings) (file_path : string)
    (file_size : Z) (fuel : nat) (fs : gmap string string)
    : option (Result (list string) * gmap string string) :=
  let chunk_size := auto_tune_chunk_size file_size (chunk_size cfg) in
  match fs !! file_path with
  | None =>
      Some (Raise (Exc OSError ("No such file or directory: " +:+ file_path)),
            fs)
  | Some content =>
      match read_loop fuel chunk_size content with
      | None => None
      | Some chunks => Some (Return chunks, delete file_path fs)
      end
  end.

(** A [StreamingResponse]: its status, media type and headers, and the
    arguments of the [file_streamer] that makes its body ([None] for the
    empty body of the HEAD route). *)
Record Response := {
  status_code : Z;
  media_type : option string;
  headers : list (string * string);
  body : option (string * Z);
}.

(** The inner function [get_file_metadata] of the HEAD route. *)
Definition get_file_metadata (srv : Remote) (cfg : AppSettings)
    (params : Params) : M Frame (option Z * string) :=
  backend <- lift (create_backend (p_protocol params) (p_host params) None
                     (p_user params) (p_password params)
                     (ftp_timeout (pipeline_settings cfg))
                     (settings_known_hosts_path (pipeline_settings cfg))) ;;
  on_backend backend
    (with_backend srv
       (file_size <- get_file_size srv (p_path params) ;;
        b <- self ;;
        let protocol_name := get_protocol_name b in
        ret (file_size, protocol_name))).

(** [head_download_file], given the validated [params] and [token]. *)
Definition head_download_file (srv : Remote) (cfg : AppSettings)
    (params : Params) (token : string) : M Frame Response :=
  try_except
    (masked_user <- lift (mask_user_info (p_user params)) ;;
     meta <- get_file_metadata srv cfg params ;;
     let (file_size, protocol_name) := meta : option Z * string in
     too_large <- lift (py_gt file_size
                          (max_file_size (pipeline_settings cfg))) ;;
     if too_large : bool then
       raise (HTTPException 413
                (too_large_message file_size (pipeline_settings cfg)))
     else
       let client_name := get_client_name cfg token in
       ret {| status_code := 200;
              media_type := None;
              headers :=
                [("X-File-Size", str_size file_size);
                 ("X-Protocol", protocol_name);
                 ("X-File-Name", p_file_name params);
                 ("Content-Length", str_size file_size);
                 ("Cache-Control", "no-cache")];
              body := None |})
    (fun e =>
       match e with
       | HTTPException _ _ => raise e
       | Exc _ _ =>
           masked_user <- lift (mask_user_info (p_user params)) ;;
           raise (HTTPException 500
                    ("Ошибка получения метаданных: " +:+ str_exc e))
       end).

(** The table [mime_types] of [download_file], with its default. *)
Definition mime_type (file_extension : string) : string :=
  if PyStr.eqb file_extension ".xlsx" then
    "application/vnd.openxmlformats-officedocument.spreadsheetml.sheet"
  else if PyStr.eqb file_extension ".xls" then "application/vnd.ms-excel"
  else if PyStr.eqb file_extension ".csv" then "text/csv"
  else if PyStr.eqb file_extension ".txt" then "text/plain"
  else if PyStr.eqb file_extension ".pdf" then "application/pdf"
  else if PyStr.eqb file_extension ".zip" then "application/zip"
  else if PyStr.eqb file_extension ".json" then "application/json"
  else if PyStr.eqb file_extension ".xml" then "application/xml"
  else "application/octet-stream".

(** [download_file], given the validated [params] and [token]. *)
Definition download_file (u : UnicodeData) (srv : Remote) (os : LocalOS)
    (cfg : AppSettings) (params : Params) (token : string)
    : M Frame Response :=
  try_except
    (downloaded <- download_with_storage_backend srv os
                     (pipeline_settings cfg) params ;;
     let (temp_file_path, file_size) := downloaded : string * Z in
     let file_extension := str_lower u (path_suffix (p_file_name params)) in
     let media_type := mime_type file_extension in
     let client_name := get_client_name cfg token in
     masked_user <- lift (mask_user_info (p_user params)) ;;
     ret {| status_code := 200;
            media_type := Some media_type;
            headers :=
              [("Content-Disposition",
                "attachment; filename=" +:+ dquote +:+ p_file_name params
                +:+ dquote);
               ("Content-Length", PyStr.of_int file_size);
               ("Cache-Control", "no-cache");
               ("X-File-Source", "FTP-Bridge");
               ("X-File-Size", PyStr.of_int file_size);
               ("X-Protocol-Used", p_protocol params);
               ("X-Auto-Chunk-Tuned",
                if file_size >? 10 * 1024 * 1024 then "true" else "false");
               ("Retry-After", "60")];
            body := Some (temp_file_path, file_size) |})
    (fun e =>
       match e with
       | HTTPException _ _ => raise e
       | Exc _ _ =>
           masked_user <- lift (mask_user_info (p_user params)) ;;
           raise (HTTPException 500
                    ("Внутренняя ошибка сервера: " +:+ str_exc e))
       end).

(** The frame in which a request starts, over the temporary directory [fs]. *)
Definition initial_frame (fs : gmap string string) : Frame :=
  {| world := {| files := fs; calls := [] |};
     backend := None; temp_file := None |}.

(** The header [name] of a response. *)
Definition header (name : string) (r : Response) : option string :=
  snd <$> List.find (fun h => PyStr.eqb (fst h) name) (headers r).

Definition example_cfg : AppSettings :=
  {| pipeline_settings := example_settings;
     degraded_mode := false;
     default_protocol := FTPS;
     chunk_size := 8192;
     allowed_extensions :=
       list_to_set [".txt"; ".csv"; ".xlsx"; ".xls"; ".pdf"; ".zip"; ".json";
                    ".xml"; ".tsv"; ".dat"; ".log"];
     client_tokens := {[ "0123456789abcdef0123456789abcdef" := "Power Bi" ]} |}.

(** A server that refuses the connection with [e]. *)
Definition refusing_stub (e : Raised) : Remote :=
  {| paramiko_installed := true; connect_result := Some e;
     size_result := Return (Some 0); retr_blocks := []; retr_result := None |}.

(** An FTP backend as the factory builds it. *)
Definition example_backend : StorageBackend :=
  {| cls := FTPBackend; host := "ftp.example.com"; port := 21;
     user := "jo@example.com"; password := "secret"; timeout := 30;
     known_hosts_path := None; connection := None; sftp_client := None |}.

(** A request whose user starts with an at sign. *)
Definition at_sign_params : Params :=
  {| p_host := "ftp.example.com"; p_user := "@example.com";
     p_password := "secret"; p_path := "/reports/data.csv";
     p_file_name := "data.csv"; p_protocol := "ftp" |}.

(** The parameters of a validated request for [/отчеты/./данные.csv]. *)
Definition validated_example : Params :=
  {| p_host := "ftp.example.com"; p_user := "jo@example.com";
     p_password := "secret"; p_path := "/отчеты/данные.csv";
     p_file_name := "данные.csv"; p_protocol := "ftps" |}.

(** What [get_file_size] returns on the server [srv]. *)
Definition reported_size (srv : Remote) : option Z :=
  match size_result srv with
  | Return v => v
  | Raise _ => Some 0
  end.

(** The test of [_load_client_tokens] on the name of an environment
    variable: the prefix, and something after it. *)
Definition token_variable (key : string) : bool :=
  PyStr.startswith "FTP_BRIDGE_TOKEN_" key && (17 <? PyStr.length key)%nat.

(** An environment with one token among other variables. *)
Definition example_environ : list (string * string) :=
  [("PATH", "/usr/bin");
   ("FTP_BRIDGE_TOKEN_POWER_BI", "0123456789abcdef0123456789abcdef");
   ("FTP_BRIDGE_TOKEN_", "prefix-only-is-no-token-variable")].

(** * Properties *)

(** ** ChunkSizeAdvisor *)

Example advise_large : auto_tune_chunk_size (20 * 1024 * 1024) 8192 = 65536.
Proof. reflexivity. Qed.

Example advise_small : auto_tune_chunk_size 1024 8192 = 8192.
Proof. reflexivity. Qed.

(** C9: [auto_tune_chunk_size] returns 65536 when the file size is strictly
    above 10 MiB, and the default chunk size otherwise, also at exactly
    10 MiB.  It is a function of its two arguments, defined on all of them. *)
Theorem auto_tune_chunk_size_spec (file_size default_chunk_size : Z) :
  auto_tune_chunk_size file_size default_chunk_size =
    (if decide (10 * 1024 * 1024 < file_size) then 65536
     else default_chunk_size)
  /\ auto_tune_chunk_size (10 * 1024 * 1024) default_chunk_size =
       default_chunk_size.
Proof.
  split.
  - unfold auto_tune_chunk_size.
    case_decide as Hlt.
    + apply Z.gtb_lt in Hlt. by rewrite Hlt.
    + destruct (file_size >? 10 * 1024 * 1024) eqn:Hgt; [|done].
      apply Z.gtb_lt in Hgt. lia.
  - reflexivity.
Qed.

(** ** BackendFactory *)

Section factory.
Context (h u pw : string) (t : Z) (k : option string).

Local Abbreviation create protocol p :=
  (create_backend protocol h p u pw t k).

Lemma create_backend_inv protocol p b :
  create protocol p = Return b ->
  get_protocol_name b = PyStr.lower protocol
  /\ port b = port_or p (default_port (cls b))
  /\ connection b = None /\ sftp_client b = None.
Proof.
  unfold create_backend, PyStr.eqb.
  repeat case_match; intros; simplify_eq; cbn;
    repeat match goal with
           | H : String.eqb _ _ = true |- _ => apply String.eqb_eq in H
           end; auto.
Qed.

Lemma create_backend_recognized protocol p :
  PyStr.lower protocol ∈ ["ftp"; "ftps"; "sftp"] ->
  exists b, create protocol p = Return b.
Proof.
  intros Hin. unfold create_backend, PyStr.eqb.
  repeat case_match; eauto.
  repeat match goal with
         | H : String.eqb _ _ = false |- _ => apply String.eqb_neq in H
         end.
  rewrite !elem_of_cons, elem_of_nil in Hin.
  destruct Hin as [?|[?|[?|[]]]]; congruence.
Qed.

Lemma create_backend_unrecognized protocol p :
  PyStr.lower protocol ∉ ["ftp"; "ftps"; "sftp"] ->
  create protocol p = Raise (UnsupportedProtocol protocol).
Proof.
  intros Hin. unfold create_backend, PyStr.eqb.
  rewrite !elem_of_cons, elem_of_nil in Hin.
  repeat case_match; try done;
    match goal with
    | H : String.eqb _ _ = true |- _ => apply String.eqb_eq in H
    end; tauto.
Qed.

(** C8: the factory accepts a protocol exactly when its lower-cased form is
    ftp, ftps or sftp.  The backend then has that name, the default port of
    its class when no port is given, and no connection; any other protocol
    raises the [ValueError] of an unsupported protocol. *)
Theorem create_backend_spec (protocol : string) (p : option Z) :
  (PyStr.lower protocol ∈ ["ftp"; "ftps"; "sftp"] ->
     exists b, create protocol p = Return b
       /\ get_protocol_name b = PyStr.lower protocol
       /\ (p = None -> port b = default_port (cls b))
       /\ connection b = None /\ sftp_client b = None)
  /\ (PyStr.lower protocol ∉ ["ftp"; "ftps"; "sftp"] ->
        create protocol p = Raise (UnsupportedProtocol protocol)).
Proof.
  split.
  - intros Hin.
    destruct (create_backend_recognized protocol p Hin) as [b Hb].
    destruct (create_backend_inv _ _ _ Hb) as (Hn & Hp & Hc & Hs).
    exists b. repeat split; auto.
    intros ->. exact Hp.
  - apply create_backend_unrecognized.
Qed.

(** C10: with port 0 the factory builds, for each of the three protocols,
    a backend on the default port of the protocol, not on port 0. *)
Theorem create_backend_port_zero (protocol : string) :
  PyStr.lower protocol ∈ ["ftp"; "ftps"; "sftp"] ->
  exists b, create protocol (Some 0) = Return b
    /\ get_protocol_name b = PyStr.lower protocol
    /\ port b = default_port (cls b)
    /\ port b <> 0
    /\ create protocol (Some 0) = create protocol None.
Proof.
  intros Hin.
  destruct (create_backend_recognized protocol (Some 0) Hin) as [b Hb].
  destruct (create_backend_inv _ _ _ Hb) as (Hn & Hp & _).
  exists b. repeat split; auto.
  rewrite Hp. by destruct (cls b).
Qed.

End factory.

Example create_SFTP :
  exists b, create_backend "SFTP" "h" None "u" "p" 30 None = Return b
    /\ get_protocol_name b = "sftp" /\ port b = 22.
Proof. eexists. repeat split. Qed.

Lemma create_backend_spec_witness :
  exists b, create_backend "FtpS" "h" None "u" "p" 30 None = Return b
    /\ get_protocol_name b = "ftps" /\ port b = 990.
Proof.
  destruct (create_backend_spec "h" "u" "p" 30 None "FtpS" None) as [H _].
  destruct H as (b & Hb & Hn & Hp & _); [vm_compute; repeat constructor|].
  exists b. repeat split; [exact Hb | exact Hn |].
  rewrite Hp by reflexivity.
  vm_compute in Hb. by simplify_eq.
Defined.

Lemma create_backend_port_zero_witness :
  exists b, create_backend "ftp" "h" (Some 0) "u" "p" 30 None = Return b
    /\ port b = 21.
Proof.
  destruct (create_backend_port_zero "h" "u" "p" 30 None "ftp")
    as (b & Hb & _ & Hp & _); [vm_compute; repeat constructor|].
  exists b. split; [exact Hb|].
  rewrite Hp. vm_compute in Hb. by simplify_eq.
Defined.

(** ** UserInfoMasker *)

Example mask_email : mask_user_info "jo@example.com" = Return "j*@example.com".
Proof. reflexivity. Qed.

Example mask_name : mask_user_info "johndoe" = Return "j*****e".
Proof. reflexivity. Qed.

Example mask_short : mask_user_info "ab" = Return "a*".
Proof. reflexivity. Qed.

Example mask_empty : mask_user_info "" = Return "".
Proof. reflexivity. Qed.

Example mask_cyrillic : mask_user_info "Жанна" = Return "Ж***а".
Proof. reflexivity. Qed.

(** C7, at an identity with an empty local part: [local[0]] raises
    [IndexError], so [mask_user_info] does not return a string there. *)
Theorem mask_user_info_empty_local_part :
  mask_user_info "@example.com" =
    Raise (Exc IndexError "string index out of range")
  /\ ~ exists masked, mask_user_info "@example.com" = Return masked.
Proof.
  split; [reflexivity|].
  intros [masked H]. vm_compute in H. discriminate.
Qed.

(** ** Strings: splitting and joining *)

Local Arguments Ascii.eqb : simpl never.

Section strings.

Lemma str_app_cons a s t : String a s +:+ t = String a (s +:+ t).
Proof. reflexivity. Qed.

Lemma str_app_nil_l t : "" +:+ t = t.
Proof. reflexivity. Qed.

Lemma str_app_nil_r s : s +:+ "" = s.
Proof. induction s as [|a s IH]; [done|]. by rewrite str_app_cons, IH. Qed.

Lemma str_app_assoc (s t r : string) : (s +:+ t) +:+ r = s +:+ (t +:+ r).
Proof. induction s as [|a s IH]; [done|]. by rewrite !str_app_cons, IH. Qed.

Lemma str_length_app s t :
  String.length (s +:+ t) = (String.length s + String.length t)%nat.
Proof. induction s as [|a s IH]; [done|]. rewrite str_app_cons. cbn. by rewrite IH. Qed.

Lemma eqb_true a b : PyStr.eqb a b = true <-> a = b.
Proof. apply String.eqb_eq. Qed.

Lemma eqb_false a b : PyStr.eqb a b = false <-> a <> b.
Proof. apply String.eqb_neq. Qed.

Lemma forallb_app f s t :
  PyStr.forallb f (s +:+ t) = PyStr.forallb f s && PyStr.forallb f t.
Proof.
  induction s as [|a s IH]; [done|].
  rewrite str_app_cons. cbn. rewrite IH. by rewrite andb_assoc.
Qed.

Lemma split_nonempty sep s : PyStr.split sep s <> [].
Proof. destruct s as [|a s]; cbn; [done|]. repeat case_match; done. Qed.

(** The components of a split hold no separator. *)
Lemma split_not_sep s :
  Forall (fun c => PyStr.forallb not_sep c = true) (PyStr.split "/" s).
Proof.
  induction s as [|a s IH]; cbn.
  - by repeat constructor.
  - destruct (Ascii.eqb a "/") eqn:Ha.
    + by constructor.
    + destruct (PyStr.split "/" s) as [|h t] eqn:E;
        [by apply split_nonempty in E|].
      inversion IH; subst. constructor; [|done].
      cbn. unfold not_sep at 1. by rewrite Ha.
Qed.

(** They hold only characters of the string. *)
Lemma split_forallb f s :
  PyStr.forallb f s = true ->
  Forall (fun c => PyStr.forallb f c = true) (PyStr.split "/" s).
Proof.
  induction s as [|a s IH]; cbn; intros Hf.
  - by repeat constructor.
  - apply andb_true_iff in Hf as [Ha Hs]. specialize (IH Hs).
    destruct (Ascii.eqb a "/").
    + by constructor.
    + destruct (PyStr.split "/" s) as [|h t] eqn:E;
        [by apply split_nonempty in E|].
      inversion IH; subst. constructor; [|done].
      cbn. by rewrite Ha.
Qed.

Lemma split_head_startswith_dot s :
  PyStr.startswith "." (hd "" (PyStr.split "/" s)) = PyStr.startswith "." s.
Proof.
  destruct s as [|a s]; [done|]. cbn.
  destruct (Ascii.eqb a "/") eqn:Ha.
  - apply Ascii.eqb_eq in Ha as ->. done.
  - destruct (PyStr.split "/" s); cbn; by rewrite !andb_true_r.
Qed.

(** A string without two dots in a row has no such component. *)
Lemma split_no_dotdot s :
  PyStr.contains ".." s = false ->
  Forall (fun c => PyStr.contains ".." c = false) (PyStr.split "/" s).
Proof.
  induction s as [|a s IH]; intros Hc.
  - by repeat constructor.
  - cbn in Hc. apply orb_false_iff in Hc as [Hst Hc].
    specialize (IH Hc). cbn.
    destruct (Ascii.eqb a "/") eqn:Ha.
    + by constructor.
    + pose proof (split_head_startswith_dot s) as Hd.
      destruct (PyStr.split "/" s) as [|h t] eqn:E;
        [by apply split_nonempty in E|].
      inversion IH; subst. constructor; [|done].
      cbn. cbn in Hd. rewrite Hd.
      apply orb_false_iff. split; [|done].
      destruct (Ascii.eqb "." a); [|done]. cbn in *.
      destruct s as [|b s]; [done|]. cbn in *.
      by rewrite andb_true_r in *.
Qed.

End strings.

(** ** Characters *)

Section characters.

Lemma in_range_true lo hi c :
  PyStr.in_range lo hi c = true <-> (lo <= N_of_ascii c <= hi)%N.
Proof.
  unfold PyStr.in_range. cbv zeta. rewrite andb_true_iff, !N.leb_le. done.
Qed.

(** The characters of a string are its text, cut in pieces. *)
Lemma concat_chars s : foldr String.append "" (PyStr.chars s) = s.
Proof.
  induction s as [|b s IH]; [done|]. cbn [PyStr.chars].
  destruct (PyStr.chars s) as [|c cs];
    [|destruct (PyStr.starts_with_continuation s)];
    cbn [foldr] in *; rewrite ?str_app_cons, ?str_app_nil_l; congruence.
Qed.

Lemma chars_nil s : PyStr.chars s = [] -> s = "".
Proof. intros H. by rewrite <- (concat_chars s), H. Qed.

Lemma chars_cons_nonempty b s : PyStr.chars (String b s) <> [].
Proof. cbn. by repeat case_match. Qed.

(** Text that opens with a character is cut where it starts. *)
Lemma chars_app s t :
  PyStr.starts_with_continuation t = false ->
  PyStr.chars (s +:+ t) = PyStr.chars s ++ PyStr.chars t.
Proof.
  intros Ht. induction s as [|b s IH]; [done|].
  rewrite str_app_cons. cbn [PyStr.chars]. rewrite IH.
  destruct s as [|b' s].
  - rewrite str_app_nil_l, Ht. cbn. by destruct (PyStr.chars t).
  - rewrite str_app_cons.
    change (PyStr.starts_with_continuation (String b' (s +:+ t)))
      with (PyStr.starts_with_continuation (String b' s)).
    destruct (PyStr.chars (String b' s)) as [|c cs] eqn:E;
      [by apply chars_cons_nonempty in E|].
    cbn [app PyStr.starts_with_continuation].
    by destruct (PyStr.is_continuation b').
Qed.

Lemma length_chars_app s t :
  PyStr.starts_with_continuation t = false ->
  PyStr.length (s +:+ t) = (PyStr.length s + PyStr.length t)%nat.
Proof.
  intros Ht. unfold PyStr.length. by rewrite chars_app, length_app.
Qed.

(** A byte with no continuation byte after it is a character. *)
Lemma chars_cons b s :
  PyStr.starts_with_continuation s = false ->
  PyStr.chars (String b s) = String b "" :: PyStr.chars s.
Proof.
  intros Hs. cbn [PyStr.chars]. rewrite Hs. by destruct (PyStr.chars s).
Qed.

(** A character never opens with a continuation byte, unless it is the first
of a string that does. *)
Lemma chars_tail_starts s :
  Forall (fun c => PyStr.starts_with_continuation c = false)
    (tail (PyStr.chars s)).
Proof.
  induction s as [|b s IH]; [constructor|]. cbn [PyStr.chars].
  destruct (PyStr.chars s) as [|c cs] eqn:E; [constructor|].
  destruct (PyStr.starts_with_continuation s) eqn:Hs; cbn [tail] in *;
    [done|].
  constructor; [|done].
  destruct s as [|b' s]; [done|]. cbn [PyStr.chars] in E.
  destruct (PyStr.chars s); [by injection E as <- <-|].
  destruct (PyStr.starts_with_continuation s); by injection E as <- <-.
Qed.

Lemma chars_head_starts s c cs :
  PyStr.chars s = c :: cs ->
  PyStr.starts_with_continuation c = PyStr.starts_with_continuation s.
Proof.
  destruct s as [|b s]; [done|]. cbn [PyStr.chars].
  destruct (PyStr.chars s); [by intros [= <- <-]|].
  destruct (PyStr.starts_with_continuation s); by intros [= <- <-].
Qed.

Lemma chars_nonempty s : Forall (fun c => c <> "") (PyStr.chars s).
Proof.
  induction s as [|b s IH]; [constructor|]. cbn [PyStr.chars].
  destruct (PyStr.chars s) as [|c cs]; [by repeat constructor|].
  inversion IH; subst.
  destruct (PyStr.starts_with_continuation s); by repeat constructor.
Qed.

(** A continuation byte opens no code point. *)
Lemma code_point_continuation b r :
  PyStr.is_continuation b = true -> PyStr.code_point (String b r) = None.
Proof.
  intros H. apply in_range_true in H. unfold PyStr.code_point.
  destruct r as [|b1 [|b2 [|b3 [|b4 r]]]]; [| | | |done]; cbv zeta;
    match goal with
    | |- context [PyStr.in_range ?lo ?hi b] =>
        destruct (PyStr.in_range lo hi b) eqn:E;
          [apply in_range_true in E; lia | done]
    end.
Qed.

Context (u : UnicodeData).

Lemma path_char_continuation b r :
  PyStr.is_continuation b = true -> path_char u (String b r) = false.
Proof.
  intros H. unfold path_char, word_char, alnum.
  rewrite (code_point_continuation b r H).
  assert (forall x, PyStr.is_continuation x = false ->
            PyStr.eqb (String b r) (String x "") = false) as Hne.
  { intros x Hx. apply eqb_false. intros [= -> _]. congruence. }
  by rewrite !Hne by reflexivity.
Qed.

(** An ASCII byte with continuation bytes after it is no code point. *)
Lemma path_char_sep_continuation c :
  PyStr.starts_with_continuation c = true ->
  path_char u (String "/" c) = false.
Proof.
  destruct c as [|b r]; [done|]. intros _.
  unfold path_char, word_char, alnum.
  assert (PyStr.code_point (String "/" (String b r)) = None) as ->
    by (by destruct r as [|b1 [|b2 [|b3 r]]]).
  reflexivity.
Qed.

Lemma path_char_sep : path_char u "/" = true.
Proof. reflexivity. Qed.

(** Text of the class opens with a character. *)
Lemma class_text_starts s :
  class_text u s = true -> PyStr.starts_with_continuation s = false.
Proof.
  unfold class_text. intros H.
  destruct (PyStr.starts_with_continuation s) eqn:Hs; [|done].
  destruct (PyStr.chars s) as [|c cs] eqn:E.
  { apply chars_nil in E. by subst. }
  rewrite <- (chars_head_starts s c cs E) in Hs.
  destruct c as [|b r]; [done|]. cbn in Hs.
  cbn [forallb] in H. by rewrite (path_char_continuation b r Hs) in H.
Qed.

Lemma class_text_app s t :
  class_text u s = true -> class_text u t = true ->
  class_text u (s +:+ t) = true.
Proof.
  intros Hs Ht. unfold class_text in *.
  rewrite chars_app by (by apply class_text_starts).
  by rewrite List.forallb_app, Hs, Ht.
Qed.

(** Text of the class is cut at its separators in texts of the class. *)
Lemma class_text_sep s t :
  class_text u (s +:+ "/" +:+ t) = true ->
  class_text u s = true /\ class_text u t = true.
Proof.
  unfold class_text. rewrite chars_app by done.
  rewrite List.forallb_app. intros [Hs Ht]%andb_true_iff. split; [done|].
  change ("/" +:+ t) with (String "/" t) in Ht. cbn [PyStr.chars] in Ht.
  destruct (PyStr.chars t) as [|c cs] eqn:E; [done|].
  destruct (PyStr.starts_with_continuation t) eqn:Hc.
  - rewrite <- (chars_head_starts t c cs E) in Hc.
    cbn [forallb] in Ht. by rewrite (path_char_sep_continuation c Hc) in Ht.
  - cbn [forallb] in Ht. by apply andb_true_iff in Ht as [_ Ht].
Qed.

Lemma class_text_join cs :
  Forall (fun c => class_text u c = true) cs ->
  class_text u (PyStr.join "/" cs) = true.
Proof.
  intros H. induction H as [|c cs Hc Hcs IH]; [done|].
  destruct cs as [|c' cs]; [done|].
  change (PyStr.join "/" (c :: c' :: cs))
    with (c +:+ "/" +:+ PyStr.join "/" (c' :: cs)).
  apply class_text_app; [done|]. by apply (class_text_app "/").
Qed.

Lemma class_text_of_join cs :
  class_text u (PyStr.join "/" cs) = true ->
  Forall (fun c => class_text u c = true) cs.
Proof.
  induction cs as [|c cs IH]; [constructor|].
  destruct cs as [|c' cs]; [by repeat constructor|].
  change (PyStr.join "/" (c :: c' :: cs))
    with (c +:+ "/" +:+ PyStr.join "/" (c' :: cs)).
  intros [Hc Hcs]%class_text_sep. constructor; [done | by apply IH].
Qed.

(** Joining undoes splitting. *)
Lemma join_split s : PyStr.join "/" (PyStr.split "/" s) = s.
Proof.
  induction s as [|a s IH]; [done|]. cbn [PyStr.split].
  destruct (PyStr.split "/" s) as [|h t] eqn:E;
    [by apply split_nonempty in E|].
  destruct (Ascii.eqb a "/") eqn:Ha.
  - apply Ascii.eqb_eq in Ha as ->.
    change (PyStr.join "/" ("" :: h :: t))
      with ("" +:+ "/" +:+ PyStr.join "/" (h :: t)).
    by rewrite IH.
  - destruct t as [|h' t]; cbn [PyStr.join] in *; [by rewrite IH|].
    by rewrite str_app_cons, IH.
Qed.

Lemma class_text_split s :
  class_text u s = true ->
  Forall (fun c => class_text u c = true) (PyStr.split "/" s).
Proof. intros H. apply class_text_of_join. by rewrite join_split. Qed.

End characters.

(** ** PathSanitizer *)

Section sanitizer.
Context (u : UnicodeData).

Lemma sep_app j : "/" +:+ j = String "/" j.
Proof. reflexivity. Qed.

Lemma contains_cons n a s :
  PyStr.contains n (String a s) =
    PyStr.startswith n (String a s) || PyStr.contains n s.
Proof. reflexivity. Qed.

Lemma startswith_cons x p a s :
  PyStr.startswith (String x p) (String a s) =
    Ascii.eqb x a && PyStr.startswith p s.
Proof. reflexivity. Qed.

Lemma no_dotdot_neq c : PyStr.contains ".." c = false -> c <> "..".
Proof. by intros H ->. Qed.

(** Without a component [..], the loop of [normpath] is a filter. *)
Lemma normpath_loop_no_dotdot n comps acc :
  Forall (fun c => PyStr.contains ".." c = false) comps ->
  fold_left (normpath_step n) comps acc = acc ++ List.filter keep comps.
Proof.
  intros H. revert acc.
  induction H as [|c comps Hc _ IH]; intros acc; cbn.
  - by rewrite List.app_nil_r.
  - rewrite IH. unfold normpath_step, keep.
    destruct (PyStr.eqb c "" || PyStr.eqb c "."); cbn; [done|].
    apply no_dotdot_neq, eqb_false in Hc. rewrite Hc. cbn.
    by rewrite <- List.app_assoc.
Qed.

(** [normpath] on an absolute path with a single leading separator and no
    component [..]. *)
Lemma normpath_absolute rest :
  PyStr.startswith "/" rest = false ->
  PyStr.contains ".." rest = false ->
  normpath (String "/" rest) =
    "/" +:+ PyStr.join "/" (List.filter keep (PyStr.split "/" rest)).
Proof.
  intros Hs Hd. unfold normpath.
  change (PyStr.eqb (String "/" rest) "") with false.
  change (PyStr.startswith "/" (String "/" rest)) with true.
  change (PyStr.startswith "//" (String "/" rest))
    with (PyStr.startswith "/" rest).
  rewrite Hs. cbn [andb].
  change (PyStr.split "/" (String "/" rest))
    with ("" :: PyStr.split "/" rest).
  rewrite normpath_loop_no_dotdot
    by (constructor; [done | by apply split_no_dotdot]).
  cbn [List.filter keep app]. change (keep "") with false. cbn iota.
  reflexivity.
Qed.

Lemma join_cons c c' cs :
  PyStr.join "/" (c :: c' :: cs) = c +:+ "/" +:+ PyStr.join "/" (c' :: cs).
Proof. reflexivity. Qed.

Lemma join_forallb f cs :
  f "/"%char = true ->
  Forall (fun c => PyStr.forallb f c = true) cs ->
  PyStr.forallb f (PyStr.join "/" cs) = true.
Proof.
  intros Hf H. induction H as [|c cs Hc Hcs IH]; [done|].
  destruct cs as [|c' cs]; [done|].
  rewrite join_cons, forallb_app, Hc, sep_app. cbn [PyStr.forallb andb].
  by rewrite Hf, IH.
Qed.

Lemma good_comp_first c :
  good_comp u c -> exists a s, c = String a s /\ Ascii.eqb a "/" = false.
Proof.
  intros (Hk & Hn & _). destruct c as [|a s]; [done|].
  exists a, s. split; [done|]. cbn in Hn.
  apply andb_true_iff in Hn as [Hn _]. unfold not_sep in Hn.
  by destruct (Ascii.eqb a "/").
Qed.

Lemma join_startswith cs :
  Forall (good_comp u) cs -> PyStr.startswith "/" (PyStr.join "/" cs) = false.
Proof.
  intros H. destruct H as [|c cs Hc _]; [done|].
  destruct (good_comp_first c Hc) as (a & s & -> & Ha).
  rewrite Ascii.eqb_sym in Ha.
  destruct cs; cbn; [|rewrite str_app_cons; cbn]; by rewrite Ha.
Qed.

Lemma startswith_dot_app c t :
  c <> "" ->
  PyStr.startswith "." (c +:+ t) = PyStr.startswith "." c.
Proof. destruct c; [done|]. intros _. rewrite str_app_cons. by cbn. Qed.

Lemma contains_dotdot_app_sep c t :
  PyStr.contains ".." c = false ->
  PyStr.contains ".." t = false ->
  PyStr.contains ".." (c +:+ "/" +:+ t) = false.
Proof.
  intros Hc Ht. induction c as [|a c IH].
  - rewrite str_app_nil_l, sep_app. cbn. exact Ht.
  - rewrite str_app_cons. cbn in Hc |- *.
    apply orb_false_iff in Hc as [Hst Hc].
    rewrite (IH Hc), orb_false_r.
    destruct (Ascii.eqb "." a); [|done]. cbn in *.
    destruct c as [|b c]; [done|].
    rewrite str_app_cons. cbn in *. by rewrite andb_true_r in *.
Qed.

Lemma join_no_dotdot cs :
  Forall (good_comp u) cs -> PyStr.contains ".." (PyStr.join "/" cs) = false.
Proof.
  intros H. induction H as [|c cs Hc Hcs IH]; [done|].
  destruct cs as [|c' cs]; [apply Hc|].
  rewrite join_cons. apply contains_dotdot_app_sep; [apply Hc | exact IH].
Qed.

Lemma contains_sepsep_app_sep c t :
  PyStr.forallb not_sep c = true ->
  c <> "" ->
  PyStr.startswith "/" t = false ->
  PyStr.contains "//" t = false ->
  PyStr.contains "//" (c +:+ "/" +:+ t) = false.
Proof.
  intros Hc Hne Hs Ht. induction c as [|a c IH]; [done|].
  rewrite str_app_cons, contains_cons, startswith_cons.
  cbn in Hc. apply andb_true_iff in Hc as [Ha Hc]. unfold not_sep in Ha.
  rewrite Ascii.eqb_sym. destruct (Ascii.eqb a "/"); [done|].
  cbn [andb orb].
  destruct c as [|b c].
  - rewrite str_app_nil_l, sep_app, contains_cons, startswith_cons.
    by rewrite Hs, Ht, andb_false_r.
  - by apply IH.
Qed.

Lemma join_no_sepsep cs :
  Forall (good_comp u) cs -> PyStr.contains "//" (PyStr.join "/" cs) = false.
Proof.
  intros H. induction H as [|c cs Hc Hcs IH]; [done|].
  destruct cs as [|c' cs].
  - cbn [PyStr.join]. destruct Hc as (_ & Hn & _).
    clear IH Hcs. induction c as [|a c IH]; [done|].
    cbn in Hn |- *. apply andb_true_iff in Hn as [Ha Hn].
    unfold not_sep in Ha. rewrite Ascii.eqb_sym.
    destruct (Ascii.eqb a "/"); [done|]. cbn. by apply IH.
  - rewrite join_cons.
    destruct (good_comp_first c Hc) as (a & s & Hcs' & _).
    apply contains_sepsep_app_sep;
      [apply Hc | by rewrite Hcs' | by apply join_startswith | exact IH].
Qed.

Lemma split_no_sep c :
  PyStr.forallb not_sep c = true -> PyStr.split "/" c = [c].
Proof.
  induction c as [|a c IH]; [done|]. cbn. intros H.
  apply andb_true_iff in H as [Ha Hc]. unfold not_sep in Ha.
  destruct (Ascii.eqb a "/"); [done|]. by rewrite (IH Hc).
Qed.

Lemma split_app_sep c t :
  PyStr.forallb not_sep c = true ->
  PyStr.split "/" (c +:+ "/" +:+ t) = c :: PyStr.split "/" t.
Proof.
  induction c as [|a c IH]; [done|]. intros H.
  rewrite str_app_cons. cbn in H |- *.
  apply andb_true_iff in H as [Ha Hc]. unfold not_sep in Ha.
  destruct (Ascii.eqb a "/"); [done|]. by rewrite (IH Hc).
Qed.

(** Splitting undoes joining. *)
Lemma split_join cs :
  cs <> [] -> Forall (good_comp u) cs ->
  PyStr.split "/" (PyStr.join "/" cs) = cs.
Proof.
  intros Hne H. induction H as [|c cs Hc Hcs IH]; [done|].
  destruct cs as [|c' cs].
  - apply split_no_sep, Hc.
  - rewrite join_cons, split_app_sep by apply Hc.
    by rewrite IH.
Qed.

Lemma filter_keep_good cs :
  Forall (good_comp u) cs -> List.filter keep cs = cs.
Proof.
  intros H. induction H as [|c cs Hc Hcs IH]; [done|].
  cbn. destruct Hc as [-> _]. by rewrite IH.
Qed.

(** The components kept from a valid path are good. *)
Lemma kept_comps_good rest :
  class_text u rest = true ->
  PyStr.contains ".." rest = false ->
  Forall (good_comp u) (List.filter keep (PyStr.split "/" rest)).
Proof.
  intros Hp Hd.
  pose proof (split_not_sep rest) as H1.
  pose proof (class_text_split u rest Hp) as H2.
  pose proof (split_no_dotdot rest Hd) as H3.
  induction (PyStr.split "/" rest) as [|c cs IH]; [constructor|].
  inversion H1; inversion H2; inversion H3; subst. cbn.
  destruct (keep c) eqn:Hk; [|by apply IH].
  constructor; [by repeat split | by apply IH].
Qed.

Lemma class_star_dollar_forallb cs :
  forallb (path_char u) cs = true -> match_class_star_dollar u cs = true.
Proof.
  induction cs as [|c cs IH]; [done|]. cbn. intros H.
  apply andb_true_iff in H as [-> Hs]. by apply IH.
Qed.

(** The pattern matches a separator followed by text of the class. *)
Lemma pattern_matches_class_text rest :
  class_text u rest = true ->
  re_match_valid_path_pattern u (String "/" rest) = true.
Proof.
  intros H. unfold re_match_valid_path_pattern.
  rewrite chars_cons by (by apply (class_text_starts u)).
  by rewrite class_star_dollar_forallb.
Qed.

(** [sanitize_path] leaves a normalised path as it is. *)
Lemma sanitize_path_normal_form cs :
  Forall (good_comp u) cs ->
  sanitize_path u ("/" +:+ PyStr.join "/" cs) =
    Return ("/" +:+ PyStr.join "/" cs).
Proof.
  intros H. rewrite sep_app. unfold sanitize_path.
  change (PyStr.eqb (String "/" _) "") with false. cbn iota.
  rewrite pattern_matches_class_text
    by (apply class_text_join; eapply Forall_impl; [exact H|];
        by intros c (_ & _ & Hc & _)).
  cbn [negb].
  assert (PyStr.contains ".." (String "/" (PyStr.join "/" cs)) = false)
    as Hdd by (cbn; by apply join_no_dotdot).
  assert (PyStr.contains "//" (String "/" (PyStr.join "/" cs)) = false)
    as Hss.
  { cbn. rewrite join_no_sepsep by done. rewrite orb_false_r.
    pose proof (join_startswith cs H) as Hs.
    destruct (PyStr.join "/" cs); [done|]. cbn in Hs |- *.
    by rewrite andb_true_r in *. }
  rewrite Hdd, Hss.
  rewrite normpath_absolute;
    [| by apply join_startswith | by apply join_no_dotdot].
  destruct cs as [|c cs]; [done|].
  rewrite split_join, filter_keep_good by done.
  by rewrite sep_app.
Qed.

End sanitizer.

Section sanitizer_claims.
Context (u : UnicodeData).

(** A string whose first character is the separator. *)
Lemma chars_sep_inv p cs :
  PyStr.chars p = "/" :: cs ->
  exists rest, p = String "/" rest /\ PyStr.chars rest = cs.
Proof.
  destruct p as [|b s]; [done|]. cbn [PyStr.chars].
  pose proof (chars_nonempty s) as Hne.
  destruct (PyStr.chars s) as [|c cs'] eqn:E.
  - intros [= -> <-]. apply chars_nil in E as ->. by exists "".
  - inversion Hne; subst.
    destruct (PyStr.starts_with_continuation s); intros [= -> Hc]; [done|].
    exists s. by subst.
Qed.

(** A string whose last character is a newline. *)
Lemma chars_newline_inv p l :
  PyStr.chars p = l ++ [newline] ->
  exists q, p = q +:+ newline /\ PyStr.chars q = l.
Proof.
  unfold newline.
  revert l. induction p as [|b s IH]; intros l; [by destruct l|].
  cbn [PyStr.chars]. pose proof (chars_nonempty s) as Hne.
  destruct (PyStr.chars s) as [|c cs] eqn:E.
  - apply chars_nil in E as ->. destruct l as [|x l]; cbn.
    + intros [= ->]. by exists "".
    + intros [= _ H]. by destruct l.
  - inversion Hne; subst.
    destruct (PyStr.starts_with_continuation s) eqn:Hs.
    + destruct l as [|x l]; cbn [app].
      { intros ?. by simplify_eq. }
      intros [= <- Hcs].
      destruct (IH (c :: l)) as (q & -> & Hq); [by rewrite Hcs|].
      exists (String b q). split; [done|]. cbn [PyStr.chars]. rewrite Hq.
      destruct q as [|b' q]; [done|].
      rewrite str_app_cons in Hs. cbn in Hs |- *. by rewrite Hs.
    + destruct l as [|x l]; cbn [app]; [done|].
      intros [= <- Hcs].
      destruct (IH l Hcs) as (q & -> & Hq).
      exists (String b q). split; [done|]. cbn [PyStr.chars]. rewrite Hq.
      destruct q as [|b' q]; [by destruct l|].
      rewrite str_app_cons in Hs. cbn in Hs |- *. rewrite Hs.
      by destruct l.
Qed.

(** A path of the shape of the specification is a separator followed by text
of the class. *)
Lemma spec_path_shape_inv p :
  spec_path_shape u p = true <->
  exists rest, p = String "/" rest /\ class_text u rest = true.
Proof.
  unfold spec_path_shape, class_text. split.
  - destruct (PyStr.chars p) as [|c cs] eqn:E; [done|].
    intros [->%eqb_true Hcs]%andb_true_iff.
    destruct (chars_sep_inv p cs E) as (rest & -> & <-). by exists rest.
  - intros (rest & -> & Hrest).
    by rewrite chars_cons, Hrest by (by apply (class_text_starts u)).
Qed.

Lemma shape_matches_pattern p :
  spec_path_shape u p = true -> re_match_valid_path_pattern u p = true.
Proof.
  intros (rest & -> & H)%spec_path_shape_inv.
  by apply pattern_matches_class_text.
Qed.

(** What [sanitize_path] returns on a valid path. *)
Lemma sanitize_path_valid rest :
  class_text u rest = true ->
  PyStr.contains ".." (String "/" rest) = false ->
  PyStr.contains "//" (String "/" rest) = false ->
  sanitize_path u (String "/" rest) =
    Return ("/" +:+ PyStr.join "/" (List.filter keep (PyStr.split "/" rest))).
Proof.
  intros Hp Hd Hs. unfold sanitize_path.
  change (PyStr.eqb (String "/" rest) "") with false. cbn iota.
  rewrite pattern_matches_class_text by done.
  rewrite Hd, Hs. cbn [negb].
  rewrite contains_cons in Hd, Hs.
  apply orb_false_iff in Hd as [_ Hd].
  apply orb_false_iff in Hs as [Hs _].
  rewrite startswith_cons, Ascii.eqb_refl in Hs.
  rewrite normpath_absolute by done.
  by rewrite sep_app.
Qed.

(** The rejections of [sanitize_path]: the empty path, two dots in a row,
    a doubled separator, and a path the pattern does not match.  Each test
    is made whatever the others say. *)
Lemma sanitize_path_rejects p :
  p = "" \/ PyStr.contains ".." p = true \/ PyStr.contains "//" p = true
  \/ re_match_valid_path_pattern u p = false ->
  InvalidPath (sanitize_path u p).
Proof.
  unfold sanitize_path, InvalidPath. intros H.
  destruct (PyStr.eqb p "") eqn:He; [by eexists|].
  destruct (re_match_valid_path_pattern u p) eqn:Hm; [|by eexists].
  destruct (PyStr.contains ".." p) eqn:Hd; [by eexists|].
  destruct (PyStr.contains "//" p) eqn:Hs; [by eexists|].
  apply eqb_false in He. destruct H as [?|[?|[?|?]]]; congruence.
Qed.

(** What the tail of the pattern matches: the characters of the class, and
these characters followed by one newline. *)
Lemma class_star_dollar_iff cs :
  match_class_star_dollar u cs = true <->
  forallb (path_char u) cs = true
  \/ exists t, cs = t ++ [newline] /\ forallb (path_char u) t = true.
Proof.
  split.
  - induction cs as [|c cs IH]; [by left|]. cbn.
    destruct (path_char u c) eqn:Hc.
    + intros [Hs | (t & -> & Ht)]%IH; [by left|].
      right. exists (c :: t). split; [done|]. cbn. by rewrite Hc.
    + intros [->%eqb_true Hnil]%andb_true_iff.
      apply bool_decide_eq_true in Hnil as ->. right. by exists [].
  - intros [H | (t & -> & Ht)]; [by apply class_star_dollar_forallb|].
    induction t as [|c t IH]; [done|].
    cbn in Ht. apply andb_true_iff in Ht as [Hc Ht].
    cbn. rewrite Hc. by apply IH.
Qed.

(** The paths the pattern matches: those of the shape of the specification,
and those followed by one newline. *)
Lemma pattern_matches_iff p :
  re_match_valid_path_pattern u p = true <->
  spec_path_shape u p = true
  \/ exists q, p = q +:+ newline /\ spec_path_shape u q = true.
Proof.
  unfold re_match_valid_path_pattern, spec_path_shape. split.
  - destruct (PyStr.chars p) as [|c cs] eqn:E; [done|].
    rewrite andb_true_iff, class_star_dollar_iff.
    intros [Hc [Hcs | (t & -> & Ht)]]; [left; by rewrite Hc, Hcs|].
    right. destruct (chars_newline_inv p (c :: t) E) as (q & -> & Hq).
    exists q. split; [done|]. by rewrite Hq, Hc, Ht.
  - intros [H | (q & -> & H)].
    + destruct (PyStr.chars p) as [|c cs]; [done|].
      apply andb_true_iff in H as [-> H]. by apply class_star_dollar_forallb.
    + rewrite chars_app by done. change (PyStr.chars newline) with [newline].
      destruct (PyStr.chars q) as [|c cs]; [done|]. cbn [app].
      apply andb_true_iff in H as [-> H]. cbn [andb].
      apply class_star_dollar_iff. right. by exists cs.
Qed.

(** Outside the shape of the specification, only a path of that shape
followed by one newline escapes the rejection. *)
Lemma sanitize_path_rejects_outside_shape p :
  spec_path_shape u p = false ->
  (forall q, p = q +:+ newline -> spec_path_shape u q = false) ->
  InvalidPath (sanitize_path u p).
Proof.
  intros Hshape Hnl. apply sanitize_path_rejects. do 3 right.
  destruct (re_match_valid_path_pattern u p) eqn:Hm; [|done].
  apply pattern_matches_iff in Hm as [Hm | (q & Hq & Hm)]; [congruence|].
  specialize (Hnl q Hq). congruence.
Qed.

(** C5, at a path that ends with a newline: the pattern is matched with
    [$], which tolerates a final newline, so a path whose last character is
    outside the allowed class is returned instead of being rejected. *)
Theorem sanitize_path_trailing_newline :
  let path := "/abc" +:+ newline in
  spec_path_shape u path = false
  /\ sanitize_path u path = Return path
  /\ ~ InvalidPath (sanitize_path u path).
Proof.
  repeat split. intros [msg H]. vm_compute in H. discriminate.
Qed.

(** C6: on a valid absolute path, without two dots in a row nor a doubled
    separator, [sanitize_path] returns a path that it maps to itself, and
    that starts with exactly one separator. *)
Theorem sanitize_path_idempotent (p : string) :
  spec_path_shape u p = true ->
  PyStr.contains ".." p = false ->
  PyStr.contains "//" p = false ->
  exists q, sanitize_path u p = Return q
    /\ rbind (sanitize_path u p) (sanitize_path u) = sanitize_path u p
    /\ sanitize_path u q = Return q
    /\ PyStr.startswith "/" q = true
    /\ PyStr.startswith "//" q = false.
Proof.
  intros (rest & -> & Hp)%spec_path_shape_inv Hd Hs.
  pose proof (sanitize_path_valid rest Hp Hd Hs) as Hq.
  assert (Forall (good_comp u) (List.filter keep (PyStr.split "/" rest)))
    as Hgood.
  { apply kept_comps_good; [done|].
    rewrite contains_cons in Hd. by apply orb_false_iff in Hd as [_ Hd]. }
  pose proof (sanitize_path_normal_form u _ Hgood) as Hnf.
  eexists. split; [exact Hq|]. rewrite Hq. cbn [rbind].
  split; [exact Hnf|]. split; [exact Hnf|]. split; [by rewrite sep_app|].
  rewrite sep_app, startswith_cons, Ascii.eqb_refl.
  by apply (join_startswith u).
Qed.

End sanitizer_claims.

Lemma sanitize_path_idempotent_witness :
  exists q, sanitize_path example_unicode "/отчеты/./2024/данные.xlsx"
            = Return q
    /\ sanitize_path example_unicode q = Return q
    /\ q = "/отчеты/2024/данные.xlsx".
Proof.
  destruct (sanitize_path_idempotent example_unicode
              "/отчеты/./2024/данные.xlsx")
    as (q & Hq & _ & Hqq & _); [reflexivity..|].
  exists q. repeat split; [exact Hq | exact Hqq |].
  vm_compute in Hq. by simplify_eq.
Defined.

Example sanitize_accepts_cyrillic :
  sanitize_path example_unicode "/отчёт.csv" = Return "/отчёт.csv".
Proof. reflexivity. Qed.

Example sanitize_rejects_traversal (u : UnicodeData) :
  InvalidPath (sanitize_path u "/path/with/../traversal/file.txt").
Proof. by eexists. Qed.

Example sanitize_rejects_double_slash (u : UnicodeData) :
  InvalidPath (sanitize_path u "/path//double/slash/file.txt").
Proof. by eexists. Qed.

(** ** UserInfoMasker, continued *)

Lemma first_nonempty a s : exists c, PyStr.first (String a s) = Return c.
Proof.
  unfold PyStr.first.
  destruct (PyStr.chars (String a s)) eqn:E;
    [by apply chars_cons_nonempty in E | by eexists].
Qed.

Lemma last_nonempty a s : exists l, PyStr.last (String a s) = Return l.
Proof.
  unfold PyStr.last.
  destruct (list.last (PyStr.chars (String a s))) eqn:E; [by eexists|].
  apply last_None in E. by apply chars_cons_nonempty in E.
Qed.

(** [mask_user_info] returns on every identity that does not start with the
    at sign. *)
Lemma mask_user_info_returns s :
  PyStr.startswith "@" s = false ->
  exists masked, mask_user_info s = Return masked.
Proof.
  intros Hs. unfold mask_user_info.
  destruct s as [|a s]; [by eexists|].
  change (PyStr.eqb (String a s) "") with false. cbn iota.
  rewrite startswith_cons, andb_true_r in Hs.
  destruct (PyStr.contains "@" (String a s)).
  - cbn [PyStr.split_once]. rewrite Ascii.eqb_sym, Hs.
    destruct (PyStr.split_once "@" s) as [l r].
    destruct (first_nonempty a l) as [c ->]. case_match; by eexists.
  - destruct (first_nonempty a s) as [c ->].
    destruct (last_nonempty a s) as [l ->].
    case_match; by eexists.
Qed.

(** ** The methods of the backends *)

Section backend_methods.

Local Arguments mask_user_info : simpl never.
Local Arguments map_error : simpl never.
Local Arguments create_backend : simpl never.
Local Arguments too_large_message : simpl never.
Local Arguments path_join : simpl never.
Local Arguments PyStr.len : simpl never.
Local Arguments PyStr.contains : simpl never.
Local Arguments PyStr.lower : simpl never.

Lemma len_app c d : PyStr.len (c +:+ d) = PyStr.len c + PyStr.len d.
Proof. unfold PyStr.len. rewrite str_length_app. lia. Qed.

Lemma set_files_id w : set_files (files w) w = w.
Proof. by destruct w. Qed.

(** Writing the blocks appends them all to the open file and counts their
    bytes. *)
Lemma write_blocks_spec file blocks total b w content :
  files w !! file = Some content ->
  write_blocks file blocks total (b, w) =
    (Return (total + PyStr.len (foldr String.append "" blocks)),
     (b, set_files
           (<[file := content +:+ foldr String.append "" blocks]> (files w))
           w)).
Proof.
  revert total w content.
  induction blocks as [|data blocks IH]; intros total w content Hf.
  - cbn. rewrite str_app_nil_r, insert_id, set_files_id by done.
    unfold ret. do 2 f_equal. unfold PyStr.len. cbn. lia.
  - cbn [write_blocks]. unfold bind at 1. unfold stream_write.
    unfold bind at 1, modify, ret. cbn [fst snd].
    erewrite IH by (cbn; apply lookup_insert_eq).
    rewrite Hf. cbn [default foldr files calls set_files].
    rewrite insert_insert_eq, str_app_assoc, len_app.
    do 2 f_equal. lia.
Qed.

(** [connect] records one call; when it returns, a later [close] finds
    [sftp_client] set on an SFTP backend. *)
Lemma connect_spec srv b w :
  (exists b', connect srv (b, w) = (Return tt, (b', log_call (Connect true) w))
     /\ cls b' = cls b
     /\ (cls b = SFTPBackend -> is_Some (sftp_client b')))
  \/ (exists e b', connect srv (b, w) =
                     (Raise e, (b', log_call (Connect false) w))).
Proof.
  unfold connect, ftp_connect, sftp_wrapper_connect, bind, self, gets,
    try_except, assign_connection, assign_sftp_client, record, modify,
    raise, ret.
  cbn [fst snd].
  destruct (cls b) eqn:Hcls.
  - destruct (connect_result srv); [right | left]; eauto.
    eexists. split; [done|]. by split.
  - destruct (connect_result srv); [right | left]; eauto.
    eexists. split; [done|]. by split.
  - destruct (paramiko_installed srv); cbn [negb];
      [|right; do 2 eexists; reflexivity].
    destruct (connect_result srv) as [[[] m|code m]|];
      try (right; do 2 eexists; reflexivity).
    + destruct (PyStr.contains _ (PyStr.lower m));
        right; do 2 eexists; reflexivity.
    + left. eexists. split; [reflexivity|]. cbn. split; [done|]. eauto.
Qed.

(** [close] records one call and leaves the backend without connection. *)
Lemma close_spec b w :
  (cls b = SFTPBackend -> is_Some (sftp_client b)) ->
  exists b', close (b, w) = (Return tt, (b', log_call Close w))
    /\ connection b' = None.
Proof.
  intros Hs.
  unfold close, bind, self, gets, assign_connection, assign_sftp_client,
    record, modify, ret.
  cbn [fst snd].
  destruct (cls b) eqn:Hcls.
  - destruct (connection b) eqn:Hc; eauto.
  - destruct (connection b) eqn:Hc; eauto.
  - destruct (Hs eq_refl) as [h ->]. eauto.
Qed.

End backend_methods.

(** ** The download pipeline *)

Section pipeline.
Context (srv : Remote) (os : LocalOS) (settings : Settings)
        (params : Params).

Local Arguments mask_user_info : simpl never.
Local Arguments map_error : simpl never.
Local Arguments create_backend : simpl never.
Local Arguments too_large_message : simpl never.
Local Arguments path_join : simpl never.
Local Arguments PyStr.len : simpl never.
Local Arguments PyStr.eqb : simpl never.

Lemma path_join_nonempty dir name : name <> "" -> path_join dir name <> "".
Proof.
  intros Hn. unfold path_join.
  destruct (PyStr.eqb dir "") eqn:Hd; [done|].
  apply eqb_false in Hd. destruct dir as [|a dir]; [done|].
  by repeat case_match.
Qed.

(** The name of the spooled file is never empty. *)
Lemma spooled_name_nonempty name :
  path_join (temp_dir settings)
    (("ftp_bridge_" +:+ p_protocol params +:+ "_") +:+ name +:+
     "_" +:+ p_file_name params) <> "".
Proof. by apply path_join_nonempty. Qed.

(** The cleanup of the handlers removes the spooled file and nothing else
    of the frame. *)
Lemma cleanup_spec fr :
  exists fs',
    cleanup_temp_file fr = (Return tt, set_world (set_files fs' (world fr)) fr)
    /\ (forall file, temp_file fr = Some file -> file <> "" ->
          fs' !! file = None).
Proof.
  unfold cleanup_temp_file. destruct (temp_file fr) as [file|] eqn:Ht.
  - destruct (PyStr.eqb file "") eqn:He.
    { apply eqb_true in He as ->. exists (files (world fr)). cbn.
      rewrite set_files_id. split; [by destruct fr|]. by intros ? [= <-]. }
    cbn [negb andb]. case_bool_decide as Hin.
    + eexists. split; [done|]. intros ? [= <-] _. apply lookup_delete_eq.
    + exists (files (world fr)). rewrite set_files_id.
      split; [by destruct fr|]. intros ? [= <-] _.
      by apply eq_None_not_Some.
  - exists (files (world fr)). rewrite set_files_id.
    split; [by destruct fr|]. done.
Qed.

(** Both handlers clean up and raise. *)
Lemma handler_spec e fr :
  exists e' fs',
    pipeline_handler params e fr =
      (Raise e', set_world (set_files fs' (world fr)) fr)
    /\ (forall file, temp_file fr = Some file -> file <> "" ->
          fs' !! file = None)
    /\ (forall masked, mask_user_info (p_user params) = Return masked ->
          e' = match e with
               | HTTPException _ _ => e
               | Exc _ _ => map_error params (str_exc e)
               end).
Proof.
  destruct (cleanup_spec fr) as (fs' & Hc & Hfs').
  unfold pipeline_handler, bind, lift, raise.
  destruct e as [c m|code detail]; rewrite Hc.
  - destruct (mask_user_info (p_user params)) as [masked|e'] eqn:Hm.
    + do 2 eexists. split; [done|]. split; [done|]. done.
    + do 2 eexists. split; [done|]. split; [done|]. done.
  - do 2 eexists. split; [done|]. split; [done|]. done.
Qed.

(** The block under [with backend:]: it leaves the backend as it is, and
    either stops at the size check or at [open], or runs the transfer. *)
Lemma transfer_spec file b w :
  (exists e size w',
      transfer srv os settings params file (b, w) = (Raise e, (b, w'))
      /\ calls w' = calls w ++ [GetFileSize (p_path params) size]
      /\ files w' = files w
      /\ (size = None
          \/ (exists z, size = Some z /\ max_file_size settings < z
                 /\ e = Exc ValueError (too_large_message (Some z) settings))
          \/ (exists z, size = Some z /\ z <= max_file_size settings
                 /\ open_result os <> None)))
  \/ (exists e z w',
        transfer srv os settings params file (b, w) = (Raise e, (b, w'))
        /\ calls w' = calls w ++ [GetFileSize (p_path params) (Some z);
                                  DownloadToStream (p_path params) None]
        /\ z <= max_file_size settings
        /\ retr_result srv <> None)
  \/ (exists z w',
        transfer srv os settings params file (b, w) =
          (Return (streamed_bytes srv), (b, w'))
        /\ calls w' = calls w ++
             [GetFileSize (p_path params) (Some z);
              DownloadToStream (p_path params) (Some (streamed_bytes srv))]
        /\ files w' = <[file := streamed_content srv]> (files w)
        /\ z <= max_file_size settings).
Proof.
  destruct (transfer srv os settings params file (b, w)) as [r [b1 w1]]
    eqn:Ht.
  revert Ht.
  unfold transfer, get_file_size, with_open_wb, download_to_stream.
  unfold bind, record, lift, modify, ret, raise. cbn [fst snd].
  destruct (match size_result srv with
            | Return v => v
            | Raise _ => Some 0
            end) as [z|].
  2:{ intros [= <- <- <-]. left. do 3 eexists.
      split; [done|]. split; [done|]. split; [done|]. by left. }
  cbn [py_gt]. destruct (z >? max_file_size settings) eqn:Hgt.
  { intros [= <- <- <-]. left. do 3 eexists.
    split; [done|]. split; [done|]. split; [done|].
    right; left. eexists. split; [done|]. split; [lia|done]. }
  assert (z <= max_file_size settings) as Hle by lia.
  destruct (open_result os) as [e|] eqn:Hopen.
  { intros [= <- <- <-]. left. do 3 eexists.
    split; [done|]. split; [done|]. split; [done|].
    right; right. eexists. split; [done|]. split; [done|]. congruence. }
  cbn [fst snd].
  erewrite write_blocks_spec by (cbn; apply lookup_insert_eq).
  cbn [fst snd files calls set_files log_call].
  rewrite insert_insert_eq, Z.add_0_l.
  destruct (retr_result srv) as [e|] eqn:Hretr.
  - intros [= <- <- <-]. right; left. do 3 eexists.
    split; [done|]. cbn. rewrite <- List.app_assoc.
    split; [done|]. split; [done|]. congruence.
  - intros [= <- <- <-]. right; right. do 2 eexists.
    split; [done|]. cbn. rewrite <- List.app_assoc.
    split; [done|]. split; [done|]. done.
Qed.

Ltac handle :=
  match goal with
  | |- context [pipeline_handler params ?e ?fr] =>
      let e' := fresh "e'" in
      let fs' := fresh "fs'" in
      let Hh := fresh "Hh" in
      let Hdel := fresh "Hdel" in
      let Hmap := fresh "Hmap" in
      destruct (handler_spec e fr) as (e' & fs' & Hh & Hdel & Hmap);
      rewrite Hh; clear Hh;
      cbn [fst snd world files calls temp_file backend set_world set_files]
        in *
  end.

Ltac close_backend :=
  match goal with
  | |- context [close (?b, ?w)] =>
      let b'' := fresh "b''" in
      let Hcl := fresh "Hcl" in
      let Hconn := fresh "Hconn" in
      destruct (close_spec b w) as (b'' & Hcl & Hconn);
      [ congruence || auto
      | rewrite Hcl; clear Hcl; cbn [fst snd] ]
  end.

(** Every run of the pipeline has one of the shapes of [run_shape]. *)
Lemma run_has_shape fs :
  run_shape srv os settings params
    (run srv os settings params fs).1 (run srv os settings params fs).2.
Proof.
  unfold run, download_with_storage_backend, try_except, pipeline_body.
  unfold mkstemp, storage_operations, on_backend, with_backend, try_finally.
  unfold bind, lift, modify, ret, raise.
  cbn [world files calls temp_file backend set_world set_files set_temp_file].
  destruct (mkstemp_result os) as [name|e0] eqn:Hmk.
  2:{ handle. by apply failed_before_connect. }
  pose proof (spooled_name_nonempty name) as Hname.
  set (file := path_join _ _) in *.
  destruct (mask_user_info (p_user params)) as [masked|e0] eqn:Hmask.
  2:{ handle. apply failed_before_connect; [done|].
      intros ? [= <-]. by apply Hdel. }
  destruct (create_backend _ _ _ _ _ _ _) as [b|e0] eqn:Hcreate.
  2:{ handle. apply failed_before_connect; [done|].
      intros ? [= <-]. by apply Hdel. }
  match goal with
  | |- context [connect srv (b, ?w)] =>
      destruct (connect_spec srv b w)
        as [(b' & Hc & Hcls & Hsftp) | (e0 & b' & Hc)]; rewrite Hc; clear Hc
  end.
  2:{ handle. apply failed_to_connect; [done|].
      intros ? [= <-]. by apply Hdel. }
  rewrite <- Hcls in Hsftp.
  match goal with
  | |- context [transfer srv os settings params file (b', ?w)] =>
      destruct (transfer_spec file b' w)
        as [(e0 & size & w' & Ht & Hcalls & Hfiles & Hwhy)
           |[(e0 & z & w' & Ht & Hcalls & Hle & Hretr)
           |(z & w' & Ht & Hcalls & Hfiles & Hle)]];
      rewrite Ht; clear Ht
  end.
  - cbn in Hcalls, Hfiles. close_backend. handle.
    assert (spooled_file_deleted
              {| world := set_files fs' (log_call Close w');
                 backend := Some b''; temp_file := Some file |}) as Hgone
      by (intros ? [= <-]; by apply Hdel).
    assert (backend_closed
              {| world := set_files fs' (log_call Close w');
                 backend := Some b''; temp_file := Some file |}) as Hclosed
      by (by eexists).
    assert (is_Some (Some file)) as Hsome by (by eexists).
    destruct Hwhy as [-> | [(z & -> & Hlt & ->) | (z & -> & Hle & Hopen)]].
    + apply size_not_an_int; [cbn; by rewrite Hcalls | done..].
    + rewrite (Hmap masked Hmask). cbn [str_exc].
      apply size_too_large; [cbn; by rewrite Hcalls | done..].
    + apply open_failed with z; [cbn; by rewrite Hcalls | done..].
  - cbn in Hcalls. close_backend. handle.
    apply transfer_failed with z; [cbn; by rewrite Hcalls | done.. | | |].
    + by eexists.
    + by eexists.
    + intros ? [= <-]. by apply Hdel.
  - cbn in Hcalls, Hfiles. close_backend.
    unfold getsize. cbn [world files log_call].
    rewrite Hfiles, lookup_insert_eq.
    fold (streamed_bytes srv).
    destruct (streamed_bytes srv =? 0) eqn:Hzero.
    + handle. rewrite (Hmap masked Hmask).
      apply Z.eqb_eq in Hzero.
      apply transfer_empty with z;
        [cbn; by rewrite Hcalls, Hzero | done.. | | |].
      * by eexists.
      * by eexists.
      * intros ? [= <-]. by apply Hdel.
    + apply Z.eqb_neq in Hzero.
      apply transfer_done with z; [cbn; by rewrite Hcalls | done.. | | |].
      * by eexists.
      * done.
      * cbn. by rewrite Hfiles, lookup_insert_eq.
Qed.

Ltac in_calls H Hcalls :=
  rewrite Hcalls in H;
  repeat (apply elem_of_cons in H as [H|H]);
  try (by apply elem_of_nil in H);
  simplify_eq.

(** The size check, for every run in which the size query reports more
    than the ceiling: the run fails, with the error that [map_error] makes
    of the message of the check, the download is never invoked, the backend
    is closed and the spooled file deleted. *)
Lemma too_large_never_downloads fs z :
  let out := run srv os settings params fs in
  GetFileSize (p_path params) (Some z) ∈ calls (world out.2) ->
  max_file_size settings < z ->
  out.1 = Raise (map_error params (too_large_message (Some z) settings))
  /\ (forall returned,
        DownloadToStream (p_path params) returned ∉ calls (world out.2))
  /\ backend_closed out.2
  /\ spooled_file_deleted out.2.
Proof.
  intros out Hin Hlt. subst out.
  pose proof (run_has_shape fs) as Hshape.
  destruct (run srv os settings params fs) as [r fr]. cbn [fst snd] in *.
  inversion Hshape as
    [ e fr' Hcalls | e fr' Hcalls | e fr' Hcalls | z' fr' Hcalls
    | z' e fr' Hcalls | z' e fr' Hcalls | z' fr' Hcalls
    | z' file fr' Hcalls ]; subst; in_calls Hin Hcalls; try lia.
  split; [done|]. split; [|done].
  intros returned Hd. in_calls Hd Hcalls.
Qed.

(** Every failing run leaves no spooled file, also when it fails before the
backend is built or connected. *)
Lemma every_failure_deletes_file fs :
  let out := run srv os settings params fs in
  (exists e, out.1 = Raise e) -> spooled_file_deleted out.2.
Proof.
  intros out [e0 Hfail]. subst out.
  pose proof (run_has_shape fs) as Hshape.
  destruct (run srv os settings params fs) as [r fr]. cbn [fst snd] in *.
  by inversion Hshape; subst.
Qed.

(** Every run that connects, failing or not, ends its calls with [close]. *)
Lemma every_session_is_closed fs :
  let out := run srv os settings params fs in
  Connect true ∈ calls (world out.2) ->
  last (calls (world out.2)) = Some Close /\ backend_closed out.2.
Proof.
  intros out Hin. subst out.
  pose proof (run_has_shape fs) as Hshape.
  destruct (run srv os settings params fs) as [r fr]. cbn [fst snd] in *.
  inversion Hshape as
    [ e fr' Hcalls | e fr' Hcalls | e fr' Hcalls | z' fr' Hcalls
    | z' e fr' Hcalls | z' e fr' Hcalls | z' fr' Hcalls
    | z' file fr' Hcalls ]; subst;
    try (by in_calls Hin Hcalls);
    by rewrite Hcalls.
Qed.

(** When a run fails after [connect] has returned, the last call on the
    backend is [close], the backend holds no connection, and the spooled
    file that was allocated is no longer in the temporary directory. *)
Lemma failure_after_connect_closes_and_deletes fs :
  let out := run srv os settings params fs in
  (exists e, out.1 = Raise e) ->
  Connect true ∈ calls (world out.2) ->
  last (calls (world out.2)) = Some Close
  /\ backend_closed out.2
  /\ is_Some (temp_file out.2)
  /\ spooled_file_deleted out.2.
Proof.
  intros out [e0 Hfail] Hin. subst out.
  pose proof (run_has_shape fs) as Hshape.
  destruct (run srv os settings params fs) as [r fr]. cbn [fst snd] in *.
  inversion Hshape as
    [ e fr' Hcalls | e fr' Hcalls | e fr' Hcalls | z' fr' Hcalls
    | z' e fr' Hcalls | z' e fr' Hcalls | z' fr' Hcalls
    | z' file fr' Hcalls ]; subst; try discriminate;
    try (by in_calls Hin Hcalls);
    by rewrite Hcalls.
Qed.

(** C3: when the transfer returns with no byte written, whatever the size
    query had answered, the run raises [EmptyTransfer] and the spooled file
    is no longer in the temporary directory. *)
Theorem empty_transfer_fails_and_deletes_file fs :
  let out := run srv os settings params fs in
  DownloadToStream (p_path params) (Some 0) ∈ calls (world out.2) ->
  out.1 = Raise EmptyTransfer
  /\ streamed_bytes srv = 0
  /\ is_Some (temp_file out.2)
  /\ spooled_file_deleted out.2.
Proof.
  intros out Hin. subst out.
  pose proof (run_has_shape fs) as Hshape.
  destruct (run srv os settings params fs) as [r fr]. cbn [fst snd] in *.
  inversion Hshape as
    [ e fr' Hcalls | e fr' Hcalls | e fr' Hcalls | z' fr' Hcalls
    | z' e fr' Hcalls | z' e fr' Hcalls | z' fr' Hcalls
    | z' file fr' Hcalls ]; subst; in_calls Hin Hcalls; done.
Qed.

(** C4: when the size query reports 0 and the server then streams
    [N > 0] bytes, the run returns the spooled file and [N], the size of
    that file: 0 is neither above the ceiling nor an empty file. *)
Theorem unknown_size_transfer_succeeds fs :
  let out := run srv os settings params fs in
  GetFileSize (p_path params) (Some 0) ∈ calls (world out.2) ->
  0 <= max_file_size settings ->
  open_result os = None ->
  retr_result srv = None ->
  0 < streamed_bytes srv ->
  exists file content,
    out.1 = Return (file, streamed_bytes srv)
    /\ temp_file out.2 = Some file
    /\ files (world out.2) !! file = Some content
    /\ PyStr.len content = streamed_bytes srv
    /\ DownloadToStream (p_path params) (Some (streamed_bytes srv))
         ∈ calls (world out.2).
Proof.
  intros out Hin Hmax Hopen Hretr Hpos. subst out.
  pose proof (run_has_shape fs) as Hshape.
  destruct (run srv os settings params fs) as [r fr]. cbn [fst snd] in *.
  inversion Hshape as
    [ e fr' Hcalls | e fr' Hcalls | e fr' Hcalls | z' fr' Hcalls
    | z' e fr' Hcalls | z' e fr' Hcalls | z' fr' Hcalls
    | z' file fr' Hcalls ]; subst; in_calls Hin Hcalls; try done; try lia.
  exists file, (streamed_content srv).
  repeat split; try done. rewrite Hcalls.
  do 2 apply list_elem_of_further. apply list_elem_of_here.
Qed.

(** A size query that fails is answered by 0. *)
Lemma size_query_failure_reports_zero e remote_path b w :
  size_result srv = Raise e ->
  get_file_size srv remote_path (b, w) =
    (Return (Some 0), (b, log_call (GetFileSize remote_path (Some 0)) w)).
Proof. intros H. unfold get_file_size. by rewrite H. Qed.

End pipeline.

(** ** The size check and the mapping of errors *)

Lemma contains_app_r needle t s :
  PyStr.contains needle s = true -> PyStr.contains needle (t +:+ s) = true.
Proof.
  intros H. induction t as [|a t IH]; [done|].
  rewrite str_app_cons, contains_cons. by rewrite IH, orb_true_r.
Qed.

(** Without any of the substrings of [map_error], a message goes into the
    generic error, which keeps it. *)
Lemma map_error_without_needle params e :
  holds_known_needle e = false ->
  map_error params e =
    HTTPException 500
      ("Ошибка " +:+ PyStr.upper (p_protocol params) +:+ ": " +:+ e).
Proof.
  unfold holds_known_needle, map_error. intros H.
  repeat (apply orb_false_iff in H as [H ?]).
  repeat match goal with
         | H : PyStr.contains _ _ = false |- _ => rewrite H; clear H
         end.
  reflexivity.
Qed.

(** The size check is reported as [FileTooLarge] whenever its message, which
    holds the two sizes in decimal, has none of these substrings. *)
Lemma too_large_reported_without_needle params settings size :
  holds_known_needle (too_large_message size settings) = false ->
  FileTooLarge (map_error params (too_large_message size settings)) = true.
Proof.
  intros H. rewrite map_error_without_needle by done.
  unfold FileTooLarge. cbn [str_exc].
  do 3 apply contains_app_r. reflexivity.
Qed.

Example too_large_reported :
  let out := run (stub (Return (Some 2000000000)) ["data"])
                 example_os example_settings example_params ∅ in
  out.1 = Raise (HTTPException 500
    "Ошибка FTP: Файл слишком большой: 2000000000 байт (максимум: 1073741824)")
  /\ calls (world out.2) =
       [Connect true; GetFileSize "/reports/data.csv" (Some 2000000000); Close].
Proof. split; reflexivity. Qed.

(** C1, at a size whose decimal digits hold 530: the message of the size
    check goes through [map_error], whose test for the FTP reply code 530
    matches the digits, and the run fails with the error of a rejected
    login instead of [FileTooLarge]. *)
Theorem too_large_reported_as_unauthorized :
  let out := run (stub (Return (Some 5300000000)) ["data"])
                 example_os example_settings example_params ∅ in
  GetFileSize (p_path example_params) (Some 5300000000) ∈ calls (world out.2)
  /\ max_file_size example_settings < 5300000000
  /\ out.1 = Raise (HTTPException 401
                     "Ошибка авторизации на сервере: ftp.example.com")
  /\ FileTooLarge (HTTPException 401
                     "Ошибка авторизации на сервере: ftp.example.com") = false.
Proof.
  cbv zeta. split; [|split; [|split]].
  - vm_compute. repeat constructor.
  - reflexivity.
  - vm_compute. reflexivity.
  - vm_compute. reflexivity.
Qed.

(** ** Runs of the specification *)

Lemma failure_after_connect_closes_and_deletes_witness :
  let out := run (broken_stub (Return (Some 4096)) ["partial"]
                    (Exc LibraryError "426 Connection closed; transfer aborted"))
                 example_os example_settings example_params ∅ in
  last (calls (world out.2)) = Some Close
  /\ files (world out.2) !! "./temp/ftp_bridge_ftp_k3x9q2vb_data.csv" = None.
Proof.
  cbv zeta.
  destruct (failure_after_connect_closes_and_deletes
              (broken_stub (Return (Some 4096)) ["partial"]
                 (Exc LibraryError "426 Connection closed; transfer aborted"))
              example_os example_settings example_params ∅)
    as (Hlast & _ & _ & Hdel).
  - eexists. vm_compute. reflexivity.
  - vm_compute. repeat constructor.
  - split; [exact Hlast|]. apply Hdel. vm_compute. reflexivity.
Defined.

(** C2, at a login that the server rejects: [connect] has assigned the FTP
    object to [self.connection] and connected it when [login] raises; the
    exception leaves [__enter__], so that [__exit__] is not called: the run
    fails, the spooled file is deleted, and the backend still holds its
    connection, which nothing closes. *)
Theorem rejected_login_leaves_session_open :
  let srv := refusing_stub (Exc LibraryError "530 Login incorrect.") in
  let out := run srv example_os example_settings example_params ∅ in
  out.1 = Raise (HTTPException 401
                   "Ошибка авторизации на сервере: ftp.example.com")
  /\ calls (world out.2) = [Connect false]
  /\ (Close ∉ calls (world out.2))
  /\ (exists b, backend out.2 = Some b /\ connection b = Some FTP_handle)
  /\ ~ backend_closed out.2
  /\ is_Some (temp_file out.2)
  /\ spooled_file_deleted out.2.
Proof.
  cbv zeta.
  set (out := run _ _ _ _ _).
  assert (calls (world out.2) = [Connect false]) as Hcalls by reflexivity.
  assert (exists b, backend out.2 = Some b /\ connection b = Some FTP_handle)
    as Hopen by (eexists; split; reflexivity).
  split; [reflexivity|]. split; [exact Hcalls|]. split.
  { rewrite Hcalls. intros [=]%list_elem_of_singleton. }
  split; [exact Hopen|]. split.
  { intros (b & Hb & Hnone). destruct Hopen as (b' & Hb' & Hsome).
    congruence. }
  split; [by eexists|].
  intros file Hfile. vm_compute in Hfile. injection Hfile as <-.
  reflexivity.
Qed.

Lemma empty_transfer_fails_and_deletes_file_witness :
  let out := run (stub (Return (Some 4096)) [])
                 example_os example_settings example_params ∅ in
  out.1 = Raise EmptyTransfer
  /\ files (world out.2) !! "./temp/ftp_bridge_ftp_k3x9q2vb_data.csv" = None.
Proof.
  cbv zeta.
  destruct (empty_transfer_fails_and_deletes_file
              (stub (Return (Some 4096)) [])
              example_os example_settings example_params ∅)
    as (Hfail & _ & _ & Hdel).
  - vm_compute. repeat constructor.
  - split; [exact Hfail|]. apply Hdel. vm_compute. reflexivity.
Defined.

Lemma unknown_size_transfer_succeeds_witness :
  let out := run (stub (Raise (Exc LibraryError "500 SIZE not understood"))
                    [PyStr.repeat "x" 300; PyStr.repeat "y" 200])
                 example_os example_settings example_params ∅ in
  exists file, out.1 = Return (file, 500).
Proof.
  cbv zeta.
  destruct (unknown_size_transfer_succeeds
              (stub (Raise (Exc LibraryError "500 SIZE not understood"))
                 [PyStr.repeat "x" 300; PyStr.repeat "y" 200])
              example_os example_settings example_params ∅)
    as (file & content & Hr & _).
  - vm_compute. repeat constructor.
  - vm_compute. discriminate.
  - reflexivity.
  - reflexivity.
  - vm_compute. reflexivity.
  - exists file. exact Hr.
Defined.

(** * More properties *)

Local Arguments Ascii.eqb : simpl never.

(** ** UserInfoMasker: what the mask shows *)

Section masker.

Lemma contains_char_cons c a s :
  PyStr.contains (String c "") (String a s) =
    Ascii.eqb c a || PyStr.contains (String c "") s.
Proof. rewrite contains_cons, startswith_cons. cbn. by rewrite andb_true_r. Qed.

Lemma contains_char_nil c : PyStr.contains (String c "") "" = false.
Proof. reflexivity. Qed.

(** Splitting at the first at sign gives back the two parts of an identity
built from a local part without at sign. *)
Lemma split_once_app l d :
  PyStr.contains "@" l = false ->
  PyStr.split_once "@" (l +:+ "@" +:+ d) = (l, d)
  /\ PyStr.contains "@" (l +:+ "@" +:+ d) = true.
Proof.
  induction l as [|a l IH]; intros Hl; [done|].
  rewrite contains_char_cons in Hl. apply orb_false_iff in Hl as [Ha Hl].
  destruct (IH Hl) as [IH1 IH2].
  rewrite str_app_cons, contains_char_cons, IH2, orb_true_r.
  split; [|done]. cbn [PyStr.split_once].
  rewrite Ascii.eqb_sym, Ha. by rewrite IH1.
Qed.

(** The two parts of an identity that holds an at sign. *)
Lemma split_once_parts s :
  PyStr.contains "@" s = true ->
  s = (PyStr.split_once "@" s).1 +:+ "@" +:+ (PyStr.split_once "@" s).2
  /\ PyStr.contains "@" (PyStr.split_once "@" s).1 = false.
Proof.
  induction s as [|a s IH]; [done|].
  rewrite contains_char_cons. cbn [PyStr.split_once].
  rewrite (Ascii.eqb_sym a).
  destruct (Ascii.eqb "@" a) eqn:Ha.
  - apply Ascii.eqb_eq in Ha as <-. done.
  - cbn [orb]. intros [IH1 IH2]%IH.
    destruct (PyStr.split_once "@" s) as [l r]. cbn [fst snd] in *.
    rewrite str_app_cons, <- IH1. split; [done|].
    by rewrite contains_char_cons, Ha, IH2.
Qed.

Lemma length_cons a s : String.length (String a s) = S (String.length s).
Proof. reflexivity. Qed.

(** A character is one character. *)
Lemma chars_char s : Forall (fun c => PyStr.chars c = [c]) (PyStr.chars s).
Proof.
  induction s as [|b s IH]; [constructor|]. cbn [PyStr.chars].
  destruct (PyStr.chars s) as [|c cs] eqn:E; [by repeat constructor|].
  inversion IH as [|? ? Hc Hcs]; subst.
  destruct (PyStr.starts_with_continuation s) eqn:Hs.
  - constructor; [|done]. cbn [PyStr.chars].
    by rewrite Hc, (chars_head_starts s c cs E), Hs.
  - by repeat constructor.
Qed.

Lemma length_char s c : c ∈ PyStr.chars s -> PyStr.length c = 1%nat.
Proof.
  intros Hin. pose proof (chars_char s) as H.
  rewrite Forall_forall in H. unfold PyStr.length. by rewrite (H c Hin).
Qed.

Lemma first_length s c : PyStr.first s = Return c -> PyStr.length c = 1%nat.
Proof.
  unfold PyStr.first. destruct (PyStr.chars s) as [|c' cs] eqn:E; [done|].
  intros [= <-]. apply (length_char s). rewrite E. apply list_elem_of_here.
Qed.

(** The last of several characters opens with a byte of its own. *)
Lemma last_length s l :
  PyStr.last s = Return l ->
  PyStr.length l = 1%nat
  /\ ((1 < PyStr.length s)%nat -> PyStr.starts_with_continuation l = false).
Proof.
  unfold PyStr.last, PyStr.length.
  destruct (list.last (PyStr.chars s)) as [c|] eqn:E; [|done].
  intros [= <-]. split.
  - apply (length_char s). by apply last_Some_elem_of.
  - pose proof (chars_tail_starts s) as Ht.
    destruct (PyStr.chars s) as [|c0 [|c1 cs]]; cbn; [lia..|]. intros _.
    cbn [tail] in Ht. rewrite Forall_forall in Ht. apply Ht.
    apply last_Some_elem_of. by rewrite last_cons_cons in E.
Qed.

Lemma length_repeat_star n : PyStr.length (PyStr.repeat "*" n) = n.
Proof.
  induction n as [|n IH]; [done|]. cbn [PyStr.repeat].
  change ("*" +:+ PyStr.repeat "*" n) with (String "*" (PyStr.repeat "*" n)).
  unfold PyStr.length in *. rewrite chars_cons; [cbn; by rewrite IH|].
  by destruct n.
Qed.

Lemma repeat_star_starts n :
  PyStr.starts_with_continuation (PyStr.repeat "*" n) = false.
Proof. by destruct n. Qed.

Lemma starts_app s t :
  s <> "" ->
  PyStr.starts_with_continuation (s +:+ t)
  = PyStr.starts_with_continuation s.
Proof. by destruct s. Qed.

(** The [IndexError] of [local[0]] on an empty local part. *)
Lemma mask_user_info_at_sign user_string :
  PyStr.startswith "@" user_string = true ->
  mask_user_info user_string =
    Raise (Exc IndexError "string index out of range").
Proof.
  destruct user_string as [|a s]; [done|].
  rewrite startswith_cons, andb_true_r. intros <-%Ascii.eqb_eq.
  unfold mask_user_info.
  change (PyStr.eqb (String "@" s) "") with false. cbn iota.
  rewrite contains_char_cons, Ascii.eqb_refl. reflexivity.
Qed.

(** X1: [mask_user_info] raises exactly on the identities that start with an
at sign, and what it raises is the [IndexError] of [local[0]]; on every
other identity it returns. *)
Theorem mask_user_info_raises_iff (user_string : string) :
  (mask_user_info user_string =
     Raise (Exc IndexError "string index out of range")
   <-> PyStr.startswith "@" user_string = true)
  /\ ((exists masked, mask_user_info user_string = Return masked)
      <-> PyStr.startswith "@" user_string = false).
Proof.
  pose proof (mask_user_info_at_sign user_string) as Hraise.
  split; split.
  - intros H. destruct (PyStr.startswith "@" user_string) eqn:Hs; [done|].
    destruct (mask_user_info_returns _ Hs) as [m Hm]. congruence.
  - exact Hraise.
  - intros [m Hm]. destruct (PyStr.startswith "@" user_string) eqn:Hs; [|done].
    rewrite (Hraise eq_refl) in Hm. discriminate.
  - apply mask_user_info_returns.
Qed.

(** X2: the mask has as many characters as the identity, except that a
name part of a single character is shown with one star and so grows by
one. *)
Theorem mask_user_info_length (user_string masked : string) :
  mask_user_info user_string = Return masked ->
  PyStr.length masked =
    (PyStr.length user_string +
     if (PyStr.length (name_part user_string) =? 1)%nat then 1 else 0)%nat.
Proof.
  unfold mask_user_info, name_part.
  destruct user_string as [|a s]; [by intros [= <-]|].
  change (PyStr.eqb (String a s) "") with false. cbn iota.
  destruct (PyStr.contains "@" (String a s)) eqn:Hat.
  - destruct (split_once_parts _ Hat) as [Hparts _]. revert Hparts.
    destruct (PyStr.split_once "@" (String a s)) as [l d]. cbn [fst snd].
    intros ->.
    destruct (PyStr.first l) as [c|e] eqn:Hfirst; [|by case_match].
    pose proof (first_length _ _ Hfirst) as Hc.
    rewrite (length_chars_app l) by done.
    destruct (PyStr.length l <=? 2)%nat eqn:Hlen;
      cbn [rbind]; intros [= <-].
    + apply Nat.leb_le in Hlen.
      change (c +:+ "*") with (c +:+ PyStr.repeat "*" 1).
      rewrite (length_chars_app (c +:+ _)) by done.
      rewrite length_chars_app, length_repeat_star, Hc
        by apply repeat_star_starts.
      destruct (PyStr.length l) as [|[|[|n]]] eqn:El; cbn; try lia.
      unfold PyStr.first, PyStr.length in *.
      by destruct (PyStr.chars l).
    + apply Nat.leb_gt in Hlen.
      rewrite (length_chars_app (c +:+ _)) by done.
      rewrite length_chars_app, length_repeat_star, Hc
        by apply repeat_star_starts.
      destruct (PyStr.length l) as [|[|n]]; cbn; lia.
  - destruct (PyStr.first (String a s)) as [c|e] eqn:Hc; [|by case_match].
    apply first_length in Hc.
    destruct (PyStr.length (String a s) <=? 2)%nat eqn:Hlen.
    + cbn [rbind]. intros [= <-]. apply Nat.leb_le in Hlen.
      change (c +:+ "*") with (c +:+ PyStr.repeat "*" 1).
      rewrite length_chars_app, length_repeat_star, Hc
        by apply repeat_star_starts.
      destruct (PyStr.length (String a s)) as [|[|[|n]]] eqn:El;
        cbn; try lia.
      unfold PyStr.length in El.
      destruct (PyStr.chars (String a s)) eqn:E; [|done].
      by apply chars_cons_nonempty in E.
    + destruct (PyStr.last (String a s)) as [l|e] eqn:Hl; [|done].
      cbn [rbind]. intros [= <-]. apply Nat.leb_gt in Hlen.
      apply last_length in Hl as [Hl Hstart].
      rewrite length_chars_app.
      2:{ rewrite starts_app; [apply repeat_star_starts|].
          destruct (PyStr.length (String a s) - 2)%nat eqn:E; [lia|done]. }
      rewrite length_chars_app by (apply Hstart; lia).
      rewrite length_repeat_star, Hc, Hl.
      destruct (PyStr.length (String a s)) as [|[|n]]; cbn; lia.
Qed.

Lemma mask_user_info_length_witness :
  mask_user_info "Жанна" = Return "Ж***а"
  /\ PyStr.length "Ж***а" = PyStr.length "Жанна"
  /\ mask_user_info "j@example.com" = Return "j*@example.com"
  /\ PyStr.length "j*@example.com"
     = (PyStr.length "j@example.com" + 1)%nat.
Proof.
  split; [reflexivity|]. split.
  - exact (mask_user_info_length "Жанна" "Ж***а" eq_refl).
  - split; [reflexivity|].
    exact (mask_user_info_length "j@example.com" "j*@example.com" eq_refl).
Defined.

(** X3: of an identity with an at sign the mask shows the first character and
the number of characters of the local part, and the domain, and nothing
else: two identities that agree on these have the same mask.  Of an identity
without at sign it shows the first and the last character and the number of
characters. *)
Theorem mask_user_info_shows_only (l1 l2 d : string) :
  (PyStr.contains "@" l1 = false ->
   PyStr.contains "@" l2 = false ->
   PyStr.length l1 = PyStr.length l2 ->
   PyStr.first l1 = PyStr.first l2 ->
   mask_user_info (l1 +:+ "@" +:+ d) = mask_user_info (l2 +:+ "@" +:+ d))
  /\ (PyStr.contains "@" l1 = false ->
      PyStr.contains "@" l2 = false ->
      PyStr.length l1 = PyStr.length l2 ->
      PyStr.first l1 = PyStr.first l2 ->
      PyStr.last l1 = PyStr.last l2 ->
      mask_user_info l1 = mask_user_info l2).
Proof.
  split.
  - intros H1 H2 Hlen Hfirst.
    destruct (split_once_app l1 d H1) as [Hs1 Hc1].
    destruct (split_once_app l2 d H2) as [Hs2 Hc2].
    unfold mask_user_info. rewrite Hs1, Hs2, Hc1, Hc2.
    assert (PyStr.eqb (l1 +:+ "@" +:+ d) "" = false) as ->
      by (by destruct l1).
    assert (PyStr.eqb (l2 +:+ "@" +:+ d) "" = false) as ->
      by (by destruct l2).
    by rewrite Hfirst, Hlen.
  - intros H1 H2 Hlen Hfirst Hlast.
    unfold mask_user_info. rewrite H1, H2.
    assert (forall a l, PyStr.length (String a l) <> 0%nat) as Hpos.
    { intros a l. unfold PyStr.length.
      destruct (PyStr.chars (String a l)) eqn:E; [|done].
      by apply chars_cons_nonempty in E. }
    destruct l1 as [|a1 l1], l2 as [|a2 l2]; [done | | |].
    + by destruct (Hpos a2 l2).
    + by destruct (Hpos a1 l1).
    + change (PyStr.eqb (String a1 l1) "") with false.
      change (PyStr.eqb (String a2 l2) "") with false.
      by rewrite Hfirst, Hlen, Hlast.
Qed.

Lemma mask_user_info_shows_only_witness :
  mask_user_info "Жанна@example.com" = mask_user_info "Жорик@example.com"
  /\ mask_user_info "Жанна" = mask_user_info "Жучка".
Proof.
  destruct (mask_user_info_shows_only "Жанна" "Жорик" "example.com")
    as [He _].
  destruct (mask_user_info_shows_only "Жанна" "Жучка" "") as [_ Hp].
  split; [apply He | apply Hp]; reflexivity.
Defined.

End masker.

(** ** PathSanitizer: the path returned *)

Section sanitizer_output.
Context (u : UnicodeData).

Lemma last_not_sep c :
  c <> "" -> PyStr.forallb not_sep c = true ->
  exists a, PyStr.last_byte c = Return (String a "") /\ Ascii.eqb a "/" = false.
Proof.
  induction c as [|a c IHc]; [done|]. intros _ Hn.
  cbn in Hn. apply andb_true_iff in Hn as [Ha Hn].
  destruct c as [|b c].
  - exists a. split; [done|]. unfold not_sep in Ha.
    by destruct (Ascii.eqb a "/").
  - destruct IHc as (a' & Hl & Ha'); [done | done |].
    exists a'. by split.
Qed.

Lemma last_app_nonempty c j :
  j <> "" -> PyStr.last_byte (c +:+ j) = PyStr.last_byte j.
Proof.
  intros Hj. induction c as [|b c IHc]; [done|].
  rewrite str_app_cons. cbn [PyStr.last_byte]. rewrite IHc.
  destruct (c +:+ j) eqn:E; [|done].
  destruct c; [by rewrite str_app_nil_l in E | done].
Qed.

Lemma join_ends_without_sep cs :
  Forall (good_comp u) cs -> cs <> [] ->
  exists a, PyStr.last_byte (PyStr.join "/" cs) = Return (String a "")
    /\ Ascii.eqb a "/" = false.
Proof.
  intros H. induction H as [|c cs Hc Hcs IH]; [done|]. intros _.
  destruct cs as [|c' cs].
  - cbn [PyStr.join]. destruct (good_comp_first u c Hc) as (a & s & -> & _).
    apply last_not_sep; [done | apply Hc].
  - destruct IH as (a & Hl & Ha); [done|].
    exists a. split; [|done].
    rewrite join_cons, last_app_nonempty by (by rewrite sep_app).
    rewrite last_app_nonempty; [done|]. by intros E; rewrite E in Hl.
Qed.

(** X4: on a valid path, without two dots in a row nor a doubled separator,
[sanitize_path] returns the components of the path that are neither empty
nor a single dot, in their order, each after one separator.  The path
returned is again valid, holds neither two dots in a row nor a doubled
separator, and does not end with a separator unless it is the root. *)
Theorem sanitize_path_normalises (p q : string) :
  spec_path_shape u p = true ->
  PyStr.contains ".." p = false ->
  PyStr.contains "//" p = false ->
  sanitize_path u p = Return q ->
  let comps := List.filter keep (PyStr.split "/" p) in
  q = "/" +:+ PyStr.join "/" comps
  /\ Forall (good_comp u) comps
  /\ spec_path_shape u q = true
  /\ PyStr.contains ".." q = false
  /\ PyStr.contains "//" q = false
  /\ (q = "/" \/ exists a, PyStr.last_byte q = Return (String a "")
                   /\ Ascii.eqb a "/" = false).
Proof.
  intros (rest & -> & Hp)%spec_path_shape_inv Hd Hs Hq.
  change (PyStr.split "/" (String "/" rest)) with ("" :: PyStr.split "/" rest).
  change (List.filter keep ("" :: PyStr.split "/" rest))
    with (List.filter keep (PyStr.split "/" rest)).
  intros comps.
  rewrite (sanitize_path_valid u) in Hq by done. injection Hq as <-.
  fold comps.
  assert (Forall (good_comp u) comps) as Hgood.
  { apply kept_comps_good; [done|].
    rewrite contains_cons in Hd. by apply orb_false_iff in Hd as [_ Hd]. }
  split; [done|]. split; [done|].
  rewrite sep_app. split.
  { apply spec_path_shape_inv. eexists. split; [done|].
    apply class_text_join.
    eapply Forall_impl; [exact Hgood|]. by intros c (_ & _ & Hc & _). }
  split.
  { rewrite contains_cons, (join_no_dotdot u) by done.
    by rewrite orb_false_r. }
  split.
  { rewrite contains_cons, startswith_cons, (join_no_sepsep u),
      (join_startswith u) by done. by rewrite andb_false_r. }
  destruct comps as [|c cs] eqn:Hcomps; [by left|]. right.
  destruct (join_ends_without_sep (c :: cs)) as (a & Hl & Ha);
    [done | done |].
  exists a. split; [|done].
  revert Hl. generalize (PyStr.join "/" (c :: cs)). intros j Hl.
  cbn [PyStr.last_byte]. rewrite Hl. by destruct j.
Qed.

End sanitizer_output.

Lemma sanitize_path_normalises_witness :
  sanitize_path example_unicode "/отчеты/./2024/" = Return "/отчеты/2024".
Proof.
  destruct (sanitize_path_normalises example_unicode "/отчеты/./2024/"
              "/отчеты/2024")
    as (Hq & _); reflexivity.
Defined.

(** ** The backends: connecting, transferring, closing *)

Section backend_contracts.
Context (srv : Remote).

Local Arguments PyStr.contains : simpl never.
Local Arguments PyStr.lower : simpl never.
Local Arguments PyStr.len : simpl never.

(** X5: [close] never raises, whatever the class and the state of the
backend, and closing a second time changes nothing of the backend.  After
[close] an FTP or FTPS backend holds no connection, and so does an SFTP
backend whose [sftp_client] was set, as [connect] sets it before
[connection]; an SFTP backend without [sftp_client] is left as it is, with
the connection it may hold. *)
Theorem close_is_idempotent (b : StorageBackend) (w : World) :
  exists b',
    close (b, w) = (Return tt, (b', log_call Close w))
    /\ close (b', log_call Close w) =
         (Return tt, (b', log_call Close (log_call Close w)))
    /\ (is_Some (sftp_client b) \/ cls b <> SFTPBackend ->
        connection b' = None)
    /\ (cls b = SFTPBackend -> sftp_client b = None -> b' = b).
Proof.
  unfold close, bind, self, gets, assign_connection, assign_sftp_client,
    record, modify, ret.
  cbn [fst snd].
  destruct b as [c h p u pw t k conn sc].
  destruct c, conn, sc; cbn; eexists; (split; [reflexivity|]); cbn;
    (split; [reflexivity|]); (split; [|done]); try done.
  all: intros [[? [=]] | ?]; done.
Qed.

(** X6: whatever the library raises while connecting, [connect] raises a
[ConnectionError], the one exception being the [ImportError] of an SFTP
backend without paramiko. *)
Theorem connect_raises_connection_error (b : StorageBackend) (w : World)
    (e : Raised) (s' : Obj) :
  connect srv (b, w) = (Raise e, s') ->
  (exists msg, e = Exc ConnectionError msg)
  \/ (cls b = SFTPBackend /\ paramiko_installed srv = false
      /\ exists msg, e = Exc ImportError msg).
Proof.
  unfold connect, ftp_connect, sftp_wrapper_connect, bind, self, gets,
    try_except, assign_connection, assign_sftp_client, record, modify,
    raise, ret.
  cbn [fst snd].
  destruct (cls b) eqn:Hcls.
  - destruct (connect_result srv); [|done].
    intros [= <- <-]. left. by eexists.
  - destruct (connect_result srv); [|done].
    intros [= <- <-]. left. by eexists.
  - destruct (paramiko_installed srv); cbn [negb].
    + destruct (connect_result srv) as [[[] m|code m]|]; [..|done];
        try (intros [= <- <-]; left; by eexists).
      destruct (PyStr.contains _ (PyStr.lower m));
        intros [= <- <-]; left; by eexists.
    + intros [= <- <-]. right. split; [done|]. split; [done|]. by eexists.
Qed.

(** X7: [download_to_stream] appends to the open file every block the
library delivers and, when the transfer completes, returns the number of
bytes it appended.  When the library raises, the blocks delivered before
stay in the file and the exception is raised again as it is. *)
Theorem download_to_stream_counts_written (b : StorageBackend) (w : World)
    (remote_path local_stream content : string) (r : Result Z) (s' : Obj) :
  files w !! local_stream = Some content ->
  download_to_stream srv remote_path local_stream (b, w) = (r, s') ->
  files s'.2 !! local_stream = Some (content +:+ streamed_content srv)
  /\ s'.1 = b
  /\ match retr_result srv with
     | None => r = Return (PyStr.len (streamed_content srv))
     | Some e => r = Raise e
     end.
Proof.
  intros Hf. unfold download_to_stream, bind.
  rewrite (write_blocks_spec _ _ _ _ _ _ Hf), Z.add_0_l.
  fold (streamed_content srv).
  unfold record, modify, ret, raise, bind. cbn [fst snd].
  destruct (retr_result srv); intros [= <- <-]; cbn;
    by rewrite lookup_insert_eq.
Qed.

End backend_contracts.

Lemma connect_raises_connection_error_witness :
  exists msg,
    (connect (refusing_stub (Exc LibraryError "530 Login incorrect"))
       (example_backend, {| files := ∅; calls := [] |})).1
    = Raise (Exc ConnectionError msg).
Proof.
  set (out := connect _ _).
  assert (out = (Raise (Exc ConnectionError
                   "Не удалось подключиться к FTP серверу: 530 Login incorrect"),
                 out.2)) as Hout by reflexivity.
  destruct (connect_raises_connection_error _ _ _ _ _ Hout)
    as [[msg Hmsg] | (Hcls & _)]; [|discriminate].
  exists msg. rewrite Hout. cbn [fst]. by rewrite Hmsg.
Defined.

Lemma download_to_stream_counts_written_witness :
  let w := {| files := {[ "spool" := "" ]}; calls := [] |} in
  let out := download_to_stream (stub (Return (Some 5)) ["he"; "llo"])
               "/remote" "spool" (example_backend, w) in
  out.1 = Return 5 /\ files out.2.2 !! "spool" = Some "hello".
Proof.
  cbv zeta.
  set (out := download_to_stream _ _ _ _).
  destruct (download_to_stream_counts_written
              (stub (Return (Some 5)) ["he"; "llo"]) example_backend
              {| files := {[ "spool" := "" ]}; calls := [] |}
              "/remote" "spool" "" out.1 out.2)
    as (Hfile & _ & Hr).
  - apply lookup_singleton_eq.
  - apply surjective_pairing.
  - split; [exact Hr | exact Hfile].
Defined.

(** ** The download pipeline: order of the calls, results, failures *)

Section pipeline_contracts.
Context (srv : Remote) (os : LocalOS) (settings : Settings) (params : Params).

Local Arguments mask_user_info : simpl never.
Local Arguments map_error : simpl never.
Local Arguments create_backend : simpl never.
Local Arguments too_large_message : simpl never.
Local Arguments path_join : simpl never.
Local Arguments PyStr.len : simpl never.
Local Arguments PyStr.eqb : simpl never.
Local Arguments PyStr.contains : simpl never.

Ltac in_calls' H Hcalls :=
  rewrite Hcalls in H;
  repeat (apply elem_of_cons in H as [H|H]);
  try (by apply elem_of_nil in H);
  simplify_eq.

(** X8: a run makes its calls on the backend in one order: connect, one size
query, one download, close.  Its calls are none at all, a failed connect, or
a connect followed by the size query, by the download when the size check
and [open] let it start, and by close as the last call. *)
Theorem run_calls_in_order (fs : gmap string string) :
  let out := run srv os settings params fs in
  let p := p_path params in
  calls (world out.2) = []
  \/ calls (world out.2) = [Connect false]
  \/ (exists size, calls (world out.2) =
                     [Connect true; GetFileSize p size; Close])
  \/ (exists z returned,
        calls (world out.2) =
          [Connect true; GetFileSize p (Some z);
           DownloadToStream p returned; Close]
        /\ z <= max_file_size settings).
Proof.
  cbv zeta.
  pose proof (run_has_shape srv os settings params fs) as Hshape.
  destruct (run srv os settings params fs) as [r fr]. cbn [fst snd] in *.
  inversion Hshape as
    [ e fr' Hcalls | e fr' Hcalls | e fr' Hcalls | z' fr' Hcalls
    | z' e fr' Hcalls | z' e fr' Hcalls | z' fr' Hcalls
    | z' file fr' Hcalls ]; subst; rewrite Hcalls; eauto 8.
Qed.

(** X9: when the size query reports more than the ceiling, the calls of the
run are exactly connect, the size query and close: no download is invoked;
the run fails and the spooled file it had allocated is deleted. *)
Theorem oversize_stops_after_size_query (fs : gmap string string) (z : Z) :
  let out := run srv os settings params fs in
  GetFileSize (p_path params) (Some z) ∈ calls (world out.2) ->
  max_file_size settings < z ->
  calls (world out.2) =
    [Connect true; GetFileSize (p_path params) (Some z); Close]
  /\ (exists e, out.1 = Raise e)
  /\ backend_closed out.2
  /\ is_Some (temp_file out.2)
  /\ spooled_file_deleted out.2.
Proof.
  intros out Hin Hlt. subst out.
  pose proof (run_has_shape srv os settings params fs) as Hshape.
  destruct (run srv os settings params fs) as [r fr]. cbn [fst snd] in *.
  inversion Hshape as
    [ e fr' Hcalls | e fr' Hcalls | e fr' Hcalls | z' fr' Hcalls
    | z' e fr' Hcalls | z' e fr' Hcalls | z' fr' Hcalls
    | z' file fr' Hcalls ]; subst; in_calls' Hin Hcalls; try lia.
  rewrite Hcalls. eauto 8.
Qed.

(** X10: a run that returns, returns the spooled file and its size: the size
is positive, it is the number of bytes the server streamed, the file is in
the temporary directory with exactly these bytes, and the session was
closed after the download. *)
Theorem successful_run_result (fs : gmap string string) (file : string)
    (byte_size : Z) :
  let out := run srv os settings params fs in
  out.1 = Return (file, byte_size) ->
  0 < byte_size
  /\ byte_size = streamed_bytes srv
  /\ files (world out.2) !! file = Some (streamed_content srv)
  /\ temp_file out.2 = Some file
  /\ backend_closed out.2
  /\ exists z, calls (world out.2) =
       [Connect true; GetFileSize (p_path params) (Some z);
        DownloadToStream (p_path params) (Some byte_size); Close]
     /\ z <= max_file_size settings.
Proof.
  intros out Hret. subst out.
  pose proof (run_has_shape srv os settings params fs) as Hshape.
  destruct (run srv os settings params fs) as [r fr]. cbn [fst snd] in *.
  rewrite Hret in Hshape. clear Hret.
  inversion Hshape as
    [ | | | | | |
    | z' file' fr' Hcalls Hle Hnz Hclosed Htemp Hfile ]; subst.
  split. { unfold streamed_bytes, PyStr.len in *. lia. }
  repeat split; try done. eauto.
Qed.

Lemma map_error_is_http e :
  exists code detail, map_error params e = HTTPException code detail
    /\ code ∈ [400; 401; 404; 500].
Proof.
  unfold map_error.
  repeat case_match; do 2 eexists; (split; [reflexivity|]);
    rewrite !elem_of_cons; auto 6.
Qed.

(** X11: when the user of the request is an identity that [mask_user_info]
accepts, every failure of the pipeline reaches the caller as an
[HTTPException], whatever was raised inside. *)
Theorem failure_is_http_exception (fs : gmap string string) (e : Raised) :
  let out := run srv os settings params fs in
  PyStr.startswith "@" (p_user params) = false ->
  out.1 = Raise e ->
  exists code detail, e = HTTPException code detail.
Proof.
  intros out Hat. subst out.
  destruct (mask_user_info_returns _ Hat) as [masked Hmask].
  unfold run, download_with_storage_backend, try_except.
  destruct (pipeline_body srv os settings params _) as [[a|e0] fr];
    cbn [fst]; [done|].
  destruct (handler_spec params e0 fr) as (e' & fs' & -> & _ & Hmap).
  cbn [fst]. intros [= <-]. rewrite (Hmap masked Hmask).
  destruct e0 as [c m|code detail]; [|by eauto].
  destruct (map_error_is_http (str_exc (Exc c m))) as (code & detail & -> & _).
  eauto.
Qed.

(** X12: when the user of the request starts with an at sign, no run
succeeds and none reaches the backend: after [mkstemp] the first call of
[mask_user_info] raises, the handler deletes the spooled file, and its own
call of [mask_user_info] raises the [IndexError] that leaves the pipeline. *)
Theorem at_sign_user_fails_before_connect (fs : gmap string string)
    (name : string) :
  let out := run srv os settings params fs in
  PyStr.startswith "@" (p_user params) = true ->
  mkstemp_result os = Return name ->
  out.1 = Raise (Exc IndexError "string index out of range")
  /\ calls (world out.2) = []
  /\ backend out.2 = None
  /\ is_Some (temp_file out.2)
  /\ spooled_file_deleted out.2.
Proof.
  intros out Hat Hmk. subst out.
  apply mask_user_info_at_sign in Hat.
  unfold run, download_with_storage_backend, try_except, pipeline_body.
  unfold mkstemp.
  unfold bind, lift, modify, ret, raise.
  rewrite Hmk, Hat.
  cbn [world files calls temp_file backend set_world set_files set_temp_file].
  pose proof (spooled_name_nonempty settings params name) as Hname.
  set (file := path_join _ _) in *.
  unfold pipeline_handler, bind, lift, raise.
  match goal with
  | |- context [cleanup_temp_file ?fr] =>
      destruct (cleanup_spec fr) as (fs' & -> & Hdel)
  end.
  rewrite Hat. cbn.
  split; [done|]. split; [done|]. split; [done|]. split; [by eexists|].
  intros ? [= <-]. by apply Hdel.
Qed.

Lemma cleanup_keeps_temp_file fr :
  temp_file (cleanup_temp_file fr).2 = temp_file fr.
Proof.
  unfold cleanup_temp_file.
  destruct (temp_file fr) as [file|] eqn:Ht; [|done].
  by destruct (negb (PyStr.eqb file "") && _).
Qed.

Lemma cleanup_frame fr f :
  temp_file fr <> Some f ->
  files (world (cleanup_temp_file fr).2) !! f = files (world fr) !! f.
Proof.
  intros Hf. unfold cleanup_temp_file.
  destruct (temp_file fr) as [file|] eqn:Ht; [|done].
  destruct (negb (PyStr.eqb file "") && _); cbn; [|done].
  apply lookup_delete_ne. congruence.
Qed.

Lemma handler_state e fr :
  (pipeline_handler params e fr).2 = (cleanup_temp_file fr).2.
Proof.
  unfold pipeline_handler, bind, lift, raise.
  destruct e; destruct (cleanup_temp_file fr) as [[[]|e0] fr'];
    cbn [snd]; try done.
  by destruct (mask_user_info _).
Qed.

Lemma transfer_frame file b w f :
  f <> file ->
  files (transfer srv os settings params file (b, w)).2.2 !! f = files w !! f.
Proof.
  intros Hf.
  unfold transfer, get_file_size, with_open_wb, download_to_stream.
  unfold bind, record, lift, modify, ret, raise. cbn [fst snd].
  destruct (match size_result srv with
            | Return v => v
            | Raise _ => Some 0
            end) as [z|]; [|done].
  cbn [py_gt]. destruct (z >? max_file_size settings); [done|].
  destruct (open_result os); [done|]. cbn [fst snd].
  erewrite write_blocks_spec by (cbn; apply lookup_insert_eq).
  cbn [fst snd files calls set_files log_call].
  destruct (retr_result srv); cbn;
    by rewrite !lookup_insert_ne by done.
Qed.

(** The files of the temporary directory other than the spooled file of the
run are not touched. *)
Lemma run_frame_lookup (fs : gmap string string)
    (f : string) :
  let out := run srv os settings params fs in
  temp_file out.2 <> Some f ->
  files (world out.2) !! f = fs !! f.
Proof.
  cbv zeta.
  unfold run, download_with_storage_backend, try_except, pipeline_body.
  unfold mkstemp, storage_operations, on_backend, with_backend, try_finally.
  unfold bind, lift, modify, ret, raise.
  cbn [world files calls temp_file backend set_world set_files set_temp_file].
  destruct (mkstemp_result os) as [name|e0] eqn:Hmk.
  2:{ intros Hf. rewrite handler_state in *.
      rewrite cleanup_keeps_temp_file in Hf. by rewrite cleanup_frame. }
  set (file := path_join _ _) in *.
  assert (forall e fr,
    temp_file fr = Some file ->
    (f <> file -> files (world fr) !! f = fs !! f) ->
    temp_file (pipeline_handler params e fr).2 <> Some f ->
    files (world (pipeline_handler params e fr).2) !! f = fs !! f) as Hfail.
  { intros e fr Ht Hfr. rewrite handler_state, cleanup_keeps_temp_file, Ht.
    intros Hne. rewrite cleanup_frame by congruence.
    apply Hfr. congruence. }
  assert (forall f', f' <> file -> <[file := ""]> fs !! f' = fs !! f')
    as Hins by (intros; by apply lookup_insert_ne).
  destruct (mask_user_info (p_user params)) as [masked|e0] eqn:Hmask.
  2:{ apply Hfail; [done|]. intros. cbn. by apply Hins. }
  destruct (create_backend _ _ _ _ _ _ _) as [b|e0] eqn:Hcreate.
  2:{ apply Hfail; [done|]. intros. cbn. by apply Hins. }
  match goal with
  | |- context [connect srv (b, ?w)] =>
      destruct (connect_spec srv b w)
        as [(b' & Hc & Hcls & Hsftp) | (e0 & b' & Hc)]; rewrite Hc; clear Hc
  end.
  2:{ apply Hfail; [done|]. intros. cbn. by apply Hins. }
  rewrite <- Hcls in Hsftp.
  match goal with
  | |- context [transfer srv os settings params file (b', ?w)] =>
      pose proof (fun Hf => transfer_frame file b' w f Hf) as Htr;
      pose proof (transfer_spec srv os settings params file b' w) as Hspec;
      destruct (transfer srv os settings params file (b', w))
        as [r [b1 w1]] eqn:Ht
  end.
  cbn [fst snd files log_call] in Htr.
  assert (b1 = b') as ->.
  { destruct Hspec as [(? & ? & ? & Ht' & _) | [(? & ? & ? & Ht' & _)
      | (? & ? & Ht' & _)]]; by simplify_eq. }
  destruct (close_spec b' w1) as (b2 & Hcl & _); [done|].
  rewrite Hcl. cbn [fst snd].
  assert (f <> file -> files w1 !! f = fs !! f) as Hw1.
  { intros Hf. rewrite Htr by done. by apply Hins. }
  destruct r as [n|e0]; [|by apply Hfail].
  unfold getsize. cbn [world files log_call].
  destruct (files w1 !! file) as [content|] eqn:Hfile; [|by apply Hfail].
  destruct (PyStr.len content =? 0); [by apply Hfail|].
  cbn. intros Hne. apply Hw1. congruence.
Qed.

(** X13: a run leaves every file of the temporary directory other than its
own spooled file as it found it, whether it returns or fails. *)
Theorem run_touches_only_its_spooled_file (fs : gmap string string)
    (f : string) :
  let out := run srv os settings params fs in
  temp_file out.2 <> Some f ->
  files (world out.2) !! f = fs !! f.
Proof. exact (run_frame_lookup fs f). Qed.

End pipeline_contracts.

Lemma oversize_stops_after_size_query_witness :
  let out := run (stub (Return (Some 1073741825)) ["data"])
                 example_os example_settings example_params ∅ in
  calls (world out.2) =
    [Connect true; GetFileSize "/reports/data.csv" (Some 1073741825); Close].
Proof.
  cbv zeta.
  destruct (oversize_stops_after_size_query
              (stub (Return (Some 1073741825)) ["data"])
              example_os example_settings example_params ∅ 1073741825)
    as (Hcalls & _).
  - vm_compute. repeat constructor.
  - reflexivity.
  - exact Hcalls.
Defined.

Lemma successful_run_result_witness :
  let out := run (stub (Return (Some 5)) ["he"; "llo"])
                 example_os example_settings example_params ∅ in
  files (world out.2) !! "./temp/ftp_bridge_ftp_k3x9q2vb_data.csv"
    = Some "hello".
Proof.
  cbv zeta.
  destruct (successful_run_result
              (stub (Return (Some 5)) ["he"; "llo"])
              example_os example_settings example_params ∅
              "./temp/ftp_bridge_ftp_k3x9q2vb_data.csv" 5)
    as (_ & _ & Hfile & _).
  - vm_compute. reflexivity.
  - exact Hfile.
Defined.

Lemma failure_is_http_exception_witness :
  exists code detail,
    (run (refusing_stub (Exc LibraryError "Connection refused"))
       example_os example_settings example_params ∅).1
    = Raise (HTTPException code detail).
Proof.
  set (e := HTTPException 500
              "Не удалось подключиться к серверу: ftp.example.com").
  destruct (failure_is_http_exception
              (refusing_stub (Exc LibraryError "Connection refused"))
              example_os example_settings example_params ∅ e)
    as (code & detail & He).
  - reflexivity.
  - vm_compute. reflexivity.
  - exists code, detail. rewrite <- He. vm_compute. reflexivity.
Defined.

Lemma at_sign_user_fails_before_connect_witness :
  let out := run (stub (Return (Some 5)) ["hello"])
                 example_os example_settings at_sign_params ∅ in
  out.1 = Raise (Exc IndexError "string index out of range")
  /\ calls (world out.2) = [].
Proof.
  cbv zeta.
  destruct (at_sign_user_fails_before_connect
              (stub (Return (Some 5)) ["hello"])
              example_os example_settings at_sign_params ∅ "k3x9q2vb")
    as (Hr & Hc & _); [reflexivity | reflexivity |].
  by split.
Defined.

Lemma run_touches_only_its_spooled_file_witness :
  let fs : gmap string string := {[ "./temp/other.csv" := "kept" ]} in
  let out := run (broken_stub (Return (Some 5)) ["he"]
                    (Exc LibraryError "426 aborted"))
                 example_os example_settings example_params fs in
  files (world out.2) !! "./temp/other.csv" = Some "kept".
Proof.
  cbv zeta.
  rewrite (run_touches_only_its_spooled_file
             (broken_stub (Return (Some 5)) ["he"]
                (Exc LibraryError "426 aborted"))
             example_os example_settings example_params
             {[ "./temp/other.csv" := "kept" ]} "./temp/other.csv").
  - apply lookup_singleton_eq.
  - vm_compute. discriminate.
Defined.

(** ** Streaming the spooled file *)

Section streamer.

Lemma take_drop n s : take n s +:+ drop n s = s.
Proof.
  revert s. induction n as [|n IH]; intros [|a s]; try done.
  cbn [take drop]. by rewrite str_app_cons, IH.
Qed.

Lemma length_take n s :
  String.length (take n s) = Nat.min n (String.length s).
Proof.
  revert s. induction n as [|n IH]; intros [|a s]; try done.
  cbn [take String.length]. by rewrite IH.
Qed.

Lemma length_drop n s :
  String.length (drop n s) = (String.length s - n)%nat.
Proof.
  revert s. induction n as [|n IH]; intros [|a s]; try done.
  cbn [drop String.length]. by rewrite IH.
Qed.

Lemma length_zero s : String.length s = 0%nat -> s = "".
Proof. by destruct s. Qed.

(** The loop of reads with a positive chunk size ends within one round more
than the file has bytes.  The chunks it yields, put end to end, are the
file; none is empty, all have at most the chunk size, and all but the last
have exactly it. *)
Lemma read_loop_spec (k fuel : nat) (rest : string) :
  (0 < k)%nat -> (String.length rest < fuel)%nat ->
  exists chunks,
    read_loop fuel (Z.of_nat k) rest = Some chunks
    /\ foldr String.append "" chunks = rest
    /\ Forall (fun c => c <> "" /\ (String.length c <= k)%nat) chunks
    /\ (forall i c, chunks !! i = Some c -> (S i < length chunks)%nat ->
          String.length c = k).
Proof.
  intros Hk. revert rest.
  induction fuel as [|fuel IH]; intros rest Hfuel; [lia|].
  cbn [read_loop]. unfold file_read.
  assert ((Z.of_nat k <? 0) = false) as -> by lia.
  rewrite Nat2Z.id.
  destruct (PyStr.eqb (take k rest) "") eqn:He.
  - apply eqb_true in He.
    assert (rest = "") as ->.
    { pose proof (length_take k rest) as Hl. rewrite He in Hl. cbn in Hl.
      apply length_zero. lia. }
    exists []. repeat split; [constructor | intros ? ? [=]].
  - apply eqb_false in He.
    assert (String.length (take k rest) <> 0%nat) as Hne
      by (intros ?%length_zero; done).
    rewrite length_take in Hne.
    destruct (IH (drop k rest)) as (chunks & -> & Hcat & Hall & Hfull).
    { rewrite length_drop. lia. }
    exists (take k rest :: chunks). cbn [fmap option_fmap option_map foldr].
    split; [done|]. split; [by rewrite Hcat, take_drop|]. split.
    + constructor; [|done]. split; [done|]. rewrite length_take. lia.
    + intros [|i] c Hc Hi; cbn in Hc, Hi.
      * injection Hc as <-. rewrite length_take.
        destruct chunks as [|c' chunks]; [cbn in Hi; lia|].
        inversion Hall as [|? ? [Hc' _] _]; subst.
        assert (String.length (drop k rest) <> 0%nat) as Hd.
        { rewrite <- Hcat. cbn [foldr]. rewrite str_length_app.
          destruct c'; [done|]. cbn. lia. }
        rewrite length_drop in Hd. lia.
      * apply (Hfull i c Hc). lia.
Qed.

Lemma length_concat_chunks chunks :
  String.length (foldr String.append "" chunks) =
    sum_list (String.length <$> chunks).
Proof.
  induction chunks as [|c chunks IH]; [done|].
  cbn. by rewrite str_length_app, IH.
Qed.

(** X14: iterated to its end on an existing file, with a positive chunk
size in the settings, [file_streamer] yields the whole file and nothing
else, in chunks that are not empty and have the tuned chunk size, the last
one possibly less, and it deletes the file.  One round of the loop more than
the file has bytes is enough. *)
Theorem file_streamer_yields_the_file (cfg : AppSettings)
    (file_path content : string) (file_size : Z) (fuel : nat)
    (fs : gmap string string) :
  fs !! file_path = Some content ->
  0 < chunk_size cfg ->
  (String.length content < fuel)%nat ->
  let k := Z.to_nat (auto_tune_chunk_size file_size (chunk_size cfg)) in
  exists chunks,
    file_streamer cfg file_path file_size fuel fs =
      Some (Return chunks, delete file_path fs)
    /\ foldr String.append "" chunks = content
    /\ Forall (fun c => c <> "" /\ (String.length c <= k)%nat) chunks
    /\ (forall i c, chunks !! i = Some c -> (S i < length chunks)%nat ->
          String.length c = k).
Proof.
  intros Hfile Hchunk Hfuel k.
  assert (0 < auto_tune_chunk_size file_size (chunk_size cfg)) as Hpos.
  { unfold auto_tune_chunk_size. case_match; lia. }
  destruct (read_loop_spec k fuel content) as (chunks & Hloop & Hrest);
    [lia | done |].
  exists chunks. split; [|done].
  unfold file_streamer. rewrite Hfile.
  replace (auto_tune_chunk_size file_size (chunk_size cfg))
    with (Z.of_nat k) by lia.
  by rewrite Hloop.
Qed.

Lemma file_streamer_yields_the_file_witness :
  file_streamer example_cfg "spool" 5 6 {[ "spool" := "hello" ]} =
    Some (Return ["hello"], ∅).
Proof.
  destruct (file_streamer_yields_the_file example_cfg "spool" "hello" 5 6
              {[ "spool" := "hello" ]})
    as (chunks & Hs & Hcat & _);
    [apply lookup_singleton_eq | reflexivity | cbn; lia |].
  rewrite Hs. vm_compute in Hs. by simplify_eq.
Defined.

End streamer.

(** ** The route [download_file] *)

Section download_route.
Context (u : UnicodeData) (srv : Remote) (os : LocalOS) (cfg : AppSettings)
        (params : Params) (token : string).

Local Arguments mask_user_info : simpl never.
Local Arguments PyStr.of_int : simpl never.
Local Arguments str_lower : simpl never.
Local Arguments path_suffix : simpl never.
Local Arguments mime_type : simpl never.

(** A response of the route is built from a run of the pipeline that
returned. *)
Lemma download_file_returns fs resp fr :
  download_file u srv os cfg params token (initial_frame fs) = (Return resp, fr) ->
  exists file n,
    run srv os (pipeline_settings cfg) params fs = (Return (file, n), fr)
    /\ 0 < n
    /\ n = streamed_bytes srv
    /\ files (world fr) !! file = Some (streamed_content srv)
    /\ temp_file fr = Some file
    /\ resp =
         {| status_code := 200;
            media_type :=
              Some (mime_type (str_lower u (path_suffix (p_file_name params))));
            headers :=
              [("Content-Disposition",
                "attachment; filename=" +:+ dquote +:+ p_file_name params
                +:+ dquote);
               ("Content-Length", PyStr.of_int n);
               ("Cache-Control", "no-cache");
               ("X-File-Source", "FTP-Bridge");
               ("X-File-Size", PyStr.of_int n);
               ("X-Protocol-Used", p_protocol params);
               ("X-Auto-Chunk-Tuned",
                if n >? 10 * 1024 * 1024 then "true" else "false");
               ("Retry-After", "60")];
            body := Some (file, n) |}.
Proof.
  unfold download_file, try_except, bind, lift, ret, raise.
  change (download_with_storage_backend srv os (pipeline_settings cfg) params
            (initial_frame fs))
    with (run srv os (pipeline_settings cfg) params fs).
  pose proof (run_has_shape srv os (pipeline_settings cfg) params fs)
    as Hshape.
  destruct (run srv os (pipeline_settings cfg) params fs)
    as [[[file n]|e] fr1] eqn:Hrun.
  - destruct (mask_user_info (p_user params)) as [masked|e] eqn:Hmask.
    + intros [= <- <-]. exists file, n. split; [done|].
      inversion Hshape as
        [ | | | | | |
        | z' file' fr' Hcalls Hle Hnz Hclosed Htemp Hfile ]; subst.
      split. { unfold streamed_bytes, PyStr.len in *. lia. }
      by repeat split.
    + destruct e; [by destruct (mask_user_info _)|done].
  - destruct e; [by destruct (mask_user_info _)|done].
Qed.

(** On an existing file and with enough rounds, [file_streamer] ends, with
the content of the file in its chunks. *)
Lemma file_streamer_total file_path content file_size fuel
    (fs : gmap string string) :
  fs !! file_path = Some content ->
  0 < chunk_size cfg ->
  (String.length content < fuel)%nat ->
  exists chunks,
    file_streamer cfg file_path file_size fuel fs =
      Some (Return chunks, delete file_path fs)
    /\ foldr String.append "" chunks = content.
Proof.
  intros Hfile Hchunk Hfuel.
  set (k := Z.to_nat (auto_tune_chunk_size file_size (chunk_size cfg))).
  assert (0 < auto_tune_chunk_size file_size (chunk_size cfg)) as Hpos.
  { unfold auto_tune_chunk_size. case_match; lia. }
  destruct (read_loop_spec k fuel content) as (chunks & Hloop & Hcat & _);
    [lia | done |].
  exists chunks. split; [|done].
  unfold file_streamer. rewrite Hfile.
  replace (auto_tune_chunk_size file_size (chunk_size cfg))
    with (Z.of_nat k) by lia.
  by rewrite Hloop.
Qed.

(** X15: the body of a response of [download_file], iterated to its end,
is the data the server streamed, byte for byte, and its length is the size
the response announces; afterwards the temporary directory holds what it
held before the request, without the spooled file. *)
Theorem download_file_serves_the_file (fs : gmap string string)
    (resp : Response) (fr : Frame) :
  download_file u srv os cfg params token (initial_frame fs) = (Return resp, fr) ->
  0 < chunk_size cfg ->
  exists file n chunks,
    body resp = Some (file, n)
    /\ header "Content-Length" resp = Some (PyStr.of_int n)
    /\ file_streamer cfg file n (S (Z.to_nat n)) (files (world fr)) =
         Some (Return chunks, delete file fs)
    /\ foldr String.append "" chunks = streamed_content srv
    /\ Z.of_nat (sum_list (String.length <$> chunks)) = n.
Proof.
  intros (file & n & Hrun & Hpos & Hn & Hfile & Htemp & ->)%download_file_returns
    Hchunk.
  pose proof (run_frame_lookup srv os (pipeline_settings cfg) params fs)
    as Hframe.
  rewrite Hrun in Hframe. cbn [fst snd] in Hframe.
  destruct (file_streamer_total file (streamed_content srv) n
              (S (Z.to_nat n)) (files (world fr)))
    as (chunks & Hs & Hcat); [done | done | |].
  { rewrite Hn. unfold streamed_bytes, PyStr.len. lia. }
  exists file, n, chunks. split; [done|]. split; [reflexivity|].
  split; [|split; [done|]].
  - rewrite Hs. do 2 f_equal. apply map_eq. intros f.
    destruct (decide (f = file)) as [->|Hf].
    + by rewrite !lookup_delete_eq.
    + rewrite !lookup_delete_ne by done. apply Hframe. congruence.
  - rewrite <- length_concat_chunks, Hcat, Hn. reflexivity.
Qed.


End download_route.

Example lower_final_sigma (u : UnicodeData) :
  str_lower u "AΣ. Σ" = "aς. σ" /\ str_lower u "AΣB" = "aσb".
Proof. split; reflexivity. Qed.

Lemma download_file_serves_the_file_witness :
  let out := download_file example_unicode (stub (Return (Some 5)) ["he"; "llo"])
               example_os example_cfg example_params
               "0123456789abcdef0123456789abcdef" (initial_frame ∅) in
  exists resp chunks, out.1 = Return resp
    /\ header "Content-Length" resp = Some "5"
    /\ file_streamer example_cfg "./temp/ftp_bridge_ftp_k3x9q2vb_data.csv" 5
         (S (Z.to_nat 5)) (files (world out.2))
       = Some (Return chunks,
               delete "./temp/ftp_bridge_ftp_k3x9q2vb_data.csv" ∅)
    /\ foldr String.append "" chunks = "hello".
Proof.
  cbv zeta.
  set (out := download_file _ _ _ _ _ _ _).
  assert (exists resp, out = (Return resp, out.2)) as [resp Hout].
  { eexists. vm_compute. reflexivity. }
  destruct (download_file_serves_the_file _ _ _ _ _ _ _ _ _ Hout)
    as (file & n & chunks & Hbody & Hlen & Hs & Hcat & _); [reflexivity|].
  exists resp, chunks. split; [by rewrite Hout|].
  assert (body resp = Some ("./temp/ftp_bridge_ftp_k3x9q2vb_data.csv", 5))
    as Hb.
  { assert (out.1 = Return resp) as H1 by (by rewrite Hout).
    vm_compute in H1. injection H1 as <-. reflexivity. }
  rewrite Hb in Hbody. injection Hbody as <- <-.
  split; [exact Hlen|]. split; [exact Hs | exact Hcat].
Defined.


(** ** The validation of the parameters of a request *)

Section validation.
Context (u : UnicodeData) (cfg : AppSettings) (sftp_available : bool).

Local Arguments sanitize_path : simpl never.
Local Arguments is_file_allowed : simpl never.
Local Arguments path_name : simpl never.
Local Arguments PyStr.eqb : simpl never.
Local Arguments PyStr.join : simpl never.

Lemma sanitize_path_raises_value_error path e :
  sanitize_path u path = Raise e -> exists msg, e = Exc ValueError msg.
Proof.
  unfold sanitize_path. repeat case_match; intros [= <-]; by eexists.
Qed.

(** X17: the parameters that [validate_required_params] returns are ready for
the pipeline: the path is the one [sanitize_path] returns, the file name is
its last component, not empty and of an allowed extension, and the protocol
is one of ftp, ftps and sftp in lower case, which the factory accepts, sftp
only when paramiko is there.  The protocol of the request was then auto or
one of these three names, in exactly this case. *)
Theorem validated_params_are_ready (host user password path protocol : string)
    (params : Params) :
  validate_required_params u cfg sftp_available host user password path protocol
    = Return params ->
  degraded_mode cfg = false
  /\ sanitize_path u path = Return (p_path params)
  /\ p_file_name params = path_name (p_path params)
  /\ p_file_name params <> ""
  /\ is_file_allowed u cfg (p_file_name params) = true
  /\ protocol ∈ ["auto"; "ftp"; "ftps"; "sftp"]
  /\ p_protocol params ∈ ["ftp"; "ftps"; "sftp"]
  /\ (p_protocol params = "sftp" -> sftp_available = true)
  /\ (p_host params, p_user params, p_password params) = (host, user, password)
  /\ forall timeout known_hosts,
       exists b, create_backend (p_protocol params) host None user password
                   timeout known_hosts = Return b
                 /\ get_protocol_name b = p_protocol params.
Proof.
  unfold validate_required_params.
  destruct (degraded_mode cfg); [done|].
  destruct (sanitize_path u path) as [q|[[] m|]] eqn:Hq; try done.
  destruct (PyStr.eqb (path_name q) "") eqn:Hname; [done|].
  destruct (is_file_allowed u cfg (path_name q)) eqn:Hallowed; [|done].
  cbn [negb].
  assert (forall proto, proto ∈ ["ftp"; "ftps"; "sftp"] ->
    forall timeout known_hosts,
      exists b, create_backend proto host None user password
                  timeout known_hosts = Return b
                /\ get_protocol_name b = proto) as Hfactory.
  { intros proto Hin t k. rewrite !elem_of_cons, elem_of_nil in Hin.
    destruct Hin as [->|[->|[->|[]]]]; eexists; split; reflexivity. }
  assert (forall proto,
    proto ∈ ["ftp"; "ftps"; "sftp"] ->
    (if PyStr.eqb proto "sftp" && negb sftp_available
     then Raise (HTTPException 400
                   "SFTP поддержка недоступна. Установите paramiko.")
     else Return {| p_host := host; p_user := user; p_password := password;
                    p_path := q; p_file_name := path_name q;
                    p_protocol := proto |}) = Return params ->
    p_protocol params = proto
    /\ p_path params = q /\ p_file_name params = path_name q
    /\ (proto = "sftp" -> sftp_available = true)
    /\ (p_host params, p_user params, p_password params)
       = (host, user, password)) as Hlast.
  { intros proto Hin.
    destruct (PyStr.eqb proto "sftp") eqn:Hs; destruct sftp_available;
      try done; intros [= <-]; cbn; repeat split; try done.
    intros ->. by rewrite (proj2 (eqb_true _ _) eq_refl) in Hs. }
  apply eqb_false in Hname.
  destruct (PyStr.eqb protocol "auto") eqn:Hauto.
  - apply eqb_true in Hauto as ->. cbn [rbind].
    assert (protocol_value (default_protocol cfg) ∈ ["ftp"; "ftps"; "sftp"])
      as Hin by (destruct (default_protocol cfg); cbn;
                 rewrite !elem_of_cons; auto).
    intros (Hproto & Hpath & Hfile & Hsftp & Hcred)%Hlast; [|done].
    rewrite Hproto, Hpath, Hfile.
    repeat split; try done;
      first [apply list_elem_of_here | exact (Hfactory _ Hin)].
  - destruct (PyStr.eqb protocol "ftp" || PyStr.eqb protocol "ftps"
              || PyStr.eqb protocol "sftp") eqn:Hknown; [|done].
    cbn [negb rbind].
    assert (protocol ∈ ["ftp"; "ftps"; "sftp"]) as Hin.
    { rewrite !orb_true_iff, !eqb_true in Hknown.
      rewrite !elem_of_cons. tauto. }
    intros (Hproto & Hpath & Hfile & Hsftp & Hcred)%Hlast; [|done].
    rewrite Hproto, Hpath, Hfile.
    repeat split; try done;
      first [by apply list_elem_of_further | exact (Hfactory _ Hin)].
Qed.

(** X18: every rejection of [validate_required_params] is an
[HTTPException] with status 400, or 503 in degraded mode: the [ValueError]
of [sanitize_path] never reaches the caller. *)
Theorem validation_rejects_with_400_or_503
    (host user password path protocol : string) (e : Raised) :
  validate_required_params u cfg sftp_available host user password path protocol
    = Raise e ->
  exists detail,
    (e = HTTPException 400 detail /\ degraded_mode cfg = false)
    \/ (e = HTTPException 503 detail /\ degraded_mode cfg = true).
Proof.
  unfold validate_required_params.
  destruct (degraded_mode cfg); [intros [= <-]; eauto|].
  destruct (sanitize_path u path) as [q|e0] eqn:Hq.
  - repeat case_match; cbn; repeat case_match; try done;
      intros [= <-]; eauto.
  - destruct (sanitize_path_raises_value_error _ _ Hq) as [msg ->].
    intros [= <-]; eauto.
Qed.

End validation.

Lemma validated_params_are_ready_witness :
  validate_required_params example_unicode example_cfg true "ftp.example.com"
    "jo@example.com" "secret" "/отчеты/./данные.csv" "auto"
  = Return validated_example
  /\ sanitize_path example_unicode "/отчеты/./данные.csv"
     = Return "/отчеты/данные.csv"
  /\ is_file_allowed example_unicode example_cfg "данные.csv" = true.
Proof.
  split; [reflexivity|].
  destruct (validated_params_are_ready example_unicode example_cfg true "ftp.example.com"
              "jo@example.com" "secret" "/отчеты/./данные.csv" "auto"
              validated_example eq_refl)
    as (_ & Hpath & _ & _ & Hallowed & _).
  split; [exact Hpath | exact Hallowed].
Defined.

Lemma validation_rejects_with_400_or_503_witness :
  exists detail,
    validate_required_params example_unicode example_cfg true "ftp.example.com"
      "jo@example.com" "secret" "/отчеты/../данные.csv" "auto"
    = Raise (HTTPException 400 detail).
Proof.
  destruct (validation_rejects_with_400_or_503 example_unicode example_cfg
              true
              "ftp.example.com" "jo@example.com" "secret"
              "/отчеты/../данные.csv" "auto"
              (HTTPException 400
                 "Недопустимый путь: Обнаружена попытка path traversal (..) в пути")
              eq_refl) as [detail [[He _]|[He _]]]; [|discriminate].
  exists detail. rewrite <- He. reflexivity.
Defined.

(** ** Paths that end with a newline, and the allowed extensions *)

Section newline_paths.

Local Arguments sanitize_path : simpl never.
Local Arguments PyStr.eqb : simpl never.
Local Arguments PyStr.join : simpl never.

(** Text without separator appended to a path goes to its last component. *)
Lemma split_app_last t u :
  PyStr.forallb not_sep u = true ->
  exists init c, PyStr.split "/" t = init ++ [c]
                 /\ PyStr.split "/" (t +:+ u) = init ++ [c +:+ u].
Proof.
  intros Hu. induction t as [|a t (init & c & H1 & H2)].
  - exists [], "". split; [done|]. rewrite str_app_nil_l.
    by apply split_no_sep.
  - rewrite str_app_cons. cbn [PyStr.split]. rewrite H1, H2.
    destruct (Ascii.eqb a "/").
    + by exists ("" :: init), c.
    + destruct init as [|h init].
      * by exists [], (String a c).
      * by exists (String a h :: init), c.
Qed.

Lemma keep_app_newline c : keep (c +:+ newline) = true.
Proof.
  unfold keep, newline.
  rewrite negb_true_iff, orb_false_iff, !eqb_false.
  destruct c as [|a [|b c]]; rewrite ?str_app_cons, ?str_app_nil_l; done.
Qed.

Lemma path_name_app_newline t :
  exists c, path_name (t +:+ newline) = c +:+ newline.
Proof.
  destruct (split_app_last t newline eq_refl) as (init & c & _ & H).
  exists c. unfold path_name. rewrite H, List.filter_app. cbn [List.filter].
  rewrite keep_app_newline. by rewrite last_snoc.
Qed.

Lemma rfind_app_newline c : rfind "." (c +:+ newline) = rfind "." c.
Proof.
  induction c as [|a c IH]; [reflexivity|].
  rewrite str_app_cons. cbn [rfind]. by rewrite IH.
Qed.

Lemma rfind_lt ch s i : rfind ch s = Some i -> (i < String.length s)%nat.
Proof.
  revert i. induction s as [|a s IH]; [done|]. intros i. cbn [rfind].
  rewrite length_cons. destruct (rfind ch s) as [j|].
  - intros [= <-]. specialize (IH j eq_refl). lia.
  - destruct (Ascii.eqb a ch); [|done]. intros [= <-]. lia.
Qed.

Lemma drop_app i s u :
  (i <= String.length s)%nat -> drop i (s +:+ u) = drop i s +:+ u.
Proof.
  revert s. induction i as [|i IH]; intros s.
  - by destruct s.
  - destruct s as [|a s]; rewrite ?length_cons; [cbn; lia|].
    intros Hi. rewrite str_app_cons. cbn [drop]. apply IH. lia.
Qed.

Lemma path_suffix_app_newline t :
  path_suffix (t +:+ newline) = ""
  \/ exists x, path_suffix (t +:+ newline) = x +:+ newline.
Proof.
  unfold path_suffix. destruct (path_name_app_newline t) as [c ->].
  rewrite rfind_app_newline.
  destruct (rfind "." c) as [i|] eqn:Hr; [|by left].
  case_match; [|by left]. right. exists (drop i c).
  apply drop_app. apply rfind_lt in Hr. lia.
Qed.

Lemma last_byte_app_cons s a :
  PyStr.last_byte (s +:+ String a "") = Return (String a "").
Proof.
  induction s as [|b s IH]; [done|]. rewrite str_app_cons.
  cbn [PyStr.last_byte]. rewrite IH.
  destruct (s +:+ String a "") eqn:E; [|done].
  by destruct s.
Qed.

(** A newline after a capital sigma is no cased character. *)
Lemma followed_by_cased_newline (u : UnicodeData) cs :
  followed_by_cased u (cs ++ [newline]) = followed_by_cased u cs.
Proof.
  induction cs as [|c cs IH]; [done|]. cbn [app followed_by_cased].
  by rewrite IH.
Qed.

Lemma lower_chars_newline (u : UnicodeData) after_cased cs :
  lower_chars u after_cased (cs ++ [newline])
  = lower_chars u after_cased cs +:+ newline.
Proof.
  revert after_cased. induction cs as [|c cs IH]; intros after_cased.
  - reflexivity.
  - cbn [app lower_chars]. rewrite IH, str_app_assoc.
    unfold lower_one. by rewrite followed_by_cased_newline.
Qed.

(** [lower] keeps a newline at the end. *)
Lemma str_lower_newline (u : UnicodeData) x :
  str_lower u (x +:+ newline) = str_lower u x +:+ newline.
Proof.
  unfold str_lower. rewrite chars_app by done.
  apply lower_chars_newline.
Qed.

(** X19: a path that [sanitize_path] lets through with a newline at its end
(the path of C5) is stopped by [validate_required_params] at the check of
the extension, with status 400, whenever no allowed extension is empty or
ends with a newline: the file name then ends with the newline, and so does
its suffix, if it has one, also in lower case.  The text of the detail lists
the extensions in the iteration order of a Python set and is left open. *)
Theorem newline_path_is_rejected (u : UnicodeData) (cfg : AppSettings)
    (sftp_available : bool) (host user password path protocol t : string) :
  degraded_mode cfg = false ->
  sanitize_path u path = Return (t +:+ newline) ->
  (forall ext, ext ∈ allowed_extensions cfg ->
     ext <> "" /\ forall x, ext <> x +:+ newline) ->
  is_file_allowed u cfg (path_name (t +:+ newline)) = false
  /\ exists detail,
       validate_required_params u cfg sftp_available host user password path
         protocol = Raise (HTTPException 400 detail).
Proof.
  intros Hmode Hpath Hexts.
  assert (is_file_allowed u cfg (path_name (t +:+ newline)) = false) as Hno.
  { destruct (path_name_app_newline t) as [c ->].
    unfold is_file_allowed. cbv zeta. apply bool_decide_eq_false.
    intros Hin. apply Hexts in Hin as [Hne Hnl].
    destruct (path_suffix_app_newline c) as [Hs|[x Hs]]; rewrite Hs in *.
    - by apply Hne.
    - rewrite str_lower_newline in Hnl. by apply (Hnl (str_lower u x)). }
  split; [exact Hno|].
  unfold validate_required_params. rewrite Hmode, Hpath. cbv zeta.
  rewrite Hno.
  destruct (path_name_app_newline t) as [c ->].
  replace (PyStr.eqb (c +:+ newline) "") with false.
  - by eexists.
  - symmetry. apply eqb_false. by destruct c.
Qed.

Lemma newline_path_is_rejected_witness :
  sanitize_path example_unicode ("/отчеты/данные.csv" +:+ newline)
    = Return ("/отчеты/данные.csv" +:+ newline)
  /\ exists detail,
       validate_required_params example_unicode example_cfg true
         "ftp.example.com" "jo@example.com" "secret"
         ("/отчеты/данные.csv" +:+ newline) "auto"
       = Raise (HTTPException 400 detail).
Proof.
  split; [reflexivity|].
  apply (newline_path_is_rejected example_unicode example_cfg true
           "ftp.example.com" "jo@example.com" "secret"
           ("/отчеты/данные.csv" +:+ newline) "auto"
           "/отчеты/данные.csv"); [reflexivity | reflexivity |].
  intros ext Hin. apply elem_of_list_to_set in Hin.
  rewrite !elem_of_cons, elem_of_nil in Hin.
  assert (PyStr.last_byte ext <> Return newline /\ ext <> "")
    as [Hlast Hne].
  { repeat (destruct Hin as [->|Hin]; [by split|]). done. }
  split; [exact Hne|]. intros x ->. apply Hlast. apply last_byte_app_cons.
Defined.

End newline_paths.

(** ** The HEAD route *)

Section head_route.
Context (srv : Remote) (cfg : AppSettings) (params : Params) (token : string).

Local Arguments mask_user_info : simpl never.
Local Arguments create_backend : simpl never.
Local Arguments PyStr.of_int : simpl never.
Local Arguments too_large_message : simpl never.

Local Abbreviation head_backend :=
  (create_backend (p_protocol params) (p_host params) None (p_user params)
     (p_password params) (ftp_timeout (pipeline_settings cfg))
     (settings_known_hosts_path (pipeline_settings cfg))).

Lemma create_backend_protocol_name protocol h p u pw t k b :
  create_backend protocol h p u pw t k = Return b ->
  get_protocol_name b = PyStr.lower protocol.
Proof.
  unfold create_backend.
  destruct (PyStr.eqb (PyStr.lower protocol) "ftp") eqn:H1;
    [apply eqb_true in H1 as ->; by intros [= <-]|].
  destruct (PyStr.eqb (PyStr.lower protocol) "ftps") eqn:H2;
    [apply eqb_true in H2 as ->; by intros [= <-]|].
  destruct (PyStr.eqb (PyStr.lower protocol) "sftp") eqn:H3;
    [apply eqb_true in H3 as ->; by intros [= <-]|].
  done.
Qed.

(** [connect] raises no [HTTPException]. *)
Lemma connect_raises_exc b w e s' :
  connect srv (b, w) = (Raise e, s') -> exists c msg, e = Exc c msg.
Proof.
  unfold connect, ftp_connect, sftp_wrapper_connect, bind, self, gets,
    try_except, assign_connection, assign_sftp_client, record, modify,
    raise, ret.
  cbn [fst snd].
  destruct (cls b) eqn:Hcls.
  - destruct (connect_result srv); [|done]. intros [= <- <-]. eauto.
  - destruct (connect_result srv); [|done]. intros [= <- <-]. eauto.
  - destruct (paramiko_installed srv); cbn [negb].
    + destruct (connect_result srv) as [[[] m|code m]|]; [..|done];
        try (intros [= <- <-]; eauto).
      destruct (PyStr.contains _ (PyStr.lower m)); intros [= <- <-]; eauto.
    + intros [= <- <-]. eauto.
Qed.

(** The session of [get_file_metadata]: the connect fails, or the size is
queried and the session closed. *)
Lemma get_file_metadata_spec fs b :
  head_backend = Return b ->
  (exists c msg b',
     get_file_metadata srv cfg params (initial_frame fs) =
       (Raise (Exc c msg),
        {| world := {| files := fs; calls := [Connect false] |};
           backend := Some b'; temp_file := None |}))
  \/ (exists b',
        get_file_metadata srv cfg params (initial_frame fs) =
          (Return (reported_size srv, get_protocol_name b),
           {| world := {| files := fs;
                          calls := [Connect true;
                                    GetFileSize (p_path params)
                                      (reported_size srv);
                                    Close] |};
              backend := Some b'; temp_file := None |})
        /\ connection b' = None).
Proof.
  intros Hb. unfold get_file_metadata, bind, lift. rewrite Hb.
  unfold on_backend, with_backend, bind, initial_frame.
  cbn [world temp_file].
  destruct (connect_spec srv b {| files := fs; calls := [] |})
    as [(b1 & Hc & Hcls & Hsftp)|(e & b1 & Hc)]; rewrite Hc.
  - right. unfold try_finally, get_file_size, bind, record, modify, self,
      gets, ret. cbn [fst snd].
    fold (reported_size srv).
    destruct (close_spec b1
                (log_call (GetFileSize (p_path params) (reported_size srv))
                   (log_call (Connect true) {| files := fs; calls := [] |})))
      as (b2 & Hclose & Hconn).
    { intros Hs. apply Hsftp. congruence. }
    rewrite Hclose. exists b2. split; [|done].
    unfold get_protocol_name. by rewrite Hcls.
  - left. destruct (connect_raises_exc _ _ _ _ Hc) as (c & msg & ->).
    by exists c, msg, b1.
Qed.

(** Every request of the HEAD route ends in one of three ways: before a
backend is called, after a connect that failed, or after the size query on a
session that was closed. *)
Lemma head_has_shape fs :
  let out := head_download_file srv cfg params token (initial_frame fs) in
  files (world out.2) = fs
  /\ temp_file out.2 = None
  /\ ((calls (world out.2) = [] /\ backend out.2 = None
       /\ exists e, out.1 = Raise e)
      \/ (calls (world out.2) = [Connect false]
          /\ exists detail, out.1 = Raise (HTTPException 500 detail))
      \/ (calls (world out.2)
            = [Connect true; GetFileSize (p_path params) (reported_size srv);
               Close]
          /\ (exists b', backend out.2 = Some b' /\ connection b' = None)
          /\ match reported_size srv with
             | None => exists detail, out.1 = Raise (HTTPException 500 detail)
             | Some n =>
                 if n >? max_file_size (pipeline_settings cfg) then
                   out.1 = Raise (HTTPException 413
                             (too_large_message (Some n)
                                (pipeline_settings cfg)))
                 else
                   exists b,
                     head_backend = Return b
                     /\ out.1 =
                          Return
                            {| status_code := 200;
                               media_type := None;
                               headers :=
                                 [("X-File-Size", PyStr.of_int n);
                                  ("X-Protocol", get_protocol_name b);
                                  ("X-File-Name", p_file_name params);
                                  ("Content-Length", PyStr.of_int n);
                                  ("Cache-Control", "no-cache")];
                               body := None |}
             end)).
Proof.
  cbv zeta. unfold head_download_file, try_except, bind, lift.
  destruct (mask_user_info (p_user params)) as [masked|e] eqn:Hmask.
  2:{ destruct e as [c m|code detail].
      - rewrite ?Hmask. cbn. split; [done|]. split; [done|]. left. eauto.
      - cbn. split; [done|]. split; [done|]. left. eauto. }
  destruct head_backend as [b|e] eqn:Hb.
  2:{ unfold get_file_metadata, bind, lift. rewrite Hb.
      destruct e as [c m|code detail]; rewrite ?Hmask; cbn;
        (split; [done|]); (split; [done|]); left; eauto. }
  destruct (get_file_metadata_spec fs b Hb)
    as [(c & msg & b1 & Hmeta)|(b1 & Hmeta & Hconn)]; rewrite Hmeta.
  - rewrite ?Hmask. cbn. split; [done|]. split; [done|]. right; left. eauto.
  - destruct (reported_size srv) as [n|].
    + cbn [py_gt]. destruct (n >? max_file_size (pipeline_settings cfg)).
      * cbn. split; [done|]. split; [done|]. right; right. eauto.
      * cbn. split; [done|]. split; [done|]. right; right.
        split; [done|]. split; [eauto|]. eauto.
    + cbn [py_gt]. rewrite ?Hmask. cbn. split; [done|]. split; [done|].
      right; right. split; [done|]. split; [eauto|]. eauto.
Qed.

(** X21: a request of the HEAD route never transfers the file and leaves
the temporary directory as it was: the backend is called at most for a
connect, one size query and a close, and whenever the connect returned the
session is closed again and holds no connection. *)
Theorem head_request_only_queries_the_size (fs : gmap string string) :
  let out := head_download_file srv cfg params token (initial_frame fs) in
  files (world out.2) = fs
  /\ temp_file out.2 = None
  /\ (forall path n, DownloadToStream path n ∉ calls (world out.2))
  /\ (calls (world out.2) = []
      \/ calls (world out.2) = [Connect false]
      \/ calls (world out.2)
         = [Connect true; GetFileSize (p_path params) (reported_size srv);
            Close])
  /\ (Connect true ∈ calls (world out.2) ->
      last (calls (world out.2)) = Some Close
      /\ exists b, backend out.2 = Some b /\ connection b = None).
Proof.
  cbv zeta. destruct (head_has_shape fs) as (Hfiles & Htemp & Hshape).
  split; [exact Hfiles|]. split; [exact Htemp|].
  destruct Hshape as [(Hc & _)|[(Hc & _)|(Hc & Hb & _)]]; rewrite Hc.
  - split; [intros path n Hin; by apply elem_of_nil in Hin|].
    split; [by left|]. intros Hin. by apply elem_of_nil in Hin.
  - split.
    { intros path n Hin. rewrite elem_of_cons, elem_of_nil in Hin.
      by destruct Hin. }
    split; [right; by left|]. intros Hin.
    rewrite elem_of_cons, elem_of_nil in Hin. by destruct Hin.
  - split.
    { intros path n Hin. rewrite !elem_of_cons, elem_of_nil in Hin.
      destruct Hin as [?|[?|[?|[]]]]; done. }
    split; [right; by right|]. intros _. split; [done|exact Hb].
Qed.

(** X22: when the size the server reports is above the ceiling, the HEAD
route answers with status 413 and the message that names the size and the
ceiling, whatever the digits of the two numbers are: the route has its own
check of the size and no mapping of messages to statuses. *)
Theorem head_too_large_is_413 (fs : gmap string string) (n : Z) :
  let out := head_download_file srv cfg params token (initial_frame fs) in
  GetFileSize (p_path params) (Some n) ∈ calls (world out.2) ->
  max_file_size (pipeline_settings cfg) < n ->
  out.1 = Raise (HTTPException 413
            (too_large_message (Some n) (pipeline_settings cfg))).
Proof.
  cbv zeta. intros Hin Hlarge.
  destruct (head_has_shape fs) as (_ & _ & Hshape).
  destruct Hshape as [(Hc & _)|[(Hc & _)|(Hc & _ & Hout)]]; rewrite Hc in Hin.
  - by apply elem_of_nil in Hin.
  - rewrite elem_of_cons, elem_of_nil in Hin. by destruct Hin.
  - rewrite !elem_of_cons, elem_of_nil in Hin.
    destruct Hin as [?|[Hsize|[?|[]]]]; try done.
    injection Hsize as Hsize. rewrite <- Hsize in Hout.
    by replace (n >? max_file_size (pipeline_settings cfg)) with true in Hout
      by lia.
Qed.

(** X23: a response of the HEAD route has status 200 and no body; the size
the server reported, an integer not above the ceiling, is in the headers
[Content-Length] and [X-File-Size], the name of the file in [X-File-Name]
and the protocol, in lower case, in [X-Protocol].  The session that queried
the size is closed. *)
Theorem head_response_headers (fs : gmap string string) (resp : Response) :
  let out := head_download_file srv cfg params token (initial_frame fs) in
  out.1 = Return resp ->
  status_code resp = 200
  /\ body resp = None
  /\ calls (world out.2)
     = [Connect true; GetFileSize (p_path params) (reported_size srv); Close]
  /\ exists n,
       reported_size srv = Some n
       /\ n <= max_file_size (pipeline_settings cfg)
       /\ header "Content-Length" resp = Some (PyStr.of_int n)
       /\ header "X-File-Size" resp = Some (PyStr.of_int n)
       /\ header "X-File-Name" resp = Some (p_file_name params)
       /\ header "X-Protocol" resp = Some (PyStr.lower (p_protocol params)).
Proof.
  cbv zeta. intros Hret.
  destruct (head_has_shape fs) as (_ & _ & Hshape).
  destruct Hshape as [(_ & _ & e & He)|[(_ & d & He)|(Hc & _ & Hout)]];
    [congruence | congruence |].
  destruct (reported_size srv) as [n|]; [|destruct Hout; congruence].
  destruct (n >? max_file_size (pipeline_settings cfg)) eqn:Hgt;
    [congruence|].
  destruct Hout as (b & Hb & Hout). rewrite Hout in Hret.
  injection Hret as <-.
  rewrite (create_backend_protocol_name _ _ _ _ _ _ _ _ Hb).
  split; [done|]. split; [done|]. split; [exact Hc|].
  exists n. split; [done|]. split; [lia|]. repeat split; reflexivity.
Qed.


End head_route.

Lemma head_too_large_is_413_witness :
  (head_download_file (stub (Return (Some 5300000000)) []) example_cfg
     example_params "0123456789abcdef0123456789abcdef" (initial_frame ∅)).1
  = Raise (HTTPException 413
             (too_large_message (Some 5300000000) example_settings)).
Proof.
  apply (head_too_large_is_413 (stub (Return (Some 5300000000)) [])
           example_cfg example_params "0123456789abcdef0123456789abcdef" ∅
           5300000000).
  - vm_compute. apply list_elem_of_further, list_elem_of_here.
  - reflexivity.
Defined.

Lemma head_response_headers_witness :
  exists resp,
    (head_download_file (stub (Return (Some 500)) []) example_cfg
       example_params "0123456789abcdef0123456789abcdef" (initial_frame ∅)).1
    = Return resp
    /\ header "Content-Length" resp = Some "500".
Proof.
  eexists. split; [reflexivity|].
  destruct (head_response_headers (stub (Return (Some 500)) []) example_cfg
              example_params "0123456789abcdef0123456789abcdef" ∅ _ eq_refl)
    as (_ & _ & _ & n & Hn & _ & Hlen & _).
  injection Hn as <-. exact Hlen.
Defined.


(** ** The tokens of the clients *)

Section tokens.
Context (u : UnicodeData) (min_token_length : Z).

Local Arguments PyStr.startswith : simpl never.
Local Arguments str_title : simpl never.
Local Arguments PyStr.of_int : simpl never.

(** The loop over the environment: it returns the tokens it started with and
the values of the token variables, all long enough, or raises at a token
variable whose value is too short. *)
Lemma load_tokens_loop_spec environ acc :
  match load_tokens_loop u min_token_length environ acc with
  | Return tokens =>
      (forall t, is_Some (tokens !! t) <->
         is_Some (acc !! t)
         \/ exists key, (key, t) ∈ environ /\ token_variable key = true)
      /\ (forall key value, (key, value) ∈ environ ->
            token_variable key = true ->
            min_token_length <= Z.of_nat (PyStr.length value))
  | Raise e =>
      exists key value msg,
        (key, value) ∈ environ /\ token_variable key = true
        /\ Z.of_nat (PyStr.length value) < min_token_length
        /\ e = Exc ValueError msg
  end.
Proof.
  revert acc. induction environ as [|[key value] environ IH]; intros acc.
  - cbn. split.
    + intros t. split; [by left|]. intros [H|(key & H & _)]; [done|].
      by apply elem_of_nil in H.
    + intros key value H. by apply elem_of_nil in H.
  - cbn [load_tokens_loop]. fold (token_variable key).
    destruct (token_variable key) eqn:Hkey.
    + cbv zeta. destruct (Z.of_nat (PyStr.length value) >=? min_token_length) eqn:Hlen.
      * specialize (IH (<[value := str_title u (replace_char "_" " "
                                                    (PyStr.drop_chars 17 key))]>
                          acc)).
        destruct (load_tokens_loop _ _ environ _) as [tokens|e].
        -- destruct IH as [Hdom Hmin]. split.
           ++ intros t. rewrite Hdom. split.
              ** intros [Hacc|(k & Hin & Hk)].
                 --- destruct (decide (value = t)) as [->|Hne].
                     +++ right. exists key. split; [apply list_elem_of_here|done].
                     +++ left. by rewrite lookup_insert_ne in Hacc.
                 --- right. exists k. split; [by apply list_elem_of_further|done].
              ** intros [Hacc|(k & Hin & Hk)].
                 --- left. destruct (decide (value = t)) as [->|Hne].
                     +++ rewrite lookup_insert_eq. eauto.
                     +++ by rewrite lookup_insert_ne.
                 --- apply elem_of_cons in Hin as [[= -> ->]|Hin].
                     +++ left. rewrite lookup_insert_eq. eauto.
                     +++ right. eauto.
           ++ intros k v Hin Hk. apply elem_of_cons in Hin as [[= -> ->]|Hin].
              ** lia.
              ** by apply (Hmin k v).
        -- destruct IH as (k & v & msg & Hin & Hk & Hshort & ->).
           exists k, v, msg. split; [by apply list_elem_of_further|done].
      * exists key, value. eexists.
        split; [apply list_elem_of_here|]. split; [done|]. split; [lia|done].
    + specialize (IH acc).
      destruct (load_tokens_loop _ _ environ _) as [tokens|e].
      * destruct IH as [Hdom Hmin]. split.
        -- intros t. rewrite Hdom. split.
           ++ intros [Hacc|(k & Hin & Hk)]; [by left|].
              right. exists k. split; [by apply list_elem_of_further|done].
           ++ intros [Hacc|(k & Hin & Hk)]; [by left|].
              apply elem_of_cons in Hin as [[= -> ->]|Hin]; [congruence|].
              right. eauto.
        -- intros k v Hin Hk. apply elem_of_cons in Hin as [[= -> ->]|Hin].
           ++ congruence.
           ++ by apply (Hmin k v).
      * destruct IH as (k & v & msg & Hin & Hk & Hshort & ->).
        exists k, v, msg. split; [by apply list_elem_of_further|done].
Qed.

Lemma load_client_tokens_returns environ tokens :
  load_client_tokens u min_token_length environ = Return tokens ->
  load_tokens_loop u min_token_length environ ∅ = Return tokens
  /\ tokens <> ∅.
Proof.
  unfold load_client_tokens.
  destruct (load_tokens_loop _ _ environ ∅) as [tokens'|e]; [|done].
  cbn [rbind]. case_bool_decide; [done|]. by intros [= <-].
Qed.

(** X25: when [_load_client_tokens] returns, the tokens it loaded are
exactly the values of the environment variables whose name is the prefix
[FTP_BRIDGE_TOKEN_] followed by at least one character; there is at least
one, and each has the minimal length of the settings or more, counted in
characters. *)
Theorem loaded_tokens_are_the_token_variables
    (environ : list (string * string)) (tokens : gmap string string) :
  load_client_tokens u min_token_length environ = Return tokens ->
  (forall t, is_Some (tokens !! t) <->
     exists key, (key, t) ∈ environ /\ token_variable key = true)
  /\ (forall t, is_Some (tokens !! t) -> min_token_length <= Z.of_nat (PyStr.length t))
  /\ tokens <> ∅.
Proof.
  intros [Hloop Hne]%load_client_tokens_returns.
  pose proof (load_tokens_loop_spec environ ∅) as Hspec.
  rewrite Hloop in Hspec. destruct Hspec as [Hdom Hmin].
  assert (forall t, is_Some (tokens !! t) <->
            exists key, (key, t) ∈ environ /\ token_variable key = true)
    as Hdom'.
  { intros t. rewrite Hdom. split; [|by right].
    intros [H|H]; [|done]. rewrite lookup_empty in H. by destruct H. }
  split; [exact Hdom'|]. split; [|exact Hne].
  intros t (key & Hin & Hkey)%Hdom'. by apply (Hmin key t).
Qed.

(** X26: with the tokens loaded from the environment in the settings,
[validate_token] lets a token through exactly when it is the value of a
token variable of the environment, and such a token has the minimal length
or more, counted in characters; every other token is refused with status
403. *)
Theorem accepted_tokens_come_from_the_environment (cfg : AppSettings)
    (environ : list (string * string)) (token : string) :
  load_client_tokens u min_token_length environ = Return (client_tokens cfg) ->
  (validate_token cfg token = Return token
   /\ (exists key, (key, token) ∈ environ /\ token_variable key = true)
   /\ min_token_length <= Z.of_nat (PyStr.length token))
  \/ (validate_token cfg token
        = Raise (HTTPException 403 "Access Denied: Invalid token")
      /\ forall key, (key, token) ∈ environ -> token_variable key = false).
Proof.
  intros [Hloop Hne]%load_client_tokens_returns.
  pose proof (load_tokens_loop_spec environ ∅) as Hspec.
  rewrite Hloop in Hspec. destruct Hspec as [Hdom Hmin].
  unfold validate_token, settings_validate_token.
  case_bool_decide as Hin; cbn [negb].
  - left. split; [done|].
    apply Hdom in Hin as [Hin|(key & Hin & Hkey)].
    { rewrite lookup_empty in Hin. by destruct Hin. }
    split; [eauto|]. by apply (Hmin key token).
  - right. split; [done|]. intros key Hkey.
    destruct (token_variable key) eqn:Hvar; [|done].
    exfalso. apply Hin, Hdom. right. eauto.
Qed.

(** X27: [_load_client_tokens] fails, always with a [ValueError], exactly
when the value of some token variable has fewer characters than the minimal
length, or the environment has no token variable at all. *)
Theorem token_loading_fails_iff (environ : list (string * string)) :
  ((exists e, load_client_tokens u min_token_length environ = Raise e)
   <-> (exists key value, (key, value) ∈ environ
          /\ token_variable key = true
          /\ Z.of_nat (PyStr.length value) < min_token_length)
       \/ (forall key value, (key, value) ∈ environ ->
             token_variable key = false))
  /\ (forall e, load_client_tokens u min_token_length environ = Raise e ->
        exists msg, e = Exc ValueError msg).
Proof.
  pose proof (load_tokens_loop_spec environ ∅) as Hspec.
  unfold load_client_tokens.
  destruct (load_tokens_loop _ _ environ ∅) as [tokens|e0] eqn:Hloop.
  - destruct Hspec as [Hdom Hmin]. cbn [rbind].
    case_bool_decide as Hempty.
    + split; [|intros e [= <-]; eauto]. split; [|eauto].
      intros _. right. intros key value Hin.
      destruct (token_variable key) eqn:Hvar; [|done].
      assert (is_Some (tokens !! value)) as Hsome
        by (apply Hdom; right; eauto).
      rewrite Hempty, lookup_empty in Hsome. by destruct Hsome.
    + split; [|done]. split; [by intros [e He]|].
      intros [(key & value & Hin & Hvar & Hshort)|Hnone].
      * specialize (Hmin key value Hin Hvar). lia.
      * exfalso. apply Hempty. apply map_eq. intros t. rewrite lookup_empty.
        apply eq_None_not_Some. intros [H|(key & Hin & Hvar)]%Hdom.
        -- rewrite lookup_empty in H. by destruct H.
        -- rewrite (Hnone key t Hin) in Hvar. done.
  - destruct Hspec as (key & value & msg & Hin & Hvar & Hshort & ->).
    cbn [rbind]. split; [|intros e [= <-]; eauto].
    split; [|eauto]. intros _. left. eauto.
Qed.

End tokens.

(** A token of 16 letters is too short for a minimal length of 32, also when
its UTF-8 encoding has 32 bytes. *)
Example short_cyrillic_token_is_refused :
  exists msg,
    load_client_tokens example_unicode 32
      [("FTP_BRIDGE_TOKEN_CLIENT1", "щщщщщщщщщщщщщщщщ")]
    = Raise (Exc ValueError msg).
Proof. by eexists. Qed.

Lemma loaded_tokens_are_the_token_variables_witness :
  exists tokens,
    load_client_tokens example_unicode 32 example_environ = Return tokens
    /\ (is_Some (tokens !! "0123456789abcdef0123456789abcdef")
        <-> exists key,
              (key, "0123456789abcdef0123456789abcdef") ∈ example_environ
              /\ token_variable key = true).
Proof.
  eexists. split; [reflexivity|].
  exact (proj1 (loaded_tokens_are_the_token_variables example_unicode 32
                  example_environ _
                  eq_refl) "0123456789abcdef0123456789abcdef").
Defined.

Lemma accepted_tokens_come_from_the_environment_witness :
  validate_token example_cfg "prefix-only-is-no-token-variable"
  = Raise (HTTPException 403 "Access Denied: Invalid token").
Proof.
  destruct (accepted_tokens_come_from_the_environment example_unicode 32
              example_cfg
              example_environ "prefix-only-is-no-token-variable")
    as [(_ & (key & Hin & Hkey) & _)|[Hrefused _]].
  - reflexivity.
  - exfalso. unfold example_environ in Hin.
    rewrite !elem_of_cons, elem_of_nil in Hin.
    destruct Hin as [Hin|[Hin|[Hin|[]]]]; simplify_eq; by vm_compute in Hkey.
  - exact Hrefused.
Defined.
